(** * Voice-operated ticket reservation: the dialog controller of [app.py]

    A shallow embedding of the Streamlit script [src/app.py] and the
    properties its specification states about it.

    One run of the script (one call of [main]) is one turn of the dialog.
    The script keeps everything in [st.session_state]; here that object is the
    record [session], threaded through a small state-and-exception monad.
    The collaborators that the script imports ([listen_for_command], the
    station list, the clock, the id generator, the speech engine) are read
    from an environment [env], one per turn.

    Strings are Python [str] values restricted to 8-bit characters; case
    conversion and the regular-expression classes are the ASCII ones, bytes
    above 127 have no case and are neither digits nor word characters, so
    the embedding follows Python on ASCII text.  Two limits of the
    interpreter and its C library show in the controller and are part of
    the embedding: [int] refuses more than 4300 digits, and [strftime]
    writes a year before 1000 with fewer than four digits, which
    [strptime] does not read back.

    Of the script's output only the notices that go through
    [display_text_as_voice] are kept; the other Streamlit rendering calls
    ([st.write], the status and message containers) and the PDF link built
    by [create_ticket_pdf] and [get_ticket_download_link] touch no session
    state and are left out. *)

From Stdlib Require Import String Ascii List ZArith Lia Bool DecimalString.
Import ListNotations.
Open Scope string_scope.

(* ================================================================== *)
(** ** Python string primitives *)

Module PyStr.

Definition code (c : ascii) : nat := nat_of_ascii c.

Definition between (lo hi : nat) (c : ascii) : bool :=
  (lo <=? code c)%nat && (code c <=? hi)%nat.

(** [\d], [A-Z], [a-z] and [\w] on ASCII text. *)
Definition is_digit : ascii -> bool := between 48 57.
Definition is_upper : ascii -> bool := between 65 90.
Definition is_lower : ascii -> bool := between 97 122.
Definition is_word (c : ascii) : bool :=
  is_digit c || is_upper c || is_lower c || (code c =? 95)%nat.

(** The class [[A-Z0-9]] of the ticket-id pattern. *)
Definition is_id_char (c : ascii) : bool := is_upper c || is_digit c.

Definition lower_char (c : ascii) : ascii :=
  if is_upper c then ascii_of_nat (code c + 32) else c.
Definition upper_char (c : ascii) : ascii :=
  if is_lower c then ascii_of_nat (code c - 32) else c.

(** [s.lower()] and [s.upper()]. *)
Fixpoint lower (s : string) : string :=
  match s with
  | EmptyString => EmptyString
  | String c s' => String (lower_char c) (lower s')
  end.

Fixpoint upper (s : string) : string :=
  match s with
  | EmptyString => EmptyString
  | String c s' => String (upper_char c) (upper s')
  end.

Fixpoint starts_with (p s : string) : bool :=
  match p, s with
  | EmptyString, _ => true
  | String _ _, EmptyString => false
  | String a p', String b s' => Ascii.eqb a b && starts_with p' s'
  end.

(** [needle in hay] for two strings. *)
Fixpoint contains (needle hay : string) : bool :=
  starts_with needle hay ||
  match hay with
  | EmptyString => false
  | String _ hay' => contains needle hay'
  end.

(** Truth value of a string: only the empty string is false. *)
Definition nonempty (s : string) : bool :=
  match s with EmptyString => false | String _ _ => true end.

(** [any(k in s for k in ks)]: the [or]-chains of keyword tests. *)
Definition contains_any (ks : list string) (s : string) : bool :=
  existsb (fun k => contains k s) ks.

(** Longest prefix of [s] made of characters of the class, and what
    follows it. *)
Fixpoint span (cls : ascii -> bool) (s : string) : string * string :=
  match s with
  | EmptyString => (EmptyString, EmptyString)
  | String c s' =>
      if cls c then let '(r, rest) := span cls s' in (String c r, rest)
      else (EmptyString, s)
  end.

Definition next_is_word (s : string) : bool :=
  match s with EmptyString => false | String c _ => is_word c end.

Definition within (lo : nat) (hi : option nat) (n : nat) : bool :=
  (lo <=? n)%nat && match hi with Some h => (n <=? h)%nat | None => true end.

(** [re.search(r'\b(C{lo,hi})\b', s)], group 1, for a class [C] of word
    characters ([hi = None] is [C{lo,}]).  The scan goes left to right;
    [prev_word] tells whether the character before the position is a word
    character.  At a position the pattern needs a word boundary before
    the first [C] character, so the previous character must not be a word
    character; the greedy repetition then takes the run of [C] characters,
    and the closing [\b] can only hold at the end of the whole run, since
    inside the run both neighbours are word characters; so the attempt
    succeeds exactly when the whole run has an admissible length and is
    not followed by a word character. *)
Fixpoint re_search_word (cls : ascii -> bool) (lo : nat) (hi : option nat)
         (prev_word : bool) (s : string) : option string :=
  match s with
  | EmptyString => None
  | String c s' =>
      let '(run, rest) := span cls s in
      if negb prev_word && cls c && within lo hi (String.length run)
         && negb (next_is_word rest)
      then Some run
      else re_search_word cls lo hi (is_word c) s'
  end.

(** [re.search(r'\b(\d+)\b', s)] *)
Definition search_number (s : string) : option string :=
  re_search_word is_digit 1 None false s.

(** [re.search(r'\b(\d{1,2})\b', s)] *)
Definition search_day (s : string) : option string :=
  re_search_word is_digit 1 (Some 2) false s.

(** [re.search(r'\b([A-Z0-9]{8})\b', s)] *)
Definition search_ticket_id (s : string) : option string :=
  re_search_word is_id_char 8 (Some 8) false s.

(** The value of a run of ASCII digits. *)
Fixpoint int_of_digits_from (acc : Z) (ds : string) : Z :=
  match ds with
  | EmptyString => acc
  | String c ds' => int_of_digits_from (10 * acc + Z.of_nat (code c - 48)) ds'
  end.
Definition int_of_digits (ds : string) : Z := int_of_digits_from 0 ds.

(** [int(ds)] for a run of ASCII digits.  [int] refuses a string of more
    than [sys.get_int_max_str_digits()] digits, leading zeros counted: it
    raises [ValueError], here [None].  The limit is 4300 unless the
    interpreter is set up otherwise. *)
Definition int_max_str_digits : Z := 4300.

Definition int_of_str (ds : string) : option Z :=
  if (Z.of_nat (String.length ds) <=? int_max_str_digits)%Z
  then Some (int_of_digits ds)
  else None.

(** [str(n)] for integers. *)
Definition str_of_Z (z : Z) : string := NilZero.string_of_int (Z.to_int z).
Definition str_of_nat (n : nat) : string := NilZero.string_of_uint (Nat.to_uint n).

(** [", ".join(xs)] *)
Fixpoint join (sep : string) (xs : list string) : string :=
  match xs with
  | [] => EmptyString
  | [x] => x
  | x :: xs' => x ++ sep ++ join sep xs'
  end.

(** [set(a) & set(b)]: the distinct characters of [a] that occur in [b]. *)
Definition chars (s : string) : list ascii := list_ascii_of_string s.
Definition common_chars (a b : string) : list ascii :=
  filter (fun c => existsb (Ascii.eqb c) (chars b)) (nodup ascii_dec (chars a)).

End PyStr.

(* ================================================================== *)
(** ** Calendar dates: [datetime], [strftime], [strptime] *)

Module Calendar.

Record date := Date { year : nat; month : nat; day : nat }.

Definition is_leap (y : nat) : bool :=
  ((y mod 4 =? 0) && negb (y mod 100 =? 0) || (y mod 400 =? 0))%nat.

Definition days_in_month (y m : nat) : nat :=
  match m with
  | 1 | 3 | 5 | 7 | 8 | 10 | 12 => 31
  | 4 | 6 | 9 | 11 => 30
  | 2 => if is_leap y then 29 else 28
  | _ => 0
  end.

(** [datetime(y, m, d)] raises [ValueError] unless the date exists. *)
Definition valid (d : date) : bool :=
  ((1 <=? year d) && (Z.of_nat (year d) <=? 9999)%Z && (1 <=? month d) && (month d <=? 12)
   && (1 <=? day d) && (day d <=? days_in_month (year d) (month d)))%nat.

(** [d + timedelta(days=1)]; [None] stands for the [OverflowError] after
    the last day of year 9999. *)
Definition next_day (d : date) : option date :=
  if (day d <? days_in_month (year d) (month d))%nat
  then Some (Date (year d) (month d) (S (day d)))
  else if (month d <? 12)%nat then Some (Date (year d) (S (month d)) 1)
  else if (Z.of_nat (year d) <? 9999)%Z then Some (Date (S (year d)) 1 1)
  else None.

Definition pad (width : nat) (n : nat) : string :=
  let s := PyStr.str_of_nat n in
  string_of_list_ascii (repeat "0"%char (width - String.length s)) ++ s.

(** [%Y] of [strftime], which hands the format to the C library: the year
    in decimal, without padding (glibc writes 999 for the year 999).  From
    the year 1000 on these are four digits on every platform. *)
Definition year_str (d : date) : string := PyStr.str_of_nat (year d).

(** [d.strftime("%Y-%m-%d")] *)
Definition iso (d : date) : string :=
  year_str d ++ "-" ++ pad 2 (month d) ++ "-" ++ pad 2 (day d).

(** The [months] table of the travel-date step, in the order the dict is
    iterated. *)
Definition months : list (string * nat) :=
  [("january", 1); ("february", 2); ("march", 3); ("april", 4); ("may", 5);
   ("june", 6); ("july", 7); ("august", 8); ("september", 9); ("october", 10);
   ("november", 11); ("december", 12)]%nat.

Definition capitalize (s : string) : string :=
  match s with
  | EmptyString => EmptyString
  | String c s' => String (PyStr.upper_char c) s'
  end.

Definition month_name (m : nat) : string :=
  match find (fun p => (snd p =? m)%nat) months with
  | Some p => capitalize (fst p)
  | None => EmptyString
  end.

(** [d.strftime("%B %d, %Y")] *)
Definition long (d : date) : string :=
  month_name (month d) ++ " " ++ pad 2 (day d) ++ ", " ++ year_str d.

Definition all_digits (s : string) : bool :=
  PyStr.nonempty s && forallb PyStr.is_digit (PyStr.chars s).

(** [datetime.strptime(s, "%Y-%m-%d")] on the strings that [iso] writes:
    exactly four digits, a dash, one or two digits, a dash, one or two
    digits, and the date must exist; [None] stands for the [ValueError]
    (so the three-digit year that [iso] writes before the year 1000 is
    refused). *)
Definition strptime_iso (s : string) : option date :=
  let '(y, r1) := PyStr.span PyStr.is_digit s in
  match r1 with
  | String "-" r1' =>
      let '(m, r2) := PyStr.span PyStr.is_digit r1' in
      match r2 with
      | String "-" r2' =>
          let '(d, r3) := PyStr.span PyStr.is_digit r2' in
          let dt := Date (Z.to_nat (PyStr.int_of_digits y))
                         (Z.to_nat (PyStr.int_of_digits m))
                         (Z.to_nat (PyStr.int_of_digits d)) in
          if (String.length y =? 4)%nat
             && PyStr.within 1 (Some 2) (String.length m)
             && PyStr.within 1 (Some 2) (String.length d)
             && negb (PyStr.nonempty r3) && valid dt
          then Some dt else None
      | _ => None
      end
  | _ => None
  end.

End Calendar.

(* ================================================================== *)
(** ** Data model *)

Inductive gender := Male | Female | Other.

Definition gender_str (g : gender) : string :=
  match g with Male => "Male" | Female => "Female" | Other => "Other" end.

(** A ticket, as the spec's data model has it (section 3). *)
Record ticket := Ticket {
  id : string;
  name : string;
  age : Z;
  gender_of : gender;
  source : string;
  destination : string;
  travel_date : option string;
  booking_time : string
}.

(** [st.session_state.ticket_details]: a dict with the ticket's keys, any of
    which may be missing. *)
Record details := Details {
  d_id : option string;
  d_name : option string;
  d_age : option Z;
  d_gender : option gender;
  d_source : option string;
  d_destination : option string;
  d_travel_date : option string;
  d_booking_time : option string
}.

(** [{}] *)
Definition no_details : details :=
  Details None None None None None None None None.

(** [dict(ticket)] *)
Definition dict_of_ticket (t : ticket) : details :=
  Details (Some (id t)) (Some (name t)) (Some (age t)) (Some (gender_of t))
          (Some (source t)) (Some (destination t)) (travel_date t)
          (Some (booking_time t)).

Inductive operation := op_book | op_modify | op_cancel | op_view.

Inductive book_step :=
| book_name | book_age | book_gender | book_source | book_destination
| book_travel_date | book_confirm.

Inductive modify_step :=
| modify_select_ticket | modify_select_field | modify_update_name
| modify_update_age | modify_update_gender | modify_update_source
| modify_update_destination.

Inductive cancel_step := cancel_select_ticket | cancel_confirm.

Inductive view_step :=
| view_display_options | view_ask_name | view_ask_id | view_download_ticket
| view_options.

(** [st.session_state], the fields the controller reads or writes.  An
    attribute that the script creates lazily ([modify_step], [cancel_step],
    [view_step], [last_viewed_ticket_id], [ticket_id_to_download]) is an
    option whose [None] is the missing attribute; [view_step] can moreover
    hold Python's [None]. *)
Record session := Session {
  tickets : list ticket;
  current_operation : option operation;
  ticket_details : details;
  selected_ticket_id : option string;
  booking_step : option book_step;
  modify_step_of : option modify_step;
  cancel_step_of : option cancel_step;
  view_step_of : option (option view_step);
  last_viewed_ticket_id : option string;
  ticket_id_to_download : option string;
  first_run : bool;
  show_success : bool;
  success_message : string;
  current_ticket : option ticket;
  selecting_from_matches : bool
}.

(** The session state the script sets up before its first turn. *)
Definition initial_session : session :=
  Session [] None no_details None None None None None None None
          true false EmptyString None false.

Definition set_tickets v (s : session) : session :=
  Session v (current_operation s) (ticket_details s) (selected_ticket_id s)
    (booking_step s) (modify_step_of s) (cancel_step_of s) (view_step_of s)
    (last_viewed_ticket_id s) (ticket_id_to_download s) (first_run s)
    (show_success s) (success_message s) (current_ticket s)
    (selecting_from_matches s).
Definition set_current_operation v (s : session) : session :=
  Session (tickets s) v (ticket_details s) (selected_ticket_id s)
    (booking_step s) (modify_step_of s) (cancel_step_of s) (view_step_of s)
    (last_viewed_ticket_id s) (ticket_id_to_download s) (first_run s)
    (show_success s) (success_message s) (current_ticket s)
    (selecting_from_matches s).
Definition set_ticket_details v (s : session) : session :=
  Session (tickets s) (current_operation s) v (selected_ticket_id s)
    (booking_step s) (modify_step_of s) (cancel_step_of s) (view_step_of s)
    (last_viewed_ticket_id s) (ticket_id_to_download s) (first_run s)
    (show_success s) (success_message s) (current_ticket s)
    (selecting_from_matches s).
Definition set_selected_ticket_id v (s : session) : session :=
  Session (tickets s) (current_operation s) (ticket_details s) v
    (booking_step s) (modify_step_of s) (cancel_step_of s) (view_step_of s)
    (last_viewed_ticket_id s) (ticket_id_to_download s) (first_run s)
    (show_success s) (success_message s) (current_ticket s)
    (selecting_from_matches s).
Definition set_booking_step v (s : session) : session :=
  Session (tickets s) (current_operation s) (ticket_details s)
    (selected_ticket_id s) v (modify_step_of s) (cancel_step_of s)
    (view_step_of s) (last_viewed_ticket_id s) (ticket_id_to_download s)
    (first_run s) (show_success s) (success_message s) (current_ticket s)
    (selecting_from_matches s).
Definition set_modify_step v (s : session) : session :=
  Session (tickets s) (current_operation s) (ticket_details s)
    (selected_ticket_id s) (booking_step s) v (cancel_step_of s)
    (view_step_of s) (last_viewed_ticket_id s) (ticket_id_to_download s)
    (first_run s) (show_success s) (success_message s) (current_ticket s)
    (selecting_from_matches s).
Definition set_cancel_step v (s : session) : session :=
  Session (tickets s) (current_operation s) (ticket_details s)
    (selected_ticket_id s) (booking_step s) (modify_step_of s) v
    (view_step_of s) (last_viewed_ticket_id s) (ticket_id_to_download s)
    (first_run s) (show_success s) (success_message s) (current_ticket s)
    (selecting_from_matches s).
Definition set_view_step v (s : session) : session :=
  Session (tickets s) (current_operation s) (ticket_details s)
    (selected_ticket_id s) (booking_step s) (modify_step_of s)
    (cancel_step_of s) v (last_viewed_ticket_id s) (ticket_id_to_download s)
    (first_run s) (show_success s) (success_message s) (current_ticket s)
    (selecting_from_matches s).
Definition set_last_viewed_ticket_id v (s : session) : session :=
  Session (tickets s) (current_operation s) (ticket_details s)
    (selected_ticket_id s) (booking_step s) (modify_step_of s)
    (cancel_step_of s) (view_step_of s) v (ticket_id_to_download s)
    (first_run s) (show_success s) (success_message s) (current_ticket s)
    (selecting_from_matches s).
Definition set_ticket_id_to_download v (s : session) : session :=
  Session (tickets s) (current_operation s) (ticket_details s)
    (selected_ticket_id s) (booking_step s) (modify_step_of s)
    (cancel_step_of s) (view_step_of s) (last_viewed_ticket_id s) v
    (first_run s) (show_success s) (success_message s) (current_ticket s)
    (selecting_from_matches s).
Definition set_first_run v (s : session) : session :=
  Session (tickets s) (current_operation s) (ticket_details s)
    (selected_ticket_id s) (booking_step s) (modify_step_of s)
    (cancel_step_of s) (view_step_of s) (last_viewed_ticket_id s)
    (ticket_id_to_download s) v (show_success s) (success_message s)
    (current_ticket s) (selecting_from_matches s).
Definition set_show_success v (s : session) : session :=
  Session (tickets s) (current_operation s) (ticket_details s)
    (selected_ticket_id s) (booking_step s) (modify_step_of s)
    (cancel_step_of s) (view_step_of s) (last_viewed_ticket_id s)
    (ticket_id_to_download s) (first_run s) v (success_message s)
    (current_ticket s) (selecting_from_matches s).
Definition set_success_message v (s : session) : session :=
  Session (tickets s) (current_operation s) (ticket_details s)
    (selected_ticket_id s) (booking_step s) (modify_step_of s)
    (cancel_step_of s) (view_step_of s) (last_viewed_ticket_id s)
    (ticket_id_to_download s) (first_run s) (show_success s) v
    (current_ticket s) (selecting_from_matches s).
Definition set_current_ticket v (s : session) : session :=
  Session (tickets s) (current_operation s) (ticket_details s)
    (selected_ticket_id s) (booking_step s) (modify_step_of s)
    (cancel_step_of s) (view_step_of s) (last_viewed_ticket_id s)
    (ticket_id_to_download s) (first_run s) (show_success s)
    (success_message s) v (selecting_from_matches s).
Definition set_selecting_from_matches v (s : session) : session :=
  Session (tickets s) (current_operation s) (ticket_details s)
    (selected_ticket_id s) (booking_step s) (modify_step_of s)
    (cancel_step_of s) (view_step_of s) (last_viewed_ticket_id s)
    (ticket_id_to_download s) (first_run s) (show_success s)
    (success_message s) (current_ticket s) v.

(** [ticket_details[key] = v] *)
Definition put_name v (d : details) : details :=
  Details (d_id d) (Some v) (d_age d) (d_gender d) (d_source d)
          (d_destination d) (d_travel_date d) (d_booking_time d).
Definition put_age v (d : details) : details :=
  Details (d_id d) (d_name d) (Some v) (d_gender d) (d_source d)
          (d_destination d) (d_travel_date d) (d_booking_time d).
Definition put_gender v (d : details) : details :=
  Details (d_id d) (d_name d) (d_age d) (Some v) (d_source d)
          (d_destination d) (d_travel_date d) (d_booking_time d).
Definition put_source v (d : details) : details :=
  Details (d_id d) (d_name d) (d_age d) (d_gender d) (Some v)
          (d_destination d) (d_travel_date d) (d_booking_time d).
Definition put_destination v (d : details) : details :=
  Details (d_id d) (d_name d) (d_age d) (d_gender d) (d_source d)
          (Some v) (d_travel_date d) (d_booking_time d).
Definition put_travel_date v (d : details) : details :=
  Details (d_id d) (d_name d) (d_age d) (d_gender d) (d_source d)
          (d_destination d) (Some v) (d_booking_time d).

(* ================================================================== *)
(** ** The ticket store ([ticket_operations]) *)

Module ticket_operations.

(** Modelled from the spec: [ticket_operations.py] is not part of the
    sources at hand.  Section 4.3: create generates the id, sets the booking
    time and the caller appends; here the generated id and the time stamp
    are arguments. *)
Definition book_ticket (new_id stamp : string) (nm : string) (ag : Z)
           (g : gender) (src dst : string) (td : option string) : ticket :=
  Ticket new_id nm ag g src dst td stamp.

(** Modelled from the spec: section 4.3, find-by-id returns the ticket with
    that id, if any. *)
Definition get_ticket_by_id (tid : string) (ts : list ticket) : option ticket :=
  find (fun t => String.eqb (id t) tid) ts.

(** Modelled from the spec: section 4.3, update writes the given fields into
    the ticket with that id and returns it; it returns nothing, and changes
    nothing, if the id is not found.  The result is the pair of the
    returned value and the store after the call. *)
Fixpoint modify_ticket (tid : string) (nm : string) (ag : Z) (g : gender)
         (src dst : string) (ts : list ticket) : option ticket * list ticket :=
  match ts with
  | [] => (None, [])
  | t :: ts' =>
      if String.eqb (id t) tid
      then let t' := Ticket (id t) nm ag g src dst (travel_date t) (booking_time t)
           in (Some t', t' :: ts')
      else let '(r, ts'') := modify_ticket tid nm ag g src dst ts' in (r, t :: ts'')
  end.

(** Modelled from the spec: section 4.3, delete removes the ticket with that
    id and tells whether there was one. *)
Fixpoint cancel_ticket (tid : string) (ts : list ticket) : bool * list ticket :=
  match ts with
  | [] => (false, [])
  | t :: ts' =>
      if String.eqb (id t) tid then (true, ts')
      else let '(r, ts'') := cancel_ticket tid ts' in (r, t :: ts'')
  end.

(** Modelled from the spec: section 4.3, find-by-name is a case-insensitive
    substring match over the name and keeps the store order. *)
Definition get_tickets_by_name (q : string) (ts : list ticket) : list ticket :=
  filter (fun t => PyStr.contains (PyStr.lower q) (PyStr.lower (name t))) ts.

End ticket_operations.

(* ================================================================== *)
(** ** Effects: session state, notices, exceptions *)

Inductive py_exception :=
| KeyError (key : string)
| TypeError
| ValueError
| OverflowError
| EngineError (msg : string).

(** What the collaborators answer during one turn. *)
Record env := Env {
  heard : option string;          (* [listen_for_command()] *)
  stations : list string;         (* [get_station_list()] *)
  today : Calendar.date;          (* [datetime.now()] *)
  stamp : string;                 (* the booking time [book_ticket] writes *)
  new_id : string;                (* the id [book_ticket] generates *)
  tts : string -> option py_exception
    (* the speech engine on a text: [None] it speaks, [Some e] it raises *)
}.

(** The session state together with what the turn has put on the screen
    through [voice_output], what was spoken, and how often the microphone
    was read. *)
Record world := World {
  sess : session;
  shown : list string;
  spoken : list string;
  listens : nat
}.

Inductive result (A : Type) :=
| Ok (a : A)
| Raise (e : py_exception).
Arguments Ok {A} a.
Arguments Raise {A} e.

Definition M (A : Type) : Type := env -> world -> result A * world.

Definition ret {A} (a : A) : M A := fun _ w => (Ok a, w).

Definition bind {A B} (m : M A) (k : A -> M B) : M B :=
  fun e w =>
    match m e w with
    | (Ok a, w') => k a e w'
    | (Raise x, w') => (Raise x, w')
    end.

Notation "x <- m ;; k" := (bind m (fun x => k))
  (at level 61, m at next level, right associativity).
Notation "m ;; k" := (bind m (fun _ => k))
  (at level 61, right associativity).

Definition raise {A} (x : py_exception) : M A := fun _ w => (Raise x, w).

(** [try: body  except Exception: handler] *)
Definition try_except {A} (body : M A) (handler : py_exception -> M A) : M A :=
  fun e w =>
    match body e w with
    | (Ok a, w') => (Ok a, w')
    | (Raise x, w') => handler x e w'
    end.

Definition ask : M env := fun e w => (Ok e, w).
Definition state : M session := fun _ w => (Ok (sess w), w).
Definition update (f : session -> session) : M unit :=
  fun _ w => (Ok tt, World (f (sess w)) (shown w) (spoken w) (listens w)).

(** [voice_output.info(...)]: the visual echo of a notice. *)
Definition voice_output_info (text : string) : M unit :=
  fun _ w => (Ok tt, World (sess w) (shown w ++ [text]) (spoken w) (listens w)).

(** The body of the [try] in [display_text_as_voice]: load the engine, set
    it up, say the text and wait. *)
Definition engine_say (text : string) : M unit :=
  fun e w =>
    match tts e text with
    | None => (Ok tt, World (sess w) (shown w) (spoken w ++ [text]) (listens w))
    | Some x => (Raise x, w)
    end.

Definition display_text_as_voice (text : string) : M unit :=
  voice_output_info text ;;
  try_except (engine_say text) (fun _ => ret tt).

(** [listen_for_command()], read the way every caller reads it, through
    [if command:], so that the empty string counts as nothing heard. *)
Definition heard_command (e : env) : option string :=
  match heard e with
  | Some c => if PyStr.nonempty c then Some c else None
  | None => None
  end.

Definition listen_for_command : M (option string) :=
  fun e w =>
    (Ok (heard_command e), World (sess w) (shown w) (spoken w) (S (listens w))).

Definition get_station_list : M (list string) :=
  fun e w => (Ok (stations e), w).

(** [d[key]] on the buffer: a missing key raises [KeyError]. *)
Definition item {A} (key : string) (v : option A) : M A :=
  match v with Some a => ret a | None => raise (KeyError key) end.

Fixpoint for_each {A} (xs : list A) (body : A -> M unit) : M unit :=
  match xs with
  | [] => ret tt
  | x :: xs' => body x ;; for_each xs' body
  end.

(** [enumerate(xs)] *)
Definition enumerate {A} (xs : list A) : list (nat * A) :=
  combine (seq 0 (length xs)) xs.

Definition put_details (f : details -> details) : M unit :=
  update (fun s => set_ticket_details (f (ticket_details s)) s).

(* ================================================================== *)
(** ** The station resolver (the loop of the four station steps) *)

Definition station_candidate (input station : string) : bool :=
  PyStr.contains (PyStr.lower input) (PyStr.lower station)
  || PyStr.contains (PyStr.lower station) (PyStr.lower input).

Definition station_score (input station : string) : nat :=
  length (PyStr.common_chars (PyStr.lower input) (PyStr.lower station)).

(** The [for station in stations] loop, with its two loop variables. *)
Fixpoint best_station (input : string) (sts : list string)
         (best_match : option string) (best_score : nat) : option string :=
  match sts with
  | [] => best_match
  | station :: rest =>
      if station_candidate input station then
        let score := station_score input station in
        if (best_score <? score)%nat
        then best_station input rest (Some station) score
        else best_station input rest best_match best_score
      else best_station input rest best_match best_score
  end.

(** [best_match] after the loop, as [if best_match:] sees it. *)
Definition match_station (input : string) (sts : list string) : option string :=
  match best_station input sts None 0 with
  | Some st => if PyStr.nonempty st then Some st else None
  | None => None
  end.

Definition station_examples (sts : list string) : string :=
  PyStr.join ", " (firstn 5 sts).

(* ================================================================== *)
(** ** Field parsers *)

Inductive age_reading :=
| age_ok (a : Z)
| age_out_of_range
| age_not_found
| age_value_error.

(** The [try] block of the age steps up to its notice:
    [re.search(r'\b(\d+)\b', ...)], [int], [1 <= age <= 120].  Only [int]
    can raise in the block; its [ValueError] is what the [except] clause
    catches. *)
Definition read_age (age_input : string) : age_reading :=
  match PyStr.search_number age_input with
  | Some ds =>
      match PyStr.int_of_str ds with
      | Some a =>
          if ((1 <=? a) && (a <=? 120))%Z then age_ok a else age_out_of_range
      | None => age_value_error
      end
  | None => age_not_found
  end.

(** The gender steps, on the lowercased input. *)
Definition read_gender (gender_input : string) : gender :=
  if PyStr.contains "male" gender_input && negb (PyStr.contains "female" gender_input)
  then Male
  else if PyStr.contains "female" gender_input then Female
  else Other.

Definition find_month (date_input : string) : option nat :=
  match find (fun p => PyStr.contains (fst p) date_input) Calendar.months with
  | Some p => Some (snd p)
  | None => None
  end.

Definition find_day (date_input : string) : option nat :=
  match PyStr.search_day date_input with
  | Some ds => Some (Z.to_nat (PyStr.int_of_digits ds))
  | None => None
  end.

(* ================================================================== *)
(** ** Notices that carry ticket data *)

Definition menu_ticket_info (p : nat * ticket) : string :=
  let '(idx, t) := p in
  "Ticket " ++ PyStr.str_of_nat (idx + 1) ++ ", ID " ++ id t ++ ", " ++ name t
  ++ ", from " ++ source t ++ " to " ++ destination t.

Definition match_ticket_info (t : ticket) : string :=
  "Ticket ID " ++ id t ++ ", " ++ name t ++ ", from " ++ source t ++ " to "
  ++ destination t.

(** [travel_date_str]: empty unless the ticket has a travel date that
    [strptime] reads. *)
Definition travel_date_str (t : ticket) : string :=
  match travel_date t with
  | Some td =>
      match Calendar.strptime_iso td with
      | Some d => ", traveling on " ++ Calendar.long d
      | None => EmptyString
      end
  | None => EmptyString
  end.

Definition list_ticket_info (p : nat * ticket) : string :=
  let '(idx, t) := p in
  "Ticket " ++ PyStr.str_of_nat (idx + 1) ++ ", ID " ++ id t ++ ", " ++ name t
  ++ ", age " ++ PyStr.str_of_Z (age t) ++ ", from " ++ source t ++ " to "
  ++ destination t ++ travel_date_str t ++ ", booked on " ++ booking_time t.

Definition found_ticket_info (t : ticket) : string :=
  "Found ticket ID " ++ id t ++ " for " ++ name t ++ ", age "
  ++ PyStr.str_of_Z (age t) ++ ", gender " ++ gender_str (gender_of t)
  ++ ", from " ++ source t ++ " to " ++ destination t ++ travel_date_str t
  ++ ", booked on " ++ booking_time t.

(* ================================================================== *)
(** ** The main menu *)

Definition welcome : string :=
  "Welcome to the Railway Ticket Reservation System. This system is fully controlled by your voice. Say 'Book a ticket', 'Modify a ticket', 'Cancel a ticket', or 'View tickets'.".

Definition help_text : string :=
  "Here are the available commands: Say 'Book a ticket' to create a new booking. Say 'Modify a ticket' followed by a name or ID to change an existing ticket. Say 'Cancel a ticket' followed by a name or ID to remove a booking. Say 'View tickets' to see all your bookings. Say 'Ticket ID' followed by your ticket number to look up a specific ticket. Say 'Find tickets' followed by a name to search for tickets by passenger name.".

Definition main_menu_prompt : string :=
  "I'm listening for your command. Say 'Book a ticket', 'Modify a ticket' followed by a name or ID, 'Cancel a ticket' followed by a name or ID, 'View tickets', 'Look up ticket ID', or 'Search by name'. You can also say 'Help' for a list of all commands.".

Definition no_tickets_to_modify : string :=
  "You don't have any tickets to modify. Say 'Book a ticket' to create a new booking.".

Definition no_tickets_to_cancel : string :=
  "You don't have any tickets to cancel. Say 'Book a ticket' to create a new booking.".

Definition process_main_menu : M unit :=
  s0 <- state ;;
  (if first_run s0
   then display_text_as_voice welcome ;; update (set_first_run false)
   else ret tt) ;;
  command <- listen_for_command ;;
  match command with
  | Some command =>
      let c := PyStr.lower command in
      if PyStr.contains "book" c || PyStr.contains "new" c || PyStr.contains "ticket" c then
        update (set_current_operation (Some op_book)) ;;
        display_text_as_voice "Starting new ticket booking process. Please tell me your name." ;;
        update (set_booking_step (Some book_name))
      else if PyStr.contains "modify" c || PyStr.contains "edit" c || PyStr.contains "change" c then
        update (set_current_operation (Some op_modify)) ;;
        s <- state ;;
        match tickets s with
        | _ :: _ =>
            display_text_as_voice "You have the following tickets. You can say the ID number or passenger name of the ticket you want to modify." ;;
            for_each (enumerate (tickets s))
                     (fun p => display_text_as_voice (menu_ticket_info p)) ;;
            update (set_modify_step (Some modify_select_ticket))
        | [] =>
            display_text_as_voice no_tickets_to_modify ;;
            update (set_current_operation None)
        end
      else if PyStr.contains "cancel" c || PyStr.contains "delete" c || PyStr.contains "remove" c then
        update (set_current_operation (Some op_cancel)) ;;
        s <- state ;;
        match tickets s with
        | _ :: _ =>
            display_text_as_voice "You have the following tickets. Please say the ID number or passenger name of the ticket you want to cancel." ;;
            for_each (enumerate (tickets s))
                     (fun p => display_text_as_voice (menu_ticket_info p)) ;;
            update (set_cancel_step (Some cancel_select_ticket))
        | [] =>
            display_text_as_voice no_tickets_to_cancel ;;
            update (set_current_operation None)
        end
      else if PyStr.contains "view" c || PyStr.contains "show" c || PyStr.contains "list" c || PyStr.contains "all" c then
        update (set_current_operation (Some op_view)) ;;
        update (set_view_step (Some (Some view_display_options))) ;;
        display_text_as_voice "How would you like to view your tickets? Say 'All tickets' to see all, say a name to search by passenger, or say a ticket ID to see a specific ticket."
      else if PyStr.contains "find" c || PyStr.contains "search" c || PyStr.contains "my tickets" c || PyStr.contains "my name" c then
        update (set_current_operation (Some op_view)) ;;
        update (set_view_step (Some (Some view_ask_name))) ;;
        display_text_as_voice "Please say the passenger name to search for."
      else if PyStr.contains "ticket id" c || PyStr.contains "find id" c || PyStr.contains "search id" c || PyStr.contains "lookup id" c || PyStr.contains "ticket number" c then
        update (set_current_operation (Some op_view)) ;;
        update (set_view_step (Some (Some view_ask_id))) ;;
        display_text_as_voice "Please say the ticket ID you want to look up."
      else if PyStr.contains "help" c then
        display_text_as_voice help_text
      else
        display_text_as_voice "Sorry, I didn't understand that command. Please try again."
  | None =>
      display_text_as_voice main_menu_prompt
  end.

(* ================================================================== *)
(** ** Booking *)

Definition age_range_notice : string :=
  "Age must be between 1 and 120. Please try again.".
Definition age_unclear_notice : string :=
  "I couldn't understand your age. Please say a number clearly.".
Definition same_station_notice : string :=
  "Source and destination cannot be the same. Please choose a different destination.".
Definition no_station_notice (sts : list string) : string :=
  "I couldn't match your station. Please try again. Some examples are: "
  ++ station_examples sts.

Inductive date_reading :=
| date_ok (travel_date : string)
| date_invalid
| date_not_found
| date_overflow.

(** The travel-date step up to [if travel_date:], on the lowercased input. *)
Definition read_date (now : Calendar.date) (date_input : string) : date_reading :=
  if PyStr.contains "tomorrow" date_input then
    match Calendar.next_day now with
    | Some tomorrow => date_ok (Calendar.iso tomorrow)
    | None => date_overflow
    end
  else if PyStr.contains "today" date_input then
    date_ok (Calendar.iso now)
  else
    match find_month date_input, find_day date_input with
    | Some month_num, Some (S _ as day_num) =>
        let d := Calendar.Date (Calendar.year now) month_num day_num in
        if Calendar.valid d then date_ok (Calendar.iso d) else date_invalid
    | _, _ => date_not_found
    end.

Definition process_booking : M unit :=
  s0 <- state ;;
  match booking_step s0 with
  | Some book_name =>
      name_input <- listen_for_command ;;
      match name_input with
      | Some nm =>
          put_details (put_name nm) ;;
          display_text_as_voice ("Name recorded as " ++ nm ++ ". Now, please say your age.") ;;
          update (set_booking_step (Some book_age))
      | None =>
          display_text_as_voice "I couldn't hear your name. Please say your full name."
      end
  | Some book_age =>
      age_input <- listen_for_command ;;
      match age_input with
      | Some age_input =>
          match read_age age_input with
          | age_ok a =>
              put_details (put_age a) ;;
              display_text_as_voice ("Age recorded as " ++ PyStr.str_of_Z a ++ ". Now, please say your gender: Male, Female, or Other.") ;;
              update (set_booking_step (Some book_gender))
          | age_out_of_range => display_text_as_voice age_range_notice
          | age_not_found => display_text_as_voice age_unclear_notice
          | age_value_error => display_text_as_voice age_unclear_notice
          end
      | None =>
          display_text_as_voice "I couldn't hear your age. Please say your age as a number."
      end
  | Some book_gender =>
      gender_input <- listen_for_command ;;
      match gender_input with
      | Some gender_input =>
          let g := read_gender (PyStr.lower gender_input) in
          put_details (put_gender g) ;;
          display_text_as_voice ("Gender recorded as " ++ gender_str g ++ ". Now, please say your source station.") ;;
          update (set_booking_step (Some book_source))
      | None =>
          display_text_as_voice "I couldn't hear your gender. Please say Male, Female, or Other."
      end
  | Some book_source =>
      source_input <- listen_for_command ;;
      match source_input with
      | Some source_input =>
          sts <- get_station_list ;;
          match match_station source_input sts with
          | Some best_match =>
              put_details (put_source best_match) ;;
              display_text_as_voice ("Source station recorded as " ++ best_match ++ ". Now, please say your destination station.") ;;
              update (set_booking_step (Some book_destination))
          | None => display_text_as_voice (no_station_notice sts)
          end
      | None =>
          display_text_as_voice "I couldn't hear your source station. Please say the name of your departure station."
      end
  | Some book_destination =>
      destination_input <- listen_for_command ;;
      match destination_input with
      | Some destination_input =>
          sts <- get_station_list ;;
          match match_station destination_input sts with
          | Some best_match =>
              s <- state ;;
              if match d_source (ticket_details s) with
                 | Some src => String.eqb src best_match
                 | None => false
                 end
              then display_text_as_voice same_station_notice
              else
                put_details (put_destination best_match) ;;
                display_text_as_voice ("Destination recorded as " ++ best_match ++ ". Now, please say your travel date in the format month day, for example 'March 30' or say 'tomorrow'.") ;;
                update (set_booking_step (Some book_travel_date))
          | None => display_text_as_voice (no_station_notice sts)
          end
      | None =>
          display_text_as_voice "I couldn't hear your destination station. Please say the name of your arrival station."
      end
  | Some book_travel_date =>
      date_input <- listen_for_command ;;
      match date_input with
      | Some date_input =>
          e <- ask ;;
          match read_date (today e) (PyStr.lower date_input) with
          | date_invalid =>
              display_text_as_voice "Invalid date. Please provide a valid date."
          | date_ok td =>
              put_details (put_travel_date td) ;;
              date_obj <- match Calendar.strptime_iso td with
                          | Some d => ret d
                          | None => raise ValueError
                          end ;;
              let formatted_date := Calendar.long date_obj in
              display_text_as_voice ("Travel date recorded as " ++ formatted_date ++ ".") ;;
              s <- state ;;
              let details := ticket_details s in
              nm <- item "name" (d_name details) ;;
              ag <- item "age" (d_age details) ;;
              g <- item "gender" (d_gender details) ;;
              src <- item "source" (d_source details) ;;
              dst <- item "destination" (d_destination details) ;;
              display_text_as_voice ("Please confirm: You want to book a ticket for " ++ nm ++ ", age " ++ PyStr.str_of_Z ag ++ ", gender " ++ gender_str g ++ ", from " ++ src ++ " to " ++ dst ++ ", on " ++ formatted_date ++ ". Say 'Confirm' to book this ticket or 'Cancel' to abort.") ;;
              update (set_booking_step (Some book_confirm))
          | date_not_found =>
              display_text_as_voice "I couldn't understand the date. Please say a date like 'March 30' or 'tomorrow'."
          | date_overflow => raise OverflowError
          end
      | None =>
          display_text_as_voice "I couldn't hear your travel date. Please say a date like 'March 30' or 'tomorrow'."
      end
  | Some book_confirm =>
      confirm_input <- listen_for_command ;;
      match confirm_input with
      | Some confirm_input =>
          let c := PyStr.lower confirm_input in
          if PyStr.contains "confirm" c || PyStr.contains "yes" c then
            e <- ask ;;
            s <- state ;;
            let details := ticket_details s in
            nm <- item "name" (d_name details) ;;
            ag <- item "age" (d_age details) ;;
            g <- item "gender" (d_gender details) ;;
            src <- item "source" (d_source details) ;;
            dst <- item "destination" (d_destination details) ;;
            let t := ticket_operations.book_ticket (new_id e) (stamp e) nm ag g src dst
                       (d_travel_date details) in
            update (fun s => set_tickets (tickets s ++ [t]) s) ;;
            display_text_as_voice ("Ticket booked successfully! Your ticket ID is " ++ id t ++ ". The ticket is now displayed on screen with a download option. Returning to main menu.") ;;
            update (set_current_ticket (Some t)) ;;
            update (set_show_success true) ;;
            update (set_success_message ("Ticket booked successfully! Your ticket ID is " ++ id t ++ ". What would you like to do next?")) ;;
            update (set_current_operation None) ;;
            update (set_booking_step None) ;;
            update (set_ticket_details no_details)
          else if PyStr.contains "cancel" c || PyStr.contains "no" c then
            display_text_as_voice "Booking cancelled. Returning to main menu." ;;
            update (set_current_operation None) ;;
            update (set_booking_step None) ;;
            update (set_ticket_details no_details)
          else
            display_text_as_voice "Please say 'Confirm' to book the ticket or 'Cancel' to abort."
      | None =>
          display_text_as_voice "I couldn't hear your response. Please say 'Confirm' to book the ticket or 'Cancel' to abort."
      end
  | None => ret tt
  end.

(* ================================================================== *)
(** ** Modification *)

(** [get_ticket_by_id(st.session_state.selected_ticket_id, ...)]: the
    selected id may be Python's [None], which equals no ticket's id. *)
Definition get_selected (sel : option string) (ts : list ticket) : option ticket :=
  match sel with
  | Some tid => ticket_operations.get_ticket_by_id tid ts
  | None => None
  end.

Definition what_else : string :=
  " What else would you like to modify? Or say 'Confirm' to save changes.".

(** The four assignments that end a modification. *)
Definition reset_modification : M unit :=
  update (set_current_operation None) ;;
  update (set_modify_step (Some modify_select_ticket)) ;;
  update (set_selected_ticket_id None) ;;
  update (set_ticket_details no_details).

Definition process_modification : M unit :=
  s00 <- state ;;
  (match modify_step_of s00 with
   | None => update (set_modify_step (Some modify_select_ticket))
   | Some _ => ret tt
   end) ;;
  s0 <- state ;;
  match modify_step_of s0 with
  | Some modify_select_ticket =>
      ticket_input <- listen_for_command ;;
      match ticket_input with
      | Some ticket_input =>
          match PyStr.search_ticket_id (PyStr.upper ticket_input) with
          | Some ticket_id =>
              match ticket_operations.get_ticket_by_id ticket_id (tickets s0) with
              | Some t =>
                  update (set_selected_ticket_id (Some ticket_id)) ;;
                  display_text_as_voice ("Found ticket for " ++ name t ++ ". What would you like to modify? Say name, age, gender, source, or destination.") ;;
                  update (set_modify_step (Some modify_select_field))
              | None =>
                  display_text_as_voice ("No ticket found with ID " ++ ticket_id ++ ". Please try again.")
              end
          | None =>
              match ticket_operations.get_tickets_by_name ticket_input (tickets s0) with
              | [] =>
                  display_text_as_voice "No tickets found matching that name or ID. Please try again with a different name or ticket ID."
              | [t] =>
                  update (set_selected_ticket_id (Some (id t))) ;;
                  display_text_as_voice ("Found ticket for " ++ name t ++ ", from " ++ source t ++ " to " ++ destination t ++ ". What would you like to modify? Say name, age, gender, source, or destination.") ;;
                  update (set_modify_step (Some modify_select_field))
              | matching_tickets =>
                  display_text_as_voice ("Found " ++ PyStr.str_of_nat (length matching_tickets) ++ " tickets for '" ++ ticket_input ++ "'. Please choose one by saying the ticket ID:") ;;
                  for_each matching_tickets
                           (fun t => display_text_as_voice (match_ticket_info t)) ;;
                  update (set_selecting_from_matches true)
              end
          end
      | None =>
          display_text_as_voice "I couldn't hear your command. Please say the ID or passenger name of the ticket you want to modify."
      end
  | Some modify_select_field =>
      field_input <- listen_for_command ;;
      match field_input with
      | Some field_input =>
          let field := PyStr.lower field_input in
          t <- match get_selected (selected_ticket_id s0) (tickets s0) with
               | Some t => ret t
               | None => raise TypeError
               end ;;
          update (set_ticket_details (dict_of_ticket t)) ;;
          if PyStr.contains "name" field then
            display_text_as_voice ("Current name is " ++ name t ++ ". Please say the new name.") ;;
            update (set_modify_step (Some modify_update_name))
          else if PyStr.contains "age" field then
            display_text_as_voice ("Current age is " ++ PyStr.str_of_Z (age t) ++ ". Please say the new age.") ;;
            update (set_modify_step (Some modify_update_age))
          else if PyStr.contains "gender" field then
            display_text_as_voice ("Current gender is " ++ gender_str (gender_of t) ++ ". Please say the new gender.") ;;
            update (set_modify_step (Some modify_update_gender))
          else if PyStr.contains "source" field then
            display_text_as_voice ("Current source station is " ++ source t ++ ". Please say the new source station.") ;;
            update (set_modify_step (Some modify_update_source))
          else if PyStr.contains "destination" field then
            display_text_as_voice ("Current destination station is " ++ destination t ++ ". Please say the new destination station.") ;;
            update (set_modify_step (Some modify_update_destination))
          else if PyStr.contains "confirm" field || PyStr.contains "update" field || PyStr.contains "save" field then
            s <- state ;;
            let details := ticket_details s in
            nm <- item "name" (d_name details) ;;
            ag <- item "age" (d_age details) ;;
            g <- item "gender" (d_gender details) ;;
            src <- item "source" (d_source details) ;;
            dst <- item "destination" (d_destination details) ;;
            let '(updated_ticket, ts) :=
              match selected_ticket_id s with
              | Some tid => ticket_operations.modify_ticket tid nm ag g src dst (tickets s)
              | None => (None, tickets s)
              end in
            update (set_tickets ts) ;;
            match updated_ticket with
            | Some _ =>
                display_text_as_voice "Ticket updated successfully. Returning to main menu." ;;
                update (set_show_success true) ;;
                update (set_success_message "Ticket updated successfully! What would you like to do next?") ;;
                reset_modification
            | None =>
                display_text_as_voice "Error updating ticket. Please try again." ;;
                reset_modification
            end
          else if PyStr.contains "cancel" field || PyStr.contains "abort" field then
            display_text_as_voice "Modification cancelled. Returning to main menu." ;;
            reset_modification
          else
            display_text_as_voice "Please specify what you want to modify: name, age, gender, source, or destination. Or say 'Confirm' to save changes or 'Cancel' to abort."
      | None =>
          display_text_as_voice "I couldn't hear your command. Please specify what you want to modify: name, age, gender, source, or destination."
      end
  | Some modify_update_name =>
      name_input <- listen_for_command ;;
      match name_input with
      | Some name_input =>
          put_details (put_name name_input) ;;
          display_text_as_voice ("Name updated to " ++ name_input ++ "." ++ what_else) ;;
          update (set_modify_step (Some modify_select_field))
      | None =>
          display_text_as_voice "I couldn't hear your input. Please say the new name."
      end
  | Some modify_update_age =>
      age_input <- listen_for_command ;;
      match age_input with
      | Some age_input =>
          match read_age age_input with
          | age_ok a =>
              put_details (put_age a) ;;
              display_text_as_voice ("Age updated to " ++ PyStr.str_of_Z a ++ "." ++ what_else) ;;
              update (set_modify_step (Some modify_select_field))
          | age_out_of_range => display_text_as_voice age_range_notice
          | age_not_found => display_text_as_voice age_unclear_notice
          | age_value_error => display_text_as_voice age_unclear_notice
          end
      | None =>
          display_text_as_voice "I couldn't hear your input. Please say the new age."
      end
  | Some modify_update_gender =>
      gender_input <- listen_for_command ;;
      match gender_input with
      | Some gender_input =>
          let g := read_gender (PyStr.lower gender_input) in
          put_details (put_gender g) ;;
          display_text_as_voice ("Gender updated to " ++ gender_str g ++ "." ++ what_else) ;;
          update (set_modify_step (Some modify_select_field))
      | None =>
          display_text_as_voice "I couldn't hear your input. Please say Male, Female, or Other."
      end
  | Some modify_update_source =>
      source_input <- listen_for_command ;;
      match source_input with
      | Some source_input =>
          sts <- get_station_list ;;
          match match_station source_input sts with
          | Some best_match =>
              put_details (put_source best_match) ;;
              display_text_as_voice ("Source station updated to " ++ best_match ++ "." ++ what_else) ;;
              update (set_modify_step (Some modify_select_field))
          | None => display_text_as_voice (no_station_notice sts)
          end
      | None =>
          display_text_as_voice "I couldn't hear your input. Please say the new source station."
      end
  | Some modify_update_destination =>
      destination_input <- listen_for_command ;;
      match destination_input with
      | Some destination_input =>
          sts <- get_station_list ;;
          match match_station destination_input sts with
          | Some best_match =>
              s <- state ;;
              src <- item "source" (d_source (ticket_details s)) ;;
              if String.eqb src best_match
              then display_text_as_voice same_station_notice
              else
                put_details (put_destination best_match) ;;
                display_text_as_voice ("Destination station updated to " ++ best_match ++ "." ++ what_else) ;;
                update (set_modify_step (Some modify_select_field))
          | None => display_text_as_voice (no_station_notice sts)
          end
      | None =>
          display_text_as_voice "I couldn't hear your input. Please say the new destination station."
      end
  | None => ret tt
  end.

(* ================================================================== *)
(** ** Cancellation *)

Definition reset_cancellation : M unit :=
  update (set_current_operation None) ;;
  update (set_cancel_step (Some cancel_select_ticket)) ;;
  update (set_selected_ticket_id None).

Definition process_cancellation : M unit :=
  s00 <- state ;;
  (match cancel_step_of s00 with
   | None => update (set_cancel_step (Some cancel_select_ticket))
   | Some _ => ret tt
   end) ;;
  s0 <- state ;;
  match cancel_step_of s0 with
  | Some cancel_select_ticket =>
      ticket_input <- listen_for_command ;;
      match ticket_input with
      | Some ticket_input =>
          match PyStr.search_ticket_id (PyStr.upper ticket_input) with
          | Some ticket_id =>
              match ticket_operations.get_ticket_by_id ticket_id (tickets s0) with
              | Some t =>
                  update (set_selected_ticket_id (Some ticket_id)) ;;
                  display_text_as_voice ("Found ticket for " ++ name t ++ " from " ++ source t ++ " to " ++ destination t ++ ". Say 'Confirm' to cancel this ticket or 'No' to keep it.") ;;
                  update (set_cancel_step (Some cancel_confirm))
              | None =>
                  display_text_as_voice ("No ticket found with ID " ++ ticket_id ++ ". Please try again.")
              end
          | None =>
              match ticket_operations.get_tickets_by_name ticket_input (tickets s0) with
              | [] =>
                  display_text_as_voice "No tickets found matching that name or ID. Please try again with a different name or ticket ID."
              | [t] =>
                  update (set_selected_ticket_id (Some (id t))) ;;
                  display_text_as_voice ("Found ticket for " ++ name t ++ ", from " ++ source t ++ " to " ++ destination t ++ ". Say 'Confirm' to cancel this ticket or 'No' to keep it.") ;;
                  update (set_cancel_step (Some cancel_confirm))
              | matching_tickets =>
                  display_text_as_voice ("Found " ++ PyStr.str_of_nat (length matching_tickets) ++ " tickets for '" ++ ticket_input ++ "'. Please choose one by saying the ticket ID:") ;;
                  for_each matching_tickets
                           (fun t => display_text_as_voice (match_ticket_info t))
              end
          end
      | None =>
          display_text_as_voice "I couldn't hear your command. Please say the ID or passenger name of the ticket you want to cancel."
      end
  | Some cancel_confirm =>
      confirm_input <- listen_for_command ;;
      match confirm_input with
      | Some confirm_input =>
          let c := PyStr.lower confirm_input in
          if PyStr.contains "confirm" c || PyStr.contains "yes" c || PyStr.contains "delete" c then
            let '(success, ts) :=
              match selected_ticket_id s0 with
              | Some tid => ticket_operations.cancel_ticket tid (tickets s0)
              | None => (false, tickets s0)
              end in
            update (set_tickets ts) ;;
            if success then
              display_text_as_voice "Ticket cancelled successfully. Returning to main menu." ;;
              update (set_show_success true) ;;
              update (set_success_message "Ticket cancelled successfully! What would you like to do next?") ;;
              reset_cancellation
            else
              display_text_as_voice "Error cancelling ticket. Please try again." ;;
              reset_cancellation
          else if PyStr.contains "no" c || PyStr.contains "keep" c || PyStr.contains "don't" c then
            display_text_as_voice "Cancellation aborted. Ticket is kept. Returning to main menu." ;;
            reset_cancellation
          else
            display_text_as_voice "Please say 'Confirm' to cancel the ticket or 'No' to keep it."
      | None =>
          display_text_as_voice "I couldn't hear your command. Please say 'Confirm' to cancel the ticket or 'No' to keep it."
      end
  | None => ret tt
  end.

(* ================================================================== *)
(** ** Viewing *)

Definition end_of_list : string :=
  "End of ticket list. Say a new command to continue.".

(** Announce a list of tickets and go back to the main menu. *)
Definition list_tickets (header : string) (ts : list ticket) : M unit :=
  display_text_as_voice header ;;
  for_each (enumerate ts) (fun p => display_text_as_voice (list_ticket_info p)) ;;
  display_text_as_voice end_of_list ;;
  update (set_current_operation None) ;;
  update (set_view_step (Some None)).

(** The name search shared by [display_options] and [ask_name]. *)
Definition search_by_name (name_input : string) : M unit :=
  s <- state ;;
  match ticket_operations.get_tickets_by_name name_input (tickets s) with
  | _ :: _ as matching_tickets =>
      list_tickets ("Found " ++ PyStr.str_of_nat (length matching_tickets) ++ " tickets for name containing '" ++ name_input ++ "':") matching_tickets
  | [] =>
      display_text_as_voice ("No tickets found for name containing '" ++ name_input ++ "'. Say 'Book a ticket' to create a new booking.") ;;
      update (set_current_operation None) ;;
      update (set_view_step (Some None))
  end.

(** [if ticket_id:] of [display_options], once an id was read. *)
Definition lookup_ticket (ticket_id : string) : M unit :=
  s <- state ;;
  match ticket_operations.get_ticket_by_id ticket_id (tickets s) with
  | Some t =>
      display_text_as_voice (found_ticket_info t) ;;
      display_text_as_voice "You can download your ticket as a PDF file using the download link on the screen. Say 'download ticket' to get your ticket." ;;
      update (set_last_viewed_ticket_id (Some (id t))) ;;
      update (set_ticket_id_to_download (Some (id t))) ;;
      update (set_current_operation (Some op_view)) ;;
      update (set_view_step (Some (Some view_options)))
  | None =>
      display_text_as_voice ("No ticket found with ID " ++ ticket_id ++ ". Please try again.")
  end.

Definition show_all : M unit :=
  s <- state ;;
  match tickets s with
  | _ :: _ =>
      list_tickets ("You have " ++ PyStr.str_of_nat (length (tickets s)) ++ " tickets. Here are your tickets:") (tickets s)
  | [] =>
      display_text_as_voice "You don't have any tickets. Say 'Book a ticket' to create a new booking." ;;
      update (set_current_operation None) ;;
      update (set_view_step (Some None))
  end.

Definition process_view : M unit :=
  s00 <- state ;;
  (match view_step_of s00 with
   | None => update (set_view_step (Some (Some view_display_options)))
   | Some _ => ret tt
   end) ;;
  s0 <- state ;;
  match view_step_of s0 with
  | Some (Some view_display_options) =>
      view_input <- listen_for_command ;;
      match view_input with
      | Some view_input =>
          let v := PyStr.lower view_input in
          let id_match := PyStr.search_ticket_id (PyStr.upper v) in
          if (PyStr.contains "view" v && PyStr.contains "ticket" v) || PyStr.contains "ticket id" v then
            match id_match with
            | Some ticket_id => lookup_ticket ticket_id
            | None =>
                display_text_as_voice "Please say the ticket ID you want to view." ;;
                update (set_view_step (Some (Some view_ask_id)))
            end
          else if PyStr.contains "download" v then
            ticket_id <-
              match id_match with
              | Some ticket_id => ret (Some ticket_id)
              | None =>
                  match last_viewed_ticket_id s0 with
                  | Some last =>
                      display_text_as_voice "Preparing to download your last viewed ticket." ;;
                      ret (Some last)
                  | None =>
                      display_text_as_voice "I don't know which ticket to download. Please view a ticket first." ;;
                      ret None
                  end
              end ;;
            match ticket_id with
            | Some ticket_id =>
                update (set_view_step (Some (Some view_download_ticket))) ;;
                update (set_ticket_id_to_download (Some ticket_id))
            | None => ret tt
            end
          else
            match id_match with
            | Some ticket_id => lookup_ticket ticket_id
            | None =>
                if PyStr.contains "all" v || PyStr.contains "show all" v || PyStr.contains "list all" v
                then show_all
                else search_by_name v
            end
      | None =>
          display_text_as_voice "I couldn't hear your input. Please say a ticket ID, name, or 'All tickets' to see all bookings."
      end
  | Some (Some view_ask_name) =>
      name_input <- listen_for_command ;;
      match name_input with
      | Some name_input => search_by_name name_input
      | None =>
          display_text_as_voice "I couldn't hear your input. Please say a name to search for."
      end
  | Some (Some view_ask_id) =>
      id_input <- listen_for_command ;;
      match id_input with
      | Some id_input =>
          match PyStr.search_ticket_id (PyStr.upper id_input) with
          | Some ticket_id =>
              match ticket_operations.get_ticket_by_id ticket_id (tickets s0) with
              | Some t =>
                  display_text_as_voice (found_ticket_info t) ;;
                  display_text_as_voice "You can download your ticket as a PDF file using the download link on the screen." ;;
                  update (set_current_operation None) ;;
                  update (set_view_step (Some None))
              | None =>
                  display_text_as_voice ("No ticket found with ID " ++ ticket_id ++ ". Please try again or say 'main menu' to return.")
              end
          | None =>
              display_text_as_voice "I couldn't recognize a ticket ID in what you said. Ticket IDs consist of 8 letters and numbers. Please try again or say 'main menu' to return."
          end
      | None =>
          display_text_as_voice "I couldn't hear your input. Please say the ticket ID clearly."
      end
  | Some (Some view_download_ticket) =>
      match ticket_id_to_download s0 with
      | Some ticket_id =>
          match ticket_operations.get_ticket_by_id ticket_id (tickets s0) with
          | Some t =>
              display_text_as_voice ("Your ticket for " ++ name t ++ " traveling from " ++ source t ++ " to " ++ destination t ++ " is ready for download. Click the Download Ticket PDF button on your screen. It's a large blue button near the middle of the screen.") ;;
              update (set_current_operation None) ;;
              update (set_view_step (Some None)) ;;
              update (set_ticket_id_to_download None)
          | None =>
              display_text_as_voice ("Sorry, I couldn't find a ticket with ID " ++ ticket_id ++ ". Please try again with a valid ticket ID.") ;;
              update (set_view_step (Some (Some view_display_options)))
          end
      | None => ret tt
      end
  | Some (Some view_options) =>
      next_command <- listen_for_command ;;
      match next_command with
      | Some next_command =>
          let c := PyStr.lower next_command in
          if PyStr.contains "download" c then
            match PyStr.search_ticket_id (PyStr.upper c), last_viewed_ticket_id s0 with
            | None, None =>
                display_text_as_voice "I don't have a ticket ID to download. Please view a ticket first by saying a ticket ID." ;;
                update (set_view_step (Some (Some view_display_options)))
            | Some ticket_id, _ | None, Some ticket_id =>
                update (set_ticket_id_to_download (Some ticket_id)) ;;
                s <- state ;;
                match ticket_operations.get_ticket_by_id ticket_id (tickets s) with
                | Some _ =>
                    update (set_view_step (Some (Some view_download_ticket)))
                | None =>
                    display_text_as_voice ("Sorry, I couldn't find ticket with ID " ++ ticket_id ++ ". Please try again.") ;;
                    update (set_view_step (Some (Some view_display_options))) ;;
                    update (set_ticket_id_to_download None)
                end
            end
          else if PyStr.contains "main" c || PyStr.contains "menu" c || PyStr.contains "back" c then
            update (set_current_operation None) ;;
            update (set_view_step (Some None)) ;;
            display_text_as_voice "Returning to main menu. Say a new command."
          else
            update (set_view_step (Some (Some view_display_options)))
      | None =>
          display_text_as_voice "I couldn't hear your command. Say 'download ticket' to download or 'main menu' to return."
      end
  | Some None => ret tt
  | None => ret tt
  end.

(* ================================================================== *)
(** ** One turn, and a dialog of several turns *)

Definition main : M unit :=
  s0 <- state ;;
  (if show_success s0 then
     display_text_as_voice (success_message s0) ;;
     update (set_show_success false) ;;
     update (set_success_message EmptyString)
   else ret tt) ;;
  (match current_ticket s0 with
   | Some _ => update (set_current_ticket None)
   | None => ret tt
   end) ;;
  s <- state ;;
  match current_operation s with
  | None => process_main_menu
  | Some op_book => process_booking
  | Some op_modify => process_modification
  | Some op_cancel => process_cancellation
  | Some op_view => process_view
  end.

(** A turn starts with an empty screen. *)
Definition start (s : session) : world := World s [] [] 0.

(** The session state a turn leaves behind.  Assignments made before an
    exception stay in the session state. *)
Definition turn (e : env) (s : session) : session := sess (snd (main e (start s))).

(** The notices a turn puts on the screen. *)
Definition notices (e : env) (s : session) : list string :=
  shown (snd (main e (start s))).

(** Did the turn end with an uncaught exception? *)
Definition outcome (e : env) (s : session) : result unit :=
  fst (main e (start s)).

(** Did the turn read the microphone? *)
Definition listened (e : env) (s : session) : bool :=
  negb (listens (snd (main e (start s))) =? 0)%nat.

Fixpoint run (es : list env) (s : session) : session :=
  match es with
  | [] => s
  | e :: es' => run es' (turn e s)
  end.

(* ================================================================== *)
(** ** Observations used in the statements *)

(** The texts the speech engine manages to speak. *)
Definition voiced (e : env) (texts : list string) : list string :=
  filter (fun t => match tts e t with None => true | Some _ => false end) texts.

(** The world after the notices [texts] went through
    [display_text_as_voice]. *)
Definition said (e : env) (texts : list string) (w : world) : world :=
  World (sess w) (shown w ++ texts) (spoken w ++ voiced e texts) (listens w).

(** The session state after the preamble of [main] (the one-shot success
    message and the just-booked ticket are delivered and cleared). *)
Definition settled (s : session) : session :=
  let s1 := if show_success s
            then set_success_message EmptyString (set_show_success false s)
            else s in
  match current_ticket s with
  | Some _ => set_current_ticket None s1
  | None => s1
  end.

(** What the preamble of [main] puts on the screen. *)
Definition pending (s : session) : list string :=
  if show_success s then [success_message s] else [].

(** The welcome of the very first turn at the main menu. *)
Definition greeting (s : session) : list string :=
  match current_operation s with
  | None => if first_run s then [welcome] else []
  | Some _ => []
  end.

Definition dispatch (s : session) : M unit :=
  match current_operation s with
  | None => process_main_menu
  | Some op_book => process_booking
  | Some op_modify => process_modification
  | Some op_cancel => process_cancellation
  | Some op_view => process_view
  end.

(** The lazily created step attribute of the current operation exists. *)
Definition step_present (s : session) : Prop :=
  match current_operation s with
  | None => True
  | Some op_book => True
  | Some op_modify => modify_step_of s <> None
  | Some op_cancel => cancel_step_of s <> None
  | Some op_view => view_step_of s <> None
  end.

(** The step at which the dialog stands: the main menu, or a sub-step of
    the current operation.  There is none while the step attribute of the
    current operation is missing or holds [None]. *)
Inductive dialog_step :=
| at_menu
| at_book (b : book_step)
| at_modify (m : modify_step)
| at_cancel (c : cancel_step)
| at_view (v : view_step).

Definition current_step (s : session) : option dialog_step :=
  match current_operation s with
  | None => Some at_menu
  | Some op_book => option_map at_book (booking_step s)
  | Some op_modify => option_map at_modify (modify_step_of s)
  | Some op_cancel => option_map at_cancel (cancel_step_of s)
  | Some op_view =>
      match view_step_of s with
      | Some (Some v) => Some (at_view v)
      | _ => None
      end
  end.

(** The notice with which each step answers when nothing was heard (the
    [else] of its [if command:]).  The [download_ticket] step of View has
    none: it does not listen. *)
Definition no_input_prompt (d : dialog_step) : option string :=
  match d with
  | at_menu => Some main_menu_prompt
  | at_book book_name =>
      Some "I couldn't hear your name. Please say your full name."
  | at_book book_age =>
      Some "I couldn't hear your age. Please say your age as a number."
  | at_book book_gender =>
      Some "I couldn't hear your gender. Please say Male, Female, or Other."
  | at_book book_source =>
      Some "I couldn't hear your source station. Please say the name of your departure station."
  | at_book book_destination =>
      Some "I couldn't hear your destination station. Please say the name of your arrival station."
  | at_book book_travel_date =>
      Some "I couldn't hear your travel date. Please say a date like 'March 30' or 'tomorrow'."
  | at_book book_confirm =>
      Some "I couldn't hear your response. Please say 'Confirm' to book the ticket or 'Cancel' to abort."
  | at_modify modify_select_ticket =>
      Some "I couldn't hear your command. Please say the ID or passenger name of the ticket you want to modify."
  | at_modify modify_select_field =>
      Some "I couldn't hear your command. Please specify what you want to modify: name, age, gender, source, or destination."
  | at_modify modify_update_name =>
      Some "I couldn't hear your input. Please say the new name."
  | at_modify modify_update_age =>
      Some "I couldn't hear your input. Please say the new age."
  | at_modify modify_update_gender =>
      Some "I couldn't hear your input. Please say Male, Female, or Other."
  | at_modify modify_update_source =>
      Some "I couldn't hear your input. Please say the new source station."
  | at_modify modify_update_destination =>
      Some "I couldn't hear your input. Please say the new destination station."
  | at_cancel cancel_select_ticket =>
      Some "I couldn't hear your command. Please say the ID or passenger name of the ticket you want to cancel."
  | at_cancel cancel_confirm =>
      Some "I couldn't hear your command. Please say 'Confirm' to cancel the ticket or 'No' to keep it."
  | at_view view_display_options =>
      Some "I couldn't hear your input. Please say a ticket ID, name, or 'All tickets' to see all bookings."
  | at_view view_ask_name =>
      Some "I couldn't hear your input. Please say a name to search for."
  | at_view view_ask_id =>
      Some "I couldn't hear your input. Please say the ticket ID clearly."
  | at_view view_options =>
      Some "I couldn't hear your command. Say 'download ticket' to download or 'main menu' to return."
  | at_view view_download_ticket => None
  end.

(** *** Fixtures for the examples *)

Definition demo_catalog : list string := ["Central"; "North"; "Eastside"].
Definition demo_day : Calendar.date := Calendar.Date 2024 2 28.
Definition demo_stamp : string := "2024-02-28 10:00:00".

(** A turn in which the user says [u] and the speech engine works. *)
Definition hear (u : string) : env :=
  Env (Some u) demo_catalog demo_day demo_stamp "ZX98YW76" (fun _ => None).

(** A turn in which nothing is heard. *)
Definition silence : env :=
  Env None demo_catalog demo_day demo_stamp "ZX98YW76" (fun _ => None).

(** A turn in which the user says [u] and the speech engine always fails. *)
Definition hear_mute (u : string) : env :=
  Env (Some u) demo_catalog demo_day demo_stamp "ZX98YW76"
      (fun _ => Some (EngineError "no audio device")).

Definition demo_ticket : ticket :=
  Ticket "AB12CD34" "John Smith" 30 Male "Central" "North" None demo_stamp.

(** The main menu with one ticket in the store. *)
Definition one_ticket : session :=
  set_first_run false (set_tickets [demo_ticket] initial_session).

(** *** The specification's wording, for comparison with the code *)

(** Where a main-menu command can lead. *)
Inductive menu_target :=
| to_book | to_modify | to_cancel | to_view (v : view_step) | to_help
| to_fallback.

(** The ordered rule table of the specification (sections 4.4 and 6):
    keyword sets in priority order, each with its target. *)
Definition spec_menu_rules : list (list string * menu_target) :=
  [ (["book"; "new"; "ticket"], to_book);
    (["modify"; "edit"; "change"], to_modify);
    (["cancel"; "delete"; "remove"], to_cancel);
    (["view"; "show"; "list"; "all"], to_view view_display_options);
    (["find"; "search"; "my tickets"; "my name"], to_view view_ask_name);
    (["ticket id"; "find id"; "search id"; "lookup id"; "ticket number"],
     to_view view_ask_id);
    (["help"], to_help) ].

(** First matching rule wins; no rule is the fallback. *)
Fixpoint spec_first_match (rules : list (list string * menu_target))
         (c : string) : menu_target :=
  match rules with
  | [] => to_fallback
  | (ks, t) :: rules' =>
      if PyStr.contains_any ks c then t else spec_first_match rules' c
  end.

(** The keywords of the branches that come before the id-lookup branch. *)
Definition earlier_keywords : list string :=
  ["book"; "new"; "ticket"; "modify"; "edit"; "change"; "cancel"; "delete";
   "remove"; "view"; "show"; "list"; "all"; "find"; "search"; "my tickets";
   "my name"].

Definition id_lookup_phrases : list string :=
  ["ticket id"; "find id"; "search id"; "lookup id"; "ticket number"].

(** What it means for a turn at the main menu to take a target: the state
    it leaves, and for the two targets that stay at the menu the notice it
    ends with. *)
Definition lands (t : menu_target) (before after : session)
           (texts : list string) : Prop :=
  match t with
  | to_book =>
      current_operation after = Some op_book
      /\ booking_step after = Some book_name
  | to_modify =>
      match tickets before with
      | [] => current_operation after = None
      | _ :: _ => current_operation after = Some op_modify
                  /\ modify_step_of after = Some modify_select_ticket
      end
  | to_cancel =>
      match tickets before with
      | [] => current_operation after = None
      | _ :: _ => current_operation after = Some op_cancel
                  /\ cancel_step_of after = Some cancel_select_ticket
      end
  | to_view v =>
      current_operation after = Some op_view
      /\ view_step_of after = Some (Some v)
  | to_help =>
      current_operation after = None /\ last texts EmptyString = help_text
  | to_fallback =>
      current_operation after = None
      /\ last texts EmptyString
         = "Sorry, I didn't understand that command. Please try again."
  end.

(** The resolver as the specification words it: the candidates are the
    catalog entries of which the utterance is a substring or the other way
    round, in lower case; among them the one with the highest score wins,
    the first one in catalog order on a tie.  (A best score of zero selects
    nothing.) *)
Definition spec_candidates (input : string) (sts : list string) : list string :=
  filter (station_candidate input) sts.

Definition spec_top_score (input : string) (sts : list string) : nat :=
  list_max (map (station_score input) (spec_candidates input sts)).

Definition spec_resolve (input : string) (sts : list string) : option string :=
  let top := spec_top_score input sts in
  if (top =? 0)%nat then None
  else find (fun st => (station_score input st =? top)%nat)
            (spec_candidates input sts).

(** The first run of digits of an utterance, as the specification words the
    age parser. *)
Fixpoint spec_first_digit_run (u : string) : option string :=
  match u with
  | EmptyString => None
  | String c u' =>
      if PyStr.is_digit c then Some (fst (PyStr.span PyStr.is_digit u))
      else spec_first_digit_run u'
  end.

(** The words of an utterance: its maximal runs of word characters
    (letters, digits, underscore), from left to right. *)
Fixpoint words (u : string) : list string :=
  match u with
  | EmptyString => []
  | String c u' =>
      if PyStr.is_word c then
        if PyStr.next_is_word u' then
          match words u' with
          | w :: ws => String c w :: ws
          | [] => [String c EmptyString]
          end
        else String c EmptyString :: words u'
      else words u'
  end.

Definition digits_only (w : string) : bool :=
  forallb PyStr.is_digit (PyStr.chars w).

(** The first word of the utterance that is made of digits only. *)
Definition spec_number_word (u : string) : option string :=
  find digits_only (words u).

(** *** Predicates of the statements *)

(** The two steps that read an age. *)
Definition at_age_step (s : session) : Prop :=
  (current_operation s = Some op_book /\ booking_step s = Some book_age)
  \/ (current_operation s = Some op_modify
      /\ modify_step_of s = Some modify_update_age).

(** The step after the age step of the same operation. *)
Definition past_age_step (s s' : session) : Prop :=
  current_operation s' = current_operation s
  /\ match current_operation s with
     | Some op_book => booking_step s' = Some book_gender
     | Some op_modify => modify_step_of s' = Some modify_select_field
     | _ => False
     end.

(** Operation, steps, buffer, selected id and store are the same. *)
Definition same_dialog_state (s s' : session) : Prop :=
  current_operation s' = current_operation s
  /\ booking_step s' = booking_step s
  /\ modify_step_of s' = modify_step_of s
  /\ cancel_step_of s' = cancel_step_of s
  /\ view_step_of s' = view_step_of s
  /\ ticket_details s' = ticket_details s
  /\ selected_ticket_id s' = selected_ticket_id s
  /\ tickets s' = tickets s.

Definition distinct_ends (t : ticket) : Prop := source t <> destination t.

(** While a booking waits for its date or its confirmation, the buffered
    source and destination differ. *)
Definition buffer_ok (s : session) : Prop :=
  match current_operation s, booking_step s with
  | Some op_book, Some book_travel_date
  | Some op_book, Some book_confirm =>
      match d_source (ticket_details s), d_destination (ticket_details s) with
      | Some a, Some b => a <> b
      | _, _ => True
      end
  | _, _ => True
  end.

Definition sound (s : session) : Prop :=
  Forall distinct_ends (tickets s) /\ buffer_ok s.

(** The store operation is [view] and the step [view_options], after the
    demo ticket was looked up from [display_options]. *)
Definition after_lookup : session :=
  run (map hear ["view"; "AB12CD34"]) one_ticket.

(** Modification of the demo ticket, in [select_field] again after a new
    name was given in [update_name]. *)
Definition after_new_name : session :=
  run (map hear ["edit"; "AB12CD34"; "name"; "Jane Doe"]) one_ticket.

(** A booking that waits for the age. *)
Definition asked_for_age : session :=
  run (map hear ["book"; "Jane Doe"]) one_ticket.

(** View at [download_ticket]: the demo ticket was looked up and its
    download asked for. *)
Definition ready_to_download : session :=
  turn (hear "downloading it") after_lookup.

(** An utterance of 4301 digits. *)
Definition long_number : string :=
  string_of_list_ascii (repeat "7"%char 4301).

(** *** Invariants of the reachable states *)

(** The buffer fields a booking has collected once it is at a step. *)
Definition booking_buffer_ready (st : book_step) (d : details) : Prop :=
  match st with
  | book_name => True
  | book_age => d_name d <> None
  | book_gender => d_name d <> None /\ d_age d <> None
  | book_source => d_name d <> None /\ d_age d <> None /\ d_gender d <> None
  | book_destination =>
      d_name d <> None /\ d_age d <> None /\ d_gender d <> None
      /\ d_source d <> None
  | book_travel_date | book_confirm =>
      d_name d <> None /\ d_age d <> None /\ d_gender d <> None
      /\ d_source d <> None /\ d_destination d <> None
  end.

(** The step belongs to the current operation and has what it needs: a
    booking has the fields of the steps it went through; a modification
    past [select_ticket] has its ticket in the store, and in an update step
    the buffer holds that ticket's source. *)
Definition consistent (s : session) : Prop :=
  match current_operation s with
  | None => True
  | Some op_book =>
      match booking_step s with
      | Some st => booking_buffer_ready st (ticket_details s)
      | None => False
      end
  | Some op_modify =>
      match modify_step_of s with
      | Some modify_select_ticket => True
      | Some modify_select_field =>
          get_selected (selected_ticket_id s) (tickets s) <> None
      | Some _ =>
          get_selected (selected_ticket_id s) (tickets s) <> None
          /\ d_source (ticket_details s) <> None
      | None => False
      end
  | Some op_cancel => cancel_step_of s <> None
  | Some op_view =>
      match view_step_of s with
      | Some (Some _) => True
      | _ => False
      end
  end.

(** *** Checks by enumeration *)

(** A number padded to a width: all digits, of that width, and read back
    by [int]. *)
Definition pad_check (w n : nat) : bool :=
  let p := Calendar.pad w n in
  forallb PyStr.is_digit (PyStr.chars p)
  && (String.length p =? w)%nat
  && (PyStr.int_of_digits p =? Z.of_nat n)%Z.

(** A year written by [%Y]: four digits that [int] reads back. *)
Definition year_check (n : nat) : bool :=
  let p := PyStr.str_of_nat n in
  forallb PyStr.is_digit (PyStr.chars p)
  && (String.length p =? 4)%nat
  && (PyStr.int_of_digits p =? Z.of_nat n)%Z.

(** The clock shows an existing date of a year with four digits, and the
    day after it is in such a year too. *)
Definition clock_ok (e : env) : Prop :=
  Calendar.valid (today e) = true
  /\ (1000 <= Z.of_nat (Calendar.year (today e)) < 9999)%Z.

(** A stored ticket has an age from 1 to 120 and both its stations in
    the catalog; the same for what the buffer holds. *)
Definition valid_ticket (cat : list string) (t : ticket) : Prop :=
  (1 <= age t <= 120)%Z /\ In (source t) cat /\ In (destination t) cat.

Definition valid_buffer (cat : list string) (d : details) : Prop :=
  match d_age d with Some a => (1 <= a <= 120)%Z | None => True end
  /\ match d_source d with Some x => In x cat | None => True end
  /\ match d_destination d with Some x => In x cat | None => True end.

Definition valid_store (cat : list string) (s : session) : Prop :=
  Forall (valid_ticket cat) (tickets s)
  /\ valid_buffer cat (ticket_details s).

(** The first of the five keys that the booking commit reads and the
    buffer lacks, in the order in which the commit reads them. *)
Definition first_missing_key (d : details) : option string :=
  match d_name d with
  | None => Some "name"
  | Some _ =>
      match d_age d with
      | None => Some "age"
      | Some _ =>
          match d_gender d with
          | None => Some "gender"
          | Some _ =>
              match d_source d with
              | None => Some "source"
              | Some _ =>
                  match d_destination d with
                  | None => Some "destination"
                  | Some _ => None
                  end
              end
          end
      end
  end.

(** A booking at its confirmation with only a name in the buffer. *)
Definition confirm_without_age : session :=
  set_ticket_details (put_name "Jane Doe" no_details)
    (set_booking_step (Some book_confirm)
       (set_current_operation (Some op_book) one_ticket)).

(** A booking at its confirmation, complete. *)
Definition before_confirm : session :=
  run (map hear ["book a ticket"; "Jane Doe"; "29"; "female"; "Central";
                 "North"; "tomorrow"]) one_ticket.

(** Cancellation of the demo ticket, waiting for the confirmation. *)
Definition before_cancel : session :=
  run (map hear ["remove"; "AB12CD34"]) one_ticket.

(** View, waiting for an id after the id-lookup command. *)
Definition asked_for_id : session :=
  turn (hear "lookup id") one_ticket.

(** View, waiting for the viewing option. *)
Definition asked_for_view : session :=
  turn (hear "view") one_ticket.

(** The same turn with a speech engine that always works. *)
Definition hush (e : env) : env :=
  Env (heard e) (stations e) (today e) (stamp e) (new_id e) (fun _ => None).

(** The first step of Modify and of Cancel, which pick the ticket. *)
Definition at_select_ticket (s : session) : Prop :=
  (current_operation s = Some op_modify
   /\ modify_step_of s = Some modify_select_ticket)
  \/ (current_operation s = Some op_cancel
      /\ cancel_step_of s = Some cancel_select_ticket).

(** The step after it. *)
Definition past_select_ticket (s s' : session) : Prop :=
  current_operation s' = current_operation s
  /\ match current_operation s with
     | Some op_modify => modify_step_of s' = Some modify_select_field
     | Some op_cancel => cancel_step_of s' = Some cancel_confirm
     | _ => False
     end.

(** The two steps that read a gender. *)
Definition at_gender_step (s : session) : Prop :=
  (current_operation s = Some op_book /\ booking_step s = Some book_gender)
  \/ (current_operation s = Some op_modify
      /\ modify_step_of s = Some modify_update_gender).

Definition past_gender_step (s s' : session) : Prop :=
  current_operation s' = current_operation s
  /\ match current_operation s with
     | Some op_book => booking_step s' = Some book_source
     | Some op_modify => modify_step_of s' = Some modify_select_field
     | _ => False
     end.

(** Two tickets of passengers called Jonathan, at the first step of
    Modify. *)
Definition two_jonathans : session :=
  turn (hear "change")
       (set_tickets [Ticket "AB12CD34" "Jonathan Doe" 30 Male "Central" "North"
                            None demo_stamp;
                     Ticket "EF56GH78" "Jonathan Roe" 41 Male "North" "Central"
                            None demo_stamp]
                    one_ticket).

(* ================================================================== *)
(** * Properties *)

(** ** Running the monad, one statement at a time *)

Lemma say_runs (text : string) (e : env) (w : world) :
  display_text_as_voice text e w = (Ok tt, said e [text] w).
Proof.
  unfold display_text_as_voice, bind, voice_output_info, try_except,
    engine_say, said, voiced, ret.
  simpl. destruct (tts e text); simpl; rewrite ?app_nil_r; reflexivity.
Qed.

Lemma said_said e xs ys w : said e ys (said e xs w) = said e (xs ++ ys) w.
Proof.
  unfold said, voiced; simpl. rewrite filter_app, !app_assoc. reflexivity.
Qed.

Lemma for_each_say {A} (f : A -> string) (xs : list A) (e : env) (w : world) :
  for_each xs (fun x => display_text_as_voice (f x)) e w
  = (Ok tt, said e (map f xs) w).
Proof.
  revert w. induction xs as [|x xs IH]; intros w; simpl.
  - unfold ret, said, voiced. simpl. rewrite !app_nil_r. destruct w; reflexivity.
  - unfold bind. rewrite say_runs, IH, said_said. reflexivity.
Qed.

Lemma bind_say {B} text (k : unit -> M B) e w :
  bind (display_text_as_voice text) k e w = k tt e (said e [text] w).
Proof. unfold bind. rewrite say_runs. reflexivity. Qed.

Lemma bind_for_each_say {A B} (f : A -> string) xs (k : unit -> M B) e w :
  bind (for_each xs (fun x => display_text_as_voice (f x))) k e w
  = k tt e (said e (map f xs) w).
Proof. unfold bind. rewrite for_each_say. reflexivity. Qed.

Lemma bind_update {B} f (k : unit -> M B) e w :
  bind (update f) k e w
  = k tt e (World (f (sess w)) (shown w) (spoken w) (listens w)).
Proof. reflexivity. Qed.

Lemma bind_state {B} (k : session -> M B) e w :
  bind state k e w = k (sess w) e w.
Proof. reflexivity. Qed.

Lemma bind_ask {B} (k : env -> M B) e w : bind ask k e w = k e e w.
Proof. reflexivity. Qed.

Lemma bind_ret {A B} (a : A) (k : A -> M B) e w : bind (ret a) k e w = k a e w.
Proof. reflexivity. Qed.

Lemma bind_raise {A B} x (k : A -> M B) e w :
  bind (raise x) k e w = (Raise x, w).
Proof. reflexivity. Qed.

Lemma bind_listen {B} (k : option string -> M B) e w :
  bind listen_for_command k e w
  = k (heard_command e) e (World (sess w) (shown w) (spoken w) (S (listens w))).
Proof. reflexivity. Qed.

Lemma bind_stations {B} (k : list string -> M B) e w :
  bind get_station_list k e w = k (stations e) e w.
Proof. reflexivity. Qed.

Lemma bind_put_details {B} f (k : unit -> M B) e w :
  bind (put_details f) k e w
  = k tt e (World (set_ticket_details (f (ticket_details (sess w))) (sess w))
                  (shown w) (spoken w) (listens w)).
Proof. reflexivity. Qed.

Lemma bind_bind {A B C} (m : M A) (f : A -> M B) (g : B -> M C) e w :
  bind (bind m f) g e w = bind m (fun a => bind (f a) g) e w.
Proof. unfold bind. destruct (m e w) as [[a|x] w']; reflexivity. Qed.

Lemma bind_item {A B} key (v : option A) (k : A -> M B) e w :
  bind (item key v) k e w
  = match v with Some a => k a e w | None => (Raise (KeyError key), w) end.
Proof. destruct v; reflexivity. Qed.

Lemma update_runs f e w :
  update f e w = (Ok tt, World (f (sess w)) (shown w) (spoken w) (listens w)).
Proof. reflexivity. Qed.

Lemma ret_runs {A} (a : A) e w : ret a e w = (Ok a, w).
Proof. reflexivity. Qed.

Create Rewrite HintDb run.
#[local] Hint Rewrite @bind_say @bind_for_each_say @bind_update @bind_state
  @bind_ask @bind_ret @bind_bind @bind_raise @bind_listen @bind_stations
  @bind_put_details @bind_item say_runs @for_each_say update_runs @ret_runs
  : run.

Tactic Notation "fields" "in" hyp(H) :=
  cbn [sess shown spoken listens fst snd said
       tickets current_operation ticket_details selected_ticket_id booking_step
       modify_step_of cancel_step_of view_step_of last_viewed_ticket_id
       ticket_id_to_download first_run show_success success_message
       current_ticket selecting_from_matches
       set_tickets set_current_operation set_ticket_details
       set_selected_ticket_id set_booking_step set_modify_step set_cancel_step
       set_view_step set_last_viewed_ticket_id set_ticket_id_to_download
       set_first_run set_show_success set_success_message set_current_ticket
       set_selecting_from_matches
       d_id d_name d_age d_gender d_source d_destination d_travel_date
       d_booking_time put_name put_age put_gender put_source put_destination
       put_travel_date dict_of_ticket no_details] in H.

Ltac fields :=
  cbn [sess shown spoken listens fst snd said
       tickets current_operation ticket_details selected_ticket_id booking_step
       modify_step_of cancel_step_of view_step_of last_viewed_ticket_id
       ticket_id_to_download first_run show_success success_message
       current_ticket selecting_from_matches
       set_tickets set_current_operation set_ticket_details
       set_selected_ticket_id set_booking_step set_modify_step set_cancel_step
       set_view_step set_last_viewed_ticket_id set_ticket_id_to_download
       set_first_run set_show_success set_success_message set_current_ticket
       set_selecting_from_matches
       d_id d_name d_age d_gender d_source d_destination d_travel_date
       d_booking_time put_name put_age put_gender put_source put_destination
       put_travel_date dict_of_ticket no_details].

Ltac exec := repeat (autorewrite with run; fields).
Ltac exec_in E := repeat (autorewrite with run in E; fields in E);
  autorewrite with settled in E.

(** [main] is its preamble followed by the controller of the current
    operation. *)
Lemma main_runs e s :
  main e (start s)
  = dispatch s e (World (settled s) (pending s) (voiced e (pending s)) 0).
Proof.
  unfold main, start, dispatch, settled, pending. exec.
  destruct (show_success s); destruct (current_ticket s); exec;
    destruct (current_operation s) as [[]|]; reflexivity.
Qed.

Lemma settled_fields s :
  tickets (settled s) = tickets s
  /\ current_operation (settled s) = current_operation s
  /\ ticket_details (settled s) = ticket_details s
  /\ selected_ticket_id (settled s) = selected_ticket_id s
  /\ booking_step (settled s) = booking_step s
  /\ modify_step_of (settled s) = modify_step_of s
  /\ cancel_step_of (settled s) = cancel_step_of s
  /\ view_step_of (settled s) = view_step_of s
  /\ last_viewed_ticket_id (settled s) = last_viewed_ticket_id s
  /\ ticket_id_to_download (settled s) = ticket_id_to_download s
  /\ first_run (settled s) = first_run s.
Proof.
  unfold settled. destruct (show_success s); destruct (current_ticket s);
    repeat split.
Qed.

(* ------------------------------------------------------------------ *)
(** ** Sanity checks of the string primitives *)

Example lower_ex : PyStr.lower "Ticket ID" = "ticket id".
Proof. reflexivity. Qed.
Example number_ex1 : PyStr.search_number "I am 25 years" = Some "25".
Proof. reflexivity. Qed.
Example number_ex2 : PyStr.search_number "25years, 30" = Some "30".
Proof. reflexivity. Qed.
Example id_ex1 :
  PyStr.search_ticket_id (PyStr.upper "ticket ab12cd34 please") = Some "AB12CD34".
Proof. reflexivity. Qed.
Example id_ex2 : PyStr.search_ticket_id "AB12CD345" = None.
Proof. reflexivity. Qed.
Example day_ex : PyStr.search_day "march 123 or 7" = Some "7".
Proof. reflexivity. Qed.

(** Scenario A of the specification: a complete booking. *)
Example scenario_A :
  let s := run (map hear ["book a ticket"; "Jane Doe"; "29"; "female";
                          "Central"; "North"; "tomorrow"; "confirm"])
               initial_session in
  tickets s = [Ticket "ZX98YW76" "Jane Doe" 29 Female "Central" "North"
                      (Some "2024-02-29") demo_stamp]
  /\ current_operation s = None.
Proof. vm_compute. split; reflexivity. Qed.

(* ------------------------------------------------------------------ *)
(** ** The notice sink *)

(** C9.  [display_text_as_voice] always puts the text on the screen, never
    raises, and leaves the session state alone, whatever the speech engine
    does; its result, the session state and the screen are the same under
    any two speech engines. *)
Theorem display_text_as_voice_swallows_engine_failure :
  forall (e e' : env) (w : world) (text : string),
    fst (display_text_as_voice text e w) = Ok tt
    /\ shown (snd (display_text_as_voice text e w)) = (shown w ++ [text])%list
    /\ sess (snd (display_text_as_voice text e w)) = sess w
    /\ listens (snd (display_text_as_voice text e w)) = listens w
    /\ fst (display_text_as_voice text e' w) = fst (display_text_as_voice text e w)
    /\ shown (snd (display_text_as_voice text e' w))
       = shown (snd (display_text_as_voice text e w))
    /\ sess (snd (display_text_as_voice text e' w))
       = sess (snd (display_text_as_voice text e w)).
Proof.
  intros e e' w text. rewrite !say_runs. repeat split.
Qed.

(** The engine's failure shows only in what was spoken. *)
Example mute_engine_ex :
  let w := snd (display_text_as_voice "Hello" (hear_mute "x") (start initial_session)) in
  shown w = ["Hello"] /\ spoken w = [].
Proof. split; reflexivity. Qed.

(* ------------------------------------------------------------------ *)
(** ** The main menu *)

Ltac bools := cbn [orb andb negb existsb PyStr.contains_any].

Lemma any3 k1 k2 k3 c :
  PyStr.contains k1 c || PyStr.contains k2 c || PyStr.contains k3 c
  = PyStr.contains_any [k1; k2; k3] c.
Proof. bools. rewrite orb_false_r, orb_assoc. reflexivity. Qed.

Lemma any4 k1 k2 k3 k4 c :
  PyStr.contains k1 c || PyStr.contains k2 c || PyStr.contains k3 c
  || PyStr.contains k4 c
  = PyStr.contains_any [k1; k2; k3; k4] c.
Proof. bools. rewrite orb_false_r, !orb_assoc. reflexivity. Qed.

Lemma any5 k1 k2 k3 k4 k5 c :
  PyStr.contains k1 c || PyStr.contains k2 c || PyStr.contains k3 c
  || PyStr.contains k4 c || PyStr.contains k5 c
  = PyStr.contains_any [k1; k2; k3; k4; k5] c.
Proof. bools. rewrite orb_false_r, !orb_assoc. reflexivity. Qed.

Lemma any1 k c : PyStr.contains k c = PyStr.contains_any [k] c.
Proof. bools. rewrite orb_false_r. reflexivity. Qed.

Lemma contains_any_app ks ks' c :
  PyStr.contains_any (ks ++ ks') c
  = PyStr.contains_any ks c || PyStr.contains_any ks' c.
Proof. apply existsb_app. Qed.

Lemma contains_any_in ks k c :
  In k ks -> PyStr.contains_any ks c = false -> PyStr.contains k c = false.
Proof.
  intros Hin H. unfold PyStr.contains_any in H.
  destruct (PyStr.contains k c) eqn:Hk; [|reflexivity].
  rewrite <- H. symmetry. apply existsb_exists. exists k. split; assumption.
Qed.

Lemma earlier_keywords_groups c :
  PyStr.contains_any earlier_keywords c
  = PyStr.contains_any ["book"; "new"; "ticket"] c
    || PyStr.contains_any ["modify"; "edit"; "change"] c
    || PyStr.contains_any ["cancel"; "delete"; "remove"] c
    || PyStr.contains_any ["view"; "show"; "list"; "all"] c
    || PyStr.contains_any ["find"; "search"; "my tickets"; "my name"] c.
Proof. rewrite <- !contains_any_app. reflexivity. Qed.

Lemma settled_tickets s : tickets (settled s) = tickets s.
Proof. apply settled_fields. Qed.
Lemma settled_operation s : current_operation (settled s) = current_operation s.
Proof. apply settled_fields. Qed.
Lemma settled_details s : ticket_details (settled s) = ticket_details s.
Proof. apply settled_fields. Qed.
Lemma settled_selected s : selected_ticket_id (settled s) = selected_ticket_id s.
Proof. apply settled_fields. Qed.
Lemma settled_booking_step s : booking_step (settled s) = booking_step s.
Proof. apply settled_fields. Qed.
Lemma settled_modify_step s : modify_step_of (settled s) = modify_step_of s.
Proof. apply settled_fields. Qed.
Lemma settled_cancel_step s : cancel_step_of (settled s) = cancel_step_of s.
Proof. apply settled_fields. Qed.
Lemma settled_view_step s : view_step_of (settled s) = view_step_of s.
Proof. apply settled_fields. Qed.
Lemma settled_last_viewed s :
  last_viewed_ticket_id (settled s) = last_viewed_ticket_id s.
Proof. apply settled_fields. Qed.
Lemma settled_to_download s :
  ticket_id_to_download (settled s) = ticket_id_to_download s.
Proof. apply settled_fields. Qed.
Lemma settled_first_run s : first_run (settled s) = first_run s.
Proof. apply settled_fields. Qed.

Create Rewrite HintDb settled.
#[local] Hint Rewrite settled_tickets settled_operation settled_details
  settled_selected settled_booking_step settled_modify_step
  settled_cancel_step settled_view_step settled_last_viewed
  settled_to_download settled_first_run : settled.

(** Run the statement at the head of [E : r = m e w]. *)
Ltac step_in E :=
  lazymatch type of E with
  | _ = bind (display_text_as_voice _) _ _ _ => rewrite bind_say in E
  | _ = bind (for_each _ (fun x => display_text_as_voice _)) _ _ _ =>
      rewrite bind_for_each_say in E
  | _ = bind (update _) _ _ _ => rewrite bind_update in E
  | _ = bind state _ _ _ => rewrite bind_state in E
  | _ = bind ask _ _ _ => rewrite bind_ask in E
  | _ = bind (ret _) _ _ _ => rewrite bind_ret in E
  | _ = bind (raise _) _ _ _ => rewrite bind_raise in E
  | _ = bind listen_for_command _ _ _ => rewrite bind_listen in E
  | _ = bind get_station_list _ _ _ => rewrite bind_stations in E
  | _ = bind (put_details _) _ _ _ => rewrite bind_put_details in E
  | _ = bind (item _ _) _ _ _ => rewrite bind_item in E
  | _ = bind (bind _ _) _ _ _ => rewrite bind_bind in E
  | _ = display_text_as_voice _ _ _ => rewrite say_runs in E
  | _ = for_each _ (fun x => display_text_as_voice _) _ _ =>
      rewrite for_each_say in E
  | _ = update _ _ _ => rewrite update_runs in E
  | _ = ret _ _ _ => rewrite ret_runs in E
  | _ = raise _ _ _ => unfold raise in E
  | _ = reset_modification _ _ => unfold reset_modification in E
  | _ = reset_cancellation _ _ => unfold reset_cancellation in E
  | _ = list_tickets _ _ _ _ => unfold list_tickets in E
  | _ = search_by_name _ _ _ => unfold search_by_name in E
  | _ = lookup_ticket _ _ _ => unfold lookup_ticket in E
  | _ = show_all _ _ => unfold show_all in E
  end; fields in E.

Ltac run_in E := repeat (step_in E); autorewrite with settled in E.

(** Name the result of a turn and enter the controller of the current
    operation. *)
Ltac start_turn e s r E Hop :=
  unfold turn, notices, outcome, listened;
  remember (main e (start s)) as r eqn:E;
  rewrite main_runs in E; unfold dispatch in E; rewrite Hop in E.

(** Name the result of the turn and run the main menu on it up to the
    keyword tests, which are then grouped. *)
Ltac at_main_menu e s r E Hop Hh :=
  unfold turn, notices, outcome, listened;
  remember (main e (start s)) as r eqn:E;
  rewrite main_runs in E; unfold dispatch in E; rewrite Hop in E;
  unfold process_main_menu in E;
  rewrite bind_state in E; fields in E; rewrite settled_first_run in E;
  destruct (first_run s) eqn:?; exec_in E; rewrite Hh in E; cbv zeta in E;
  rewrite any5, any4, any4, !any3 in E.

Lemma ticket_is_a_book_keyword c :
  PyStr.contains_any ["book"; "new"; "ticket"] c = false ->
  PyStr.contains "ticket" c = false.
Proof. apply contains_any_in. simpl; tauto. Qed.

Ltac menu_leaf s r E :=
  exec_in E; rewrite ?settled_tickets in E;
  try (let Ht := fresh "Ht" in
       destruct (tickets s) eqn:Ht; exec_in E; revert Ht);
  subst r; fields; cbn [lands]; intros;
  repeat match goal with
         | Ht : tickets s = _ |- _ => rewrite Ht
         end;
  rewrite ?last_last; repeat split; intros; try reflexivity; try discriminate;
  try match goal with
      | G : PyStr.contains_any ["book"; "new"; "ticket"] ?c = false,
        H : PyStr.contains "ticket" ?c = true |- _ =>
          rewrite (ticket_is_a_book_keyword c G) in H; discriminate
      end.

Ltac menu_case s r E G :=
  match type of E with
  | _ = (if PyStr.contains_any ?ks ?c then _ else _) _ _ =>
      destruct (PyStr.contains_any ks c) eqn:G; [solve [menu_leaf s r E]|]
  end.

(** C3, as amended.  The main menu takes the first rule of the ordered
    table that has a keyword in the lowercased command.  So a command with
    an id-lookup phrase reaches the id lookup exactly when none of the
    keywords of the earlier rules occurs in it, and any command with the
    word ticket starts a booking. *)
Theorem main_menu_first_match_wins :
  forall (e : env) (s : session) (c : string),
    current_operation s = None ->
    heard_command e = Some c ->
    lands (spec_first_match spec_menu_rules (PyStr.lower c)) s (turn e s)
          (notices e s)
    /\ (PyStr.contains_any id_lookup_phrases (PyStr.lower c) = true ->
        PyStr.contains_any earlier_keywords (PyStr.lower c) = false ->
        current_operation (turn e s) = Some op_view
        /\ view_step_of (turn e s) = Some (Some view_ask_id))
    /\ (PyStr.contains "ticket" (PyStr.lower c) = true ->
        current_operation (turn e s) = Some op_book
        /\ booking_step (turn e s) = Some book_name).
Proof.
  intros e s c Hop Hh.
  rewrite earlier_keywords_groups.
  unfold spec_first_match, spec_menu_rules, id_lookup_phrases.
  change (PyStr.contains_any ["help"] (PyStr.lower c))
    with (PyStr.contains "help" (PyStr.lower c) || false);
    rewrite orb_false_r.
  at_main_menu e s r E Hop Hh.
  all: menu_case s r E G1; menu_case s r E G2; menu_case s r E G3;
    menu_case s r E G4; menu_case s r E G5; menu_case s r E G6.
  all: destruct (PyStr.contains "help" (PyStr.lower c)); menu_leaf s r E;
    fields; rewrite ?settled_operation; try assumption.
Qed.

(** C3, the claim as stated fails: the phrase ticket id contains the
    booking keyword ticket, so the command starts a booking and does not
    reach the id lookup. *)
Lemma ticket_id_phrase_starts_booking :
  current_operation initial_session = None
  /\ PyStr.contains_any id_lookup_phrases (PyStr.lower "ticket id") = true
  /\ current_operation (turn (hear "ticket id") initial_session) = Some op_book
  /\ booking_step (turn (hear "ticket id") initial_session) = Some book_name
  /\ ~ (current_operation (turn (hear "ticket id") initial_session) = Some op_view
        /\ view_step_of (turn (hear "ticket id") initial_session)
           = Some (Some view_ask_id)).
Proof.
  vm_compute. repeat split. intros [H _]. discriminate H.
Qed.

Lemma main_menu_first_match_wins_witness :
  lands (spec_first_match spec_menu_rules (PyStr.lower "lookup id"))
        initial_session (turn (hear "lookup id") initial_session)
        (notices (hear "lookup id") initial_session)
  /\ (PyStr.contains_any id_lookup_phrases (PyStr.lower "lookup id") = true ->
      PyStr.contains_any earlier_keywords (PyStr.lower "lookup id") = false ->
      current_operation (turn (hear "lookup id") initial_session) = Some op_view
      /\ view_step_of (turn (hear "lookup id") initial_session)
         = Some (Some view_ask_id))
  /\ (PyStr.contains "ticket" (PyStr.lower "lookup id") = true ->
      current_operation (turn (hear "lookup id") initial_session) = Some op_book
      /\ booking_step (turn (hear "lookup id") initial_session) = Some book_name).
Proof.
  apply (main_menu_first_match_wins (hear "lookup id") initial_session "lookup id");
    reflexivity.
Defined.

(** C10, as amended.  With an empty store no command at the main menu
    enters the [select_ticket] step of Modify or of Cancel, and the store
    stays empty.  A command that the menu takes as modify (or as cancel),
    that is one with a modify (cancel) keyword and no keyword of an earlier
    branch, ends the turn at the main menu with the notice that there is
    nothing to modify (or cancel), and the dialog state is as before. *)
Theorem empty_store_modify_cancel_stay_at_menu :
  forall (e : env) (s : session) (c : string),
    current_operation s = None ->
    tickets s = [] ->
    heard_command e = Some c ->
    (current_operation (turn e s) <> Some op_modify
     /\ current_operation (turn e s) <> Some op_cancel
     /\ modify_step_of (turn e s) = modify_step_of s
     /\ cancel_step_of (turn e s) = cancel_step_of s
     /\ tickets (turn e s) = [])
    /\ (PyStr.contains_any ["book"; "new"; "ticket"] (PyStr.lower c) = false ->
        PyStr.contains_any ["modify"; "edit"; "change"] (PyStr.lower c) = true ->
        outcome e s = Ok tt
        /\ current_operation (turn e s) = None
        /\ same_dialog_state s (turn e s)
        /\ notices e s = (pending s ++ greeting s ++ [no_tickets_to_modify])%list)
    /\ (PyStr.contains_any ["book"; "new"; "ticket"] (PyStr.lower c) = false ->
        PyStr.contains_any ["modify"; "edit"; "change"] (PyStr.lower c) = false ->
        PyStr.contains_any ["cancel"; "delete"; "remove"] (PyStr.lower c) = true ->
        outcome e s = Ok tt
        /\ current_operation (turn e s) = None
        /\ same_dialog_state s (turn e s)
        /\ notices e s = (pending s ++ greeting s ++ [no_tickets_to_cancel])%list).
Proof.
  intros e s c Hop Hts Hh.
  unfold greeting, same_dialog_state. rewrite Hop.
  at_main_menu e s r E Hop Hh.
  all: destruct (PyStr.contains_any ["book"; "new"; "ticket"] (PyStr.lower c));
    [|destruct (PyStr.contains_any ["modify"; "edit"; "change"] (PyStr.lower c));
      [|destruct (PyStr.contains_any ["cancel"; "delete"; "remove"] (PyStr.lower c));
        [|repeat match type of E with
                 | _ = (if ?b then _ else _) _ _ => destruct b
                 end]]].
  all: exec_in E; rewrite ?Hts in E; exec_in E; subst r; fields;
    autorewrite with settled; rewrite ?Hop, <- ?app_assoc;
    repeat split; intros; try discriminate; try assumption; try reflexivity;
    symmetry; assumption.
Qed.

(** C10, the claim as stated fails: the commands that the welcome names,
    Modify a ticket and Cancel a ticket, contain the booking keyword
    ticket; with an empty store they start a booking, and nothing is said
    about missing tickets. *)
Lemma modify_a_ticket_starts_a_booking :
  current_operation initial_session = None
  /\ tickets initial_session = []
  /\ PyStr.contains "modify" (PyStr.lower "Modify a ticket") = true
  /\ current_operation (turn (hear "Modify a ticket") initial_session)
     = Some op_book
  /\ booking_step (turn (hear "Modify a ticket") initial_session)
     = Some book_name
  /\ ~ In no_tickets_to_modify (notices (hear "Modify a ticket") initial_session)
  /\ PyStr.contains "cancel" (PyStr.lower "Cancel a ticket") = true
  /\ current_operation (turn (hear "Cancel a ticket") initial_session)
     = Some op_book
  /\ booking_step (turn (hear "Cancel a ticket") initial_session)
     = Some book_name
  /\ ~ In no_tickets_to_cancel (notices (hear "Cancel a ticket") initial_session).
Proof.
  vm_compute. repeat split; try (intros [H|[H|[]]]; discriminate H).
Qed.

Lemma empty_store_modify_cancel_stay_at_menu_witness :
  (current_operation (turn (hear "Edit it") initial_session) <> Some op_modify
   /\ outcome (hear "Edit it") initial_session = Ok tt
   /\ current_operation (turn (hear "Edit it") initial_session) = None
   /\ same_dialog_state initial_session (turn (hear "Edit it") initial_session)
   /\ notices (hear "Edit it") initial_session = [welcome; no_tickets_to_modify])
  /\ (outcome (hear "Remove it") initial_session = Ok tt
      /\ current_operation (turn (hear "Remove it") initial_session) = None
      /\ same_dialog_state initial_session
                           (turn (hear "Remove it") initial_session)
      /\ notices (hear "Remove it") initial_session
         = [welcome; no_tickets_to_cancel]).
Proof.
  split.
  - destruct (empty_store_modify_cancel_stay_at_menu
                (hear "Edit it") initial_session "Edit it"
                eq_refl eq_refl eq_refl) as ((H0 & _) & H1 & _).
    split; [exact H0|]. exact (H1 eq_refl eq_refl).
  - destruct (empty_store_modify_cancel_stay_at_menu
                (hear "Remove it") initial_session "Remove it"
                eq_refl eq_refl eq_refl) as (_ & _ & H2).
    exact (H2 eq_refl eq_refl eq_refl).
Defined.

(* ------------------------------------------------------------------ *)
(** ** Viewing *)

(** C8, as amended.  In [view_options] an utterance that is neither a
    download command nor a return to the main menu moves the step to
    [display_options] and says nothing; the operation stays [view] and the
    rest of the dialog state is as before. *)
Theorem view_options_other_utterance :
  forall (e : env) (s : session) (c : string),
    current_operation s = Some op_view ->
    view_step_of s = Some (Some view_options) ->
    heard_command e = Some c ->
    PyStr.contains "download" (PyStr.lower c) = false ->
    PyStr.contains_any ["main"; "menu"; "back"] (PyStr.lower c) = false ->
    outcome e s = Ok tt
    /\ current_operation (turn e s) = Some op_view
    /\ view_step_of (turn e s) = Some (Some view_display_options)
    /\ notices e s = pending s
    /\ tickets (turn e s) = tickets s
    /\ ticket_details (turn e s) = ticket_details s
    /\ selected_ticket_id (turn e s) = selected_ticket_id s
    /\ last_viewed_ticket_id (turn e s) = last_viewed_ticket_id s
    /\ ticket_id_to_download (turn e s) = ticket_id_to_download s.
Proof.
  intros e s c Hop Hv Hh Hd Hm.
  start_turn e s r E Hop. unfold process_view in E.
  exec_in E. rewrite Hv in E. exec_in E. rewrite Hv in E.
  exec_in E. rewrite Hh in E. cbv zeta in E.
  rewrite Hd, any3, Hm in E. exec_in E.
  subst r; fields; autorewrite with settled. repeat split; assumption.
Qed.

(** C8, the claim as stated fails: after hello the step is no longer
    [view_options], and nothing is displayed again. *)
Lemma view_options_hello_leaves_the_step :
  current_operation after_lookup = Some op_view
  /\ view_step_of after_lookup = Some (Some view_options)
  /\ PyStr.contains "download" (PyStr.lower "hello") = false
  /\ PyStr.contains_any ["main"; "menu"; "back"] (PyStr.lower "hello") = false
  /\ view_step_of (turn (hear "hello") after_lookup) <> Some (Some view_options)
  /\ notices (hear "hello") after_lookup = [].
Proof.
  vm_compute. repeat split. discriminate.
Qed.

Lemma view_options_other_utterance_witness :
  outcome (hear "hello") after_lookup = Ok tt
  /\ current_operation (turn (hear "hello") after_lookup) = Some op_view
  /\ view_step_of (turn (hear "hello") after_lookup)
     = Some (Some view_display_options)
  /\ notices (hear "hello") after_lookup = pending after_lookup
  /\ tickets (turn (hear "hello") after_lookup) = tickets after_lookup
  /\ ticket_details (turn (hear "hello") after_lookup)
     = ticket_details after_lookup
  /\ selected_ticket_id (turn (hear "hello") after_lookup)
     = selected_ticket_id after_lookup
  /\ last_viewed_ticket_id (turn (hear "hello") after_lookup)
     = last_viewed_ticket_id after_lookup
  /\ ticket_id_to_download (turn (hear "hello") after_lookup)
     = ticket_id_to_download after_lookup.
Proof.
  apply (view_options_other_utterance (hear "hello") after_lookup "hello");
    reflexivity.
Defined.

(** C4, the code at the failing input: the same ticket looked up from
    [display_options] is recorded as last viewed and leads to
    [view_options]; looked up from [ask_id] it is not recorded, and the
    turn ends at the main menu. *)
Theorem ask_id_lookup_forgets_the_ticket :
  ticket_operations.get_ticket_by_id "AB12CD34" (tickets one_ticket)
  = Some demo_ticket
  /\ (let s := run (map hear ["view"; "AB12CD34"]) one_ticket in
      last_viewed_ticket_id s = Some "AB12CD34"
      /\ current_operation s = Some op_view
      /\ view_step_of s = Some (Some view_options))
  /\ (let s := turn (hear "lookup id") one_ticket in
      current_operation s = Some op_view
      /\ view_step_of s = Some (Some view_ask_id)
      /\ notices (hear "AB12CD34") s
         = [found_ticket_info demo_ticket;
            "You can download your ticket as a PDF file using the download link on the screen."]
      /\ last_viewed_ticket_id (turn (hear "AB12CD34") s) = None
      /\ current_operation (turn (hear "AB12CD34") s) = None
      /\ view_step_of (turn (hear "AB12CD34") s) = Some None).
Proof.
  vm_compute. repeat split.
Qed.

(* ------------------------------------------------------------------ *)
(** ** Modification *)

(** C1, the code at the failing input: the new name is in the buffer when
    the dialog is back in [select_field], but the turn that hears confirm
    first overwrites the buffer with the stored ticket and then commits
    that, so the store still has the old name although the turn reports
    success. *)
Theorem modify_commit_drops_buffered_edit :
  current_operation after_new_name = Some op_modify
  /\ modify_step_of after_new_name = Some modify_select_field
  /\ d_name (ticket_details after_new_name) = Some "Jane Doe"
  /\ tickets (turn (hear "confirm") after_new_name) = [demo_ticket]
  /\ name demo_ticket = "John Smith"
  /\ notices (hear "confirm") after_new_name
     = ["Ticket updated successfully. Returning to main menu."]
  /\ current_operation (turn (hear "confirm") after_new_name) = None.
Proof.
  vm_compute. repeat split.
Qed.

(* ------------------------------------------------------------------ *)
(** ** The station resolver *)

Section Resolver.

Variable input : string.

Let score := station_score input.
Let top (sts : list string) := spec_top_score input sts.

(** The loop, started anywhere: it keeps what it has unless a later
    candidate scores strictly more, and then it ends on the first candidate
    with the highest score. *)
Lemma best_station_loop (sts : list string) :
  forall (best_match : option string) (best_score : nat),
    best_station input sts best_match best_score
    = if (top sts <=? best_score)%nat then best_match
      else find (fun st => (score st =? top sts)%nat) (spec_candidates input sts).
Proof.
  unfold top, score, spec_top_score, spec_candidates.
  induction sts as [|station rest IH]; intros bm bs; simpl.
  - reflexivity.
  - destruct (station_candidate input station) eqn:Hc; simpl.
    + set (sc := station_score input station).
      set (cands := filter (station_candidate input) rest) in *.
      set (tp := list_max (map (station_score input) cands)) in *.
      destruct (Nat.ltb_spec bs sc) as [Hlt|Hge]; rewrite IH.
      * destruct (Nat.leb_spec (Nat.max sc tp) bs) as [H|H]; [lia|].
        destruct (Nat.leb_spec tp sc) as [H1|H1].
        -- replace (Nat.max sc tp) with sc by lia. rewrite Nat.eqb_refl.
           reflexivity.
        -- replace (Nat.max sc tp) with tp by lia.
           destruct (Nat.eqb_spec sc tp); [lia|reflexivity].
      * destruct (Nat.leb_spec tp bs) as [H1|H1].
        -- destruct (Nat.leb_spec (Nat.max sc tp) bs) as [H|H]; [reflexivity|lia].
        -- destruct (Nat.leb_spec (Nat.max sc tp) bs) as [H|H]; [lia|].
           replace (Nat.max sc tp) with tp by lia.
           destruct (Nat.eqb_spec sc tp); [lia|reflexivity].
    + apply IH.
Qed.

Lemma score_of_empty_station : station_score input EmptyString = 0%nat.
Proof.
  unfold station_score, PyStr.common_chars. simpl.
  induction (nodup ascii_dec (PyStr.chars (PyStr.lower input))); simpl; auto.
Qed.

End Resolver.

(** C5, as amended.  The resolver follows the documented algorithm, with
    the highest score having to be positive; and by that algorithm the
    utterance cntrl, which is no substring of central, matches nothing in
    the catalog Central, Eastside, while the fragment centr selects
    Central. *)
Theorem station_resolver_follows_the_algorithm :
  (forall (input : string) (sts : list string),
      match_station input sts = spec_resolve input sts)
  /\ station_candidate "cntrl" "Central" = false
  /\ match_station "cntrl" ["Central"; "Eastside"] = None
  /\ match_station "centr" ["Central"; "Eastside"] = Some "Central".
Proof.
  split; [|repeat split].
  intros input sts. unfold match_station, spec_resolve.
  rewrite best_station_loop.
  destruct (Nat.eqb_spec (spec_top_score input sts) 0) as [H0|H0].
  - rewrite H0. reflexivity.
  - destruct (Nat.leb_spec (spec_top_score input sts) 0) as [H|H]; [lia|].
    destruct (find _ _) as [st|] eqn:Hf; [|reflexivity].
    apply find_some in Hf. destruct Hf as [_ Hs].
    apply Nat.eqb_eq in Hs. destruct st; [|reflexivity].
    rewrite score_of_empty_station in Hs. lia.
Qed.

(** C5, the claim as stated fails: for cntrl the resolver returns no
    match, not Central. *)
Lemma cntrl_matches_no_station :
  match_station "cntrl" ["Central"; "Eastside"] = None
  /\ match_station "cntrl" ["Central"; "Eastside"] <> Some "Central".
Proof.
  split; [reflexivity|discriminate].
Qed.

(* ------------------------------------------------------------------ *)
(** ** The age steps *)

Lemma no_digit_no_match (lo : nat) (hi : option nat) (u : string) :
  spec_first_digit_run u = None ->
  forall prev_word, PyStr.re_search_word PyStr.is_digit lo hi prev_word u = None.
Proof.
  induction u as [|c u IH]; intros H p; [reflexivity|].
  simpl in H. cbn [PyStr.re_search_word].
  destruct (PyStr.span PyStr.is_digit (String c u)) as [run rest].
  destruct (PyStr.is_digit c); [discriminate|].
  rewrite andb_false_r. simpl. apply IH, H.
Qed.

Lemma in_range_true (a : Z) :
  (1 <= a <= 120)%Z -> ((1 <=? a) && (a <=? 120))%Z = true.
Proof. intros [H1 H2]. apply andb_true_iff. split; apply Z.leb_le; assumption. Qed.

Lemma out_of_range_false (a : Z) :
  ~ (1 <= a <= 120)%Z -> ((1 <=? a) && (a <=? 120))%Z = false.
Proof.
  intros H. apply andb_false_iff.
  destruct (Z.leb_spec 1 a); [|left; reflexivity].
  destruct (Z.leb_spec a 120); [|right; reflexivity]. lia.
Qed.

(** *** What the pattern of the age steps matches *)

Lemma digit_is_word c : PyStr.is_digit c = true -> PyStr.is_word c = true.
Proof.
  unfold PyStr.is_word. intros ->. rewrite ?orb_true_r. reflexivity.
Qed.

Lemma not_word_not_digit c : PyStr.is_word c = false -> PyStr.is_digit c = false.
Proof.
  intros H. destruct (PyStr.is_digit c) eqn:Hd; [|reflexivity].
  rewrite (digit_is_word c Hd) in H. discriminate H.
Qed.

Lemma span_cons (cls : ascii -> bool) c s :
  PyStr.span cls (String c s)
  = if cls c
    then (String c (fst (PyStr.span cls s)), snd (PyStr.span cls s))
    else (EmptyString, String c s).
Proof.
  cbn [PyStr.span]. destruct (cls c); [|reflexivity].
  destruct (PyStr.span cls s). reflexivity.
Qed.

Lemma words_cons c u :
  words (String c u)
  = if PyStr.is_word c then
      if PyStr.next_is_word u then
        match words u with
        | w :: ws => String c w :: ws
        | [] => [String c EmptyString]
        end
      else String c EmptyString :: words u
    else words u.
Proof. reflexivity. Qed.

Lemma search_cons cls lo hi prev_word c s :
  PyStr.re_search_word cls lo hi prev_word (String c s)
  = if negb prev_word && cls c
       && PyStr.within lo hi (String.length (fst (PyStr.span cls (String c s))))
       && negb (PyStr.next_is_word (snd (PyStr.span cls (String c s))))
    then Some (fst (PyStr.span cls (String c s)))
    else PyStr.re_search_word cls lo hi (PyStr.is_word c) s.
Proof.
  cbn [PyStr.re_search_word].
  destruct (PyStr.span cls (String c s)). reflexivity.
Qed.

(** A word character starts the word that runs up to the next character
    that is none. *)
Lemma words_of_word_start u :
  forall c, PyStr.is_word c = true ->
    words (String c u)
    = String c (fst (PyStr.span PyStr.is_word u))
      :: words (snd (PyStr.span PyStr.is_word u)).
Proof.
  induction u as [|c' u IH]; intros c Hc.
  - rewrite words_cons, Hc. reflexivity.
  - rewrite words_cons, Hc. cbn [PyStr.next_is_word].
    rewrite span_cons. destruct (PyStr.is_word c') eqn:Hc'.
    + rewrite (IH c' Hc'). reflexivity.
    + reflexivity.
Qed.

(** A run of digits that no word character follows is a whole word. *)
Lemma digit_run_is_a_word u :
  PyStr.next_is_word (snd (PyStr.span PyStr.is_digit u)) = false ->
  PyStr.span PyStr.is_word u = PyStr.span PyStr.is_digit u
  /\ digits_only (fst (PyStr.span PyStr.is_digit u)) = true.
Proof.
  induction u as [|c u IH]; [split; reflexivity|].
  rewrite !span_cons. destruct (PyStr.is_digit c) eqn:Hd.
  - cbn [fst snd]. intros H. destruct (IH H) as [IH1 IH2].
    rewrite (digit_is_word c Hd), IH1. split; [reflexivity|].
    unfold digits_only in *. cbn [PyStr.chars list_ascii_of_string forallb].
    fold (PyStr.chars (fst (PyStr.span PyStr.is_digit u))).
    rewrite Hd, IH2. reflexivity.
  - cbn [fst snd PyStr.next_is_word]. intros H. rewrite H.
    split; reflexivity.
Qed.

(** A run of digits that a word character follows is part of a word that
    is not made of digits only. *)
Lemma digit_run_in_a_word u :
  PyStr.next_is_word (snd (PyStr.span PyStr.is_digit u)) = true ->
  digits_only (fst (PyStr.span PyStr.is_word u)) = false.
Proof.
  induction u as [|c u IH]; [discriminate|].
  rewrite !span_cons. destruct (PyStr.is_digit c) eqn:Hd.
  - cbn [fst snd]. intros H. rewrite (digit_is_word c Hd). cbn [fst].
    unfold digits_only in *. cbn [PyStr.chars list_ascii_of_string forallb].
    fold (PyStr.chars (fst (PyStr.span PyStr.is_word u))).
    rewrite (IH H). apply andb_false_r.
  - cbn [fst snd PyStr.next_is_word]. intros H. rewrite H. cbn [fst].
    unfold digits_only. cbn [PyStr.chars list_ascii_of_string forallb].
    rewrite Hd. reflexivity.
Qed.

Lemma digits_only_cons c w :
  digits_only (String c w) = PyStr.is_digit c && digits_only w.
Proof. reflexivity. Qed.

(** The search for a digit run between two word boundaries, started
    outside a word or inside one, against the list of words. *)
Lemma search_number_by_words u :
  PyStr.re_search_word PyStr.is_digit 1 None false u
  = find digits_only (words u)
  /\ PyStr.re_search_word PyStr.is_digit 1 None true u
     = find digits_only (words (snd (PyStr.span PyStr.is_word u))).
Proof.
  induction u as [|c u [IHa IHb]]; [split; reflexivity|].
  rewrite !search_cons. destruct (PyStr.is_word c) eqn:Hw.
  - split.
    + rewrite (words_of_word_start u c Hw). cbn [find negb andb].
      rewrite digits_only_cons, (span_cons PyStr.is_digit c u).
      destruct (PyStr.is_digit c) eqn:Hd.
      * cbn [fst snd String.length PyStr.within Nat.leb andb].
        destruct (PyStr.next_is_word (snd (PyStr.span PyStr.is_digit u))) eqn:Hn.
        -- cbn [negb]. rewrite IHb, (digit_run_in_a_word u Hn). reflexivity.
        -- cbn [negb]. destruct (digit_run_is_a_word u Hn) as [H1 H2].
           rewrite H1, H2. reflexivity.
      * cbn [andb]. rewrite IHb. reflexivity.
    + cbn [negb andb]. rewrite IHb, (span_cons PyStr.is_word c u), Hw.
      reflexivity.
  - rewrite (not_word_not_digit c Hw), !andb_false_r. cbn [andb].
    rewrite words_cons, (span_cons PyStr.is_word c u), Hw. cbn [snd].
    rewrite words_cons, Hw. split; exact IHa.
Qed.

Lemma search_number_is_the_number_word u :
  PyStr.search_number u = spec_number_word u.
Proof. apply search_number_by_words. Qed.

Lemma int_of_short_str ds :
  (Z.of_nat (String.length ds) <= PyStr.int_max_str_digits)%Z ->
  PyStr.int_of_str ds = Some (PyStr.int_of_digits ds).
Proof.
  intros H. unfold PyStr.int_of_str.
  destruct (Z.leb_spec (Z.of_nat (String.length ds)) PyStr.int_max_str_digits);
    [reflexivity|lia].
Qed.

Lemma int_of_long_str ds :
  (PyStr.int_max_str_digits < Z.of_nat (String.length ds))%Z ->
  PyStr.int_of_str ds = None.
Proof.
  intros H. unfold PyStr.int_of_str.
  destruct (Z.leb_spec (Z.of_nat (String.length ds)) PyStr.int_max_str_digits);
    [lia|reflexivity].
Qed.

(** C7, as amended.  The age steps of Book and Modify read the first word
    of the utterance that is made of digits only (the match of the pattern
    with its two word boundaries).  A number from 1 to 120 is stored in the
    buffer and the dialog moves on; any other number leaves the dialog
    state as it was, with the notice about the range; a number of more
    digits than [int] accepts, or no such word (in particular no digit at
    all), leaves it as it was with the notice about saying a number. *)
Theorem age_steps_accept_1_to_120 :
  forall (e : env) (s : session) (u : string),
    heard_command e = Some u ->
    at_age_step s ->
    PyStr.search_number u = spec_number_word u
    /\ (forall ds, spec_number_word u = Some ds ->
                   (Z.of_nat (String.length ds) <= PyStr.int_max_str_digits)%Z ->
                   (1 <= PyStr.int_of_digits ds <= 120)%Z ->
                   outcome e s = Ok tt
                   /\ d_age (ticket_details (turn e s))
                      = Some (PyStr.int_of_digits ds)
                   /\ past_age_step s (turn e s)
                   /\ tickets (turn e s) = tickets s)
    /\ (forall ds, spec_number_word u = Some ds ->
                   (Z.of_nat (String.length ds) <= PyStr.int_max_str_digits)%Z ->
                   ~ (1 <= PyStr.int_of_digits ds <= 120)%Z ->
                   outcome e s = Ok tt
                   /\ same_dialog_state s (turn e s)
                   /\ notices e s = (pending s ++ [age_range_notice])%list)
    /\ (forall ds, spec_number_word u = Some ds ->
                   (PyStr.int_max_str_digits < Z.of_nat (String.length ds))%Z ->
                   outcome e s = Ok tt
                   /\ same_dialog_state s (turn e s)
                   /\ notices e s = (pending s ++ [age_unclear_notice])%list)
    /\ (spec_number_word u = None ->
        outcome e s = Ok tt
        /\ same_dialog_state s (turn e s)
        /\ notices e s = (pending s ++ [age_unclear_notice])%list)
    /\ (spec_first_digit_run u = None -> spec_number_word u = None).
Proof.
  intros e s u Hh Hs.
  assert (Hrun : forall reading,
             read_age u = reading ->
             outcome e s = Ok tt
             /\ match reading with
                | age_ok a =>
                    d_age (ticket_details (turn e s)) = Some a
                    /\ past_age_step s (turn e s)
                    /\ tickets (turn e s) = tickets s
                | age_out_of_range =>
                    same_dialog_state s (turn e s)
                    /\ notices e s = (pending s ++ [age_range_notice])%list
                | age_not_found | age_value_error =>
                    same_dialog_state s (turn e s)
                    /\ notices e s = (pending s ++ [age_unclear_notice])%list
                end).
  { intros reading Hr. unfold past_age_step, same_dialog_state.
    destruct Hs as [[Hop Hst]|[Hop Hst]]; rewrite Hop;
      start_turn e s r E Hop;
      [unfold process_booking in E|unfold process_modification in E];
      repeat (exec_in E; rewrite ?Hst, ?Hh, ?Hr in E);
      destruct reading; exec_in E; subst r; fields; autorewrite with settled;
      repeat split; try assumption. }
  rewrite <- (search_number_is_the_number_word u).
  split; [reflexivity|]. split; [|split; [|split; [|split]]].
  - intros ds Hm Hlen Hin.
    destruct (Hrun (age_ok (PyStr.int_of_digits ds))) as [H1 H2]; [|tauto].
    unfold read_age. rewrite Hm, (int_of_short_str ds Hlen), (in_range_true _ Hin).
    reflexivity.
  - intros ds Hm Hlen Hout. apply (Hrun age_out_of_range).
    unfold read_age.
    rewrite Hm, (int_of_short_str ds Hlen), (out_of_range_false _ Hout).
    reflexivity.
  - intros ds Hm Hlen. apply (Hrun age_value_error).
    unfold read_age. rewrite Hm, (int_of_long_str ds Hlen). reflexivity.
  - intros Hm. apply (Hrun age_not_found). unfold read_age. rewrite Hm.
    reflexivity.
  - intros H. apply no_digit_no_match, H.
Qed.

(** C7, the claim as stated fails: the first run of digits of a1 is 1, yet
    it is not a word of its own, so no age is read and the step is held;
    and in x0 5 the first run of digits is 0, yet the age 5 is accepted. *)
Lemma age_is_not_the_first_digit_run :
  at_age_step asked_for_age
  /\ spec_first_digit_run "a1" = Some "1"
  /\ PyStr.int_of_digits "1" = 1%Z
  /\ booking_step (turn (hear "a1") asked_for_age) = Some book_age
  /\ d_age (ticket_details (turn (hear "a1") asked_for_age)) = None
  /\ notices (hear "a1") asked_for_age = [age_unclear_notice]
  /\ spec_first_digit_run "x0 5" = Some "0"
  /\ booking_step (turn (hear "x0 5") asked_for_age) = Some book_gender
  /\ d_age (ticket_details (turn (hear "x0 5") asked_for_age)) = Some 5%Z.
Proof.
  split; [left; split; reflexivity|]. vm_compute. repeat split.
Qed.

Lemma age_steps_accept_1_to_120_witness :
  (PyStr.search_number "x0 120" = Some "120"
   /\ d_age (ticket_details (turn (hear "x0 120") asked_for_age)) = Some 120%Z
   /\ past_age_step asked_for_age (turn (hear "x0 120") asked_for_age))
  /\ (same_dialog_state asked_for_age (turn (hear "I am 121") asked_for_age)
      /\ notices (hear "I am 121") asked_for_age = [age_range_notice])
  /\ (same_dialog_state asked_for_age (turn (hear long_number) asked_for_age)
      /\ notices (hear long_number) asked_for_age = [age_unclear_notice])
  /\ (same_dialog_state asked_for_age (turn (hear "a1") asked_for_age)
      /\ notices (hear "a1") asked_for_age = [age_unclear_notice]).
Proof.
  assert (Hs : at_age_step asked_for_age) by (left; split; reflexivity).
  split; [|split; [|split]].
  - destruct (age_steps_accept_1_to_120 (hear "x0 120") asked_for_age "x0 120"
                eq_refl Hs) as (H0 & H1 & _).
    split; [rewrite H0; reflexivity|].
    destruct (H1 "120") as (_ & Ha & Hp & _);
      [reflexivity|vm_compute; discriminate|vm_compute; split; discriminate|].
    split; [exact Ha|exact Hp].
  - destruct (age_steps_accept_1_to_120 (hear "I am 121") asked_for_age
                "I am 121" eq_refl Hs) as (_ & _ & H2 & _).
    destruct (H2 "121") as (_ & Hd & Hn);
      [reflexivity|vm_compute; discriminate
      |vm_compute; intros [_ H]; apply H; reflexivity|].
    split; [exact Hd|exact Hn].
  - destruct (age_steps_accept_1_to_120 (hear long_number) asked_for_age
                long_number eq_refl Hs) as (_ & _ & _ & H3 & _).
    destruct (H3 long_number) as (_ & Hd & Hn);
      [vm_compute; reflexivity|vm_compute; reflexivity|].
    split; [exact Hd|exact Hn].
  - destruct (age_steps_accept_1_to_120 (hear "a1") asked_for_age "a1"
                eq_refl Hs) as (_ & _ & _ & _ & H4 & _).
    destruct (H4 eq_refl) as (_ & Hd & Hn).
    split; [exact Hd|exact Hn].
Defined.

(* ------------------------------------------------------------------ *)
(** ** Turns in which nothing is heard *)

Ltac quiet_leaf s r E Hh Hop Hst :=
  repeat (progress (run_in E; rewrite ?Hh, ?Hst in E));
  subst r; unfold same_dialog_state, greeting; fields;
  autorewrite with settled; rewrite ?Hop, ?Hst;
  repeat split; rewrite <- ?app_assoc; reflexivity.

(** C6, as amended.  At every step at which the controller listens, that
    is at the main menu and at every sub-step of Book, Modify, Cancel and
    View but [download_ticket], a turn in which nothing is heard (no input,
    or an empty transcript) reads the microphone, ends normally and leaves
    the operation, every step, the buffer, the selected id and the store as
    they were; after what was pending it says the no-input notice of that
    very step and nothing else.  The [download_ticket] step does not read
    the microphone. *)
Theorem no_input_turn_is_noop :
  forall (e : env) (s : session) (d : dialog_step),
    current_step s = Some d ->
    heard_command e = None ->
    match no_input_prompt d with
    | Some prompt =>
        outcome e s = Ok tt
        /\ listened e s = true
        /\ same_dialog_state s (turn e s)
        /\ current_step (turn e s) = Some d
        /\ notices e s = (pending s ++ greeting s ++ [prompt])%list
    | None =>
        d = at_view view_download_ticket /\ listened e s = false
    end.
Proof.
  intros e s d Hd Hh.
  assert (Hsame : forall s', same_dialog_state s s' -> current_step s' = current_step s).
  { intros s' (H1 & H2 & H3 & H4 & H5 & _). unfold current_step.
    rewrite H1, H2, H3, H4, H5. reflexivity. }
  assert (Hcut : forall prompt,
             outcome e s = Ok tt /\ listened e s = true
             /\ same_dialog_state s (turn e s)
             /\ notices e s = (pending s ++ greeting s ++ [prompt])%list ->
             outcome e s = Ok tt /\ listened e s = true
             /\ same_dialog_state s (turn e s)
             /\ current_step (turn e s) = Some d
             /\ notices e s = (pending s ++ greeting s ++ [prompt])%list).
  { intros prompt (H1 & H2 & H3 & H4). repeat split; try assumption;
      try apply H3. rewrite (Hsame _ H3). exact Hd. }
  unfold current_step in Hd.
  destruct (current_operation s) as [[]|] eqn:Hop.
  - destruct (booking_step s) as [b|] eqn:Hst; [|discriminate].
    injection Hd as <-.
    destruct b; cbn [no_input_prompt]; apply Hcut;
      start_turn e s r E Hop; unfold process_booking in E; run_in E;
      quiet_leaf s r E Hh Hop Hst.
  - destruct (modify_step_of s) as [m|] eqn:Hst; [|discriminate].
    injection Hd as <-.
    destruct m; cbn [no_input_prompt]; apply Hcut;
      start_turn e s r E Hop; unfold process_modification in E; run_in E;
      quiet_leaf s r E Hh Hop Hst.
  - destruct (cancel_step_of s) as [c|] eqn:Hst; [|discriminate].
    injection Hd as <-.
    destruct c; cbn [no_input_prompt]; apply Hcut;
      start_turn e s r E Hop; unfold process_cancellation in E; run_in E;
      quiet_leaf s r E Hh Hop Hst.
  - destruct (view_step_of s) as [[v|]|] eqn:Hst; try discriminate.
    injection Hd as <-.
    destruct v; cbn [no_input_prompt]; try apply Hcut.
    4: { split; [reflexivity|].
         start_turn e s r E Hop; unfold process_view in E; run_in E.
         repeat (progress (run_in E; rewrite ?Hst in E)).
         destruct (ticket_id_to_download s);
           [destruct (ticket_operations.get_ticket_by_id _ _)|];
           run_in E; subst r; reflexivity. }
    all: start_turn e s r E Hop; unfold process_view in E; run_in E;
      quiet_leaf s r E Hh Hop Hst.
  - injection Hd as <-. cbn [no_input_prompt]. apply Hcut.
    start_turn e s r E Hop. unfold process_main_menu in E. run_in E.
    destruct (first_run s) eqn:Hst; quiet_leaf s r E Hh Hop Hst.
Qed.

(** C6, the claim as stated fails: the [download_ticket] step of View is a
    dialog state too; a turn in it in which nothing is heard announces the
    download and ends the operation. *)
Lemma silent_download_turn_ends_the_operation :
  current_step ready_to_download = Some (at_view view_download_ticket)
  /\ heard_command silence = None
  /\ current_operation ready_to_download = Some op_view
  /\ current_operation (turn silence ready_to_download) = None
  /\ view_step_of (turn silence ready_to_download) = Some None
  /\ ~ same_dialog_state ready_to_download (turn silence ready_to_download).
Proof.
  vm_compute. repeat split. intros [H _]. discriminate H.
Qed.

Lemma no_input_turn_is_noop_witness :
  (outcome silence asked_for_age = Ok tt
   /\ listened silence asked_for_age = true
   /\ same_dialog_state asked_for_age (turn silence asked_for_age)
   /\ current_step (turn silence asked_for_age) = Some (at_book book_age)
   /\ notices silence asked_for_age
      = ["I couldn't hear your age. Please say your age as a number."])
  /\ listened silence ready_to_download = false.
Proof.
  split.
  - exact (no_input_turn_is_noop silence asked_for_age (at_book book_age)
             eq_refl eq_refl).
  - exact (proj2 (no_input_turn_is_noop silence ready_to_download
                    (at_view view_download_ticket) eq_refl eq_refl)).
Defined.

(* ------------------------------------------------------------------ *)
(** ** Source and destination differ *)

Lemma modify_ticket_keeps (P : ticket -> Prop) tid nm ag g src dst ts :
  (forall t, P t -> P (Ticket (id t) nm ag g src dst (travel_date t) (booking_time t))) ->
  Forall P ts ->
  Forall P (snd (ticket_operations.modify_ticket tid nm ag g src dst ts)).
Proof.
  intros Hnew. induction 1 as [|t ts Ht Hts IH]; simpl.
  - constructor.
  - destruct (String.eqb (id t) tid).
    + simpl. constructor; auto.
    + destruct (ticket_operations.modify_ticket tid nm ag g src dst ts) as [r ts'].
      simpl in *. constructor; assumption.
Qed.

Lemma cancel_ticket_keeps (P : ticket -> Prop) tid ts :
  Forall P ts -> Forall P (snd (ticket_operations.cancel_ticket tid ts)).
Proof.
  induction 1 as [|t ts Ht Hts IH]; simpl.
  - constructor.
  - destruct (String.eqb (id t) tid).
    + assumption.
    + destruct (ticket_operations.cancel_ticket tid ts) as [r ts'].
      simpl in *. constructor; assumption.
Qed.

Lemma get_ticket_by_id_in tid ts t :
  ticket_operations.get_ticket_by_id tid ts = Some t -> In t ts /\ id t = tid.
Proof.
  intros H. apply find_some in H. destruct H as [Hin He].
  split; [assumption|]. apply String.eqb_eq, He.
Qed.

(** Split on whatever the run of [E : r = m e w] is waiting for. *)
Ltac branch_in E :=
  lazymatch type of E with
  | _ = (match ?x with _ => _ end) _ _ => destruct x eqn:?
  | _ = bind (match ?x with _ => _ end) _ _ _ => destruct x eqn:?
  | _ = match ?x with _ => _ end => destruct x eqn:?
  end.

Ltac walk_in E := repeat (run_in E; try branch_in E).

(** Bring the facts collected along a run to bear on the goal and on the
    buffer invariant [Hbuf] of the state before the turn. *)
Ltac recall Hbuf :=
  repeat match goal with
         | H : booking_step ?s = _ |- _ =>
             first [rewrite H in Hbuf | progress rewrite H]
         | H : d_source _ = _ |- _ =>
             first [rewrite H in Hbuf | progress rewrite H]
         | H : d_destination _ = _ |- _ =>
             first [rewrite H in Hbuf | progress rewrite H]
         end.

Lemma booking_keeps_sound e s :
  current_operation s = Some op_book -> sound s -> sound (turn e s).
Proof.
  intros Hop [Hts Hbuf]. unfold sound, buffer_ok in *. rewrite Hop in Hbuf.
  start_turn e s r E Hop. unfold process_booking in E.
  walk_in E.
  all: subst r; fields; autorewrite with settled; rewrite ?Hop; recall Hbuf.
  all: try (split; [assumption|first [exact I|assumption]]).
  - split; [assumption|].
    destruct (d_source (ticket_details s));
      [apply String.eqb_neq; assumption|exact I].
  - split; [|exact I]. apply Forall_app. split; [assumption|].
    constructor; [exact Hbuf|constructor].
Qed.

(** Writing a ticket's own fields back changes nothing. *)
Lemma modify_ticket_same tid ts t :
  ticket_operations.get_ticket_by_id tid ts = Some t ->
  ticket_operations.modify_ticket tid (name t) (age t) (gender_of t)
                                  (source t) (destination t) ts
  = (Some t, ts).
Proof.
  unfold ticket_operations.get_ticket_by_id.
  induction ts as [|a ts IH]; simpl; intros H; [discriminate|].
  destruct (String.eqb (id a) tid).
  - injection H as <-. destruct a; reflexivity.
  - rewrite (IH H). reflexivity.
Qed.

Lemma commit_of_selected sel ts t o l :
  get_selected sel ts = Some t ->
  match sel with
  | Some tid =>
      ticket_operations.modify_ticket tid (name t) (age t) (gender_of t)
                                      (source t) (destination t) ts
  | None => (None, ts)
  end = (o, l) ->
  o = Some t /\ l = ts.
Proof.
  destruct sel as [tid|]; simpl; intros Hsel H; [|discriminate].
  rewrite (modify_ticket_same _ _ _ Hsel) in H. injection H as <- <-.
  split; reflexivity.
Qed.

Lemma modification_keeps_sound e s :
  current_operation s = Some op_modify -> sound s -> sound (turn e s).
Proof.
  intros Hop [Hts Hbuf]. unfold sound, buffer_ok in *. rewrite Hop in Hbuf.
  start_turn e s r E Hop. unfold process_modification in E.
  walk_in E.
  all: subst r; fields; autorewrite with settled; rewrite ?Hop.
  all: try (split; [assumption|first [exact I|assumption]]).
  all: match goal with
       | Hs : get_selected _ _ = Some _, Hm : _ = (_, ?l) |- _ =>
           destruct (commit_of_selected _ _ _ _ _ Hs Hm) as [_ ->]
       end; split; [assumption|exact I].
Qed.

Lemma cancellation_keeps_sound e s :
  current_operation s = Some op_cancel -> sound s -> sound (turn e s).
Proof.
  intros Hop [Hts Hbuf]. unfold sound, buffer_ok in *. rewrite Hop in Hbuf.
  start_turn e s r E Hop. unfold process_cancellation in E.
  walk_in E.
  all: subst r; fields; autorewrite with settled; rewrite ?Hop.
  all: try (split; [assumption|first [exact I|assumption]]).
  all: split; [|exact I];
    destruct (selected_ticket_id s) as [tid|];
    [|first [discriminate Heqp|injection Heqp as <-; assumption]];
    pose proof (cancel_ticket_keeps distinct_ends tid _ Hts) as Hk;
    rewrite Heqp in Hk; exact Hk.
Qed.

Lemma viewing_keeps_sound e s :
  current_operation s = Some op_view -> sound s -> sound (turn e s).
Proof.
  intros Hop [Hts Hbuf]. unfold sound, buffer_ok in *. rewrite Hop in Hbuf.
  start_turn e s r E Hop. unfold process_view in E.
  walk_in E.
  all: subst r; fields; autorewrite with settled; rewrite ?Hop.
  all: try match goal with H : tickets _ = _ |- _ => rewrite H end.
  all: split; [assumption|first [exact I|assumption]].
Qed.

Lemma main_menu_keeps_sound e s :
  current_operation s = None -> sound s -> sound (turn e s).
Proof.
  intros Hop [Hts Hbuf]. unfold sound, buffer_ok in *. rewrite Hop in Hbuf.
  start_turn e s r E Hop. unfold process_main_menu in E.
  walk_in E.
  all: subst r; fields; autorewrite with settled; rewrite ?Hop.
  all: try match goal with H : tickets _ = _ |- _ => rewrite H end.
  all: split; [assumption|first [exact I|assumption]].
Qed.

Lemma turn_keeps_sound e s : sound s -> sound (turn e s).
Proof.
  destruct (current_operation s) as [[]|] eqn:Hop.
  - apply booking_keeps_sound, Hop.
  - apply modification_keeps_sound, Hop.
  - apply cancellation_keeps_sound, Hop.
  - apply viewing_keeps_sound, Hop.
  - apply main_menu_keeps_sound, Hop.
Qed.

(** C2.  Source and destination differ for every ticket in the store after
    every turn of every dialog, whatever is said: a sound state (every
    stored ticket has distinct ends, and so has the buffer of a booking
    that is past its destination step) stays sound.  The session starts
    sound, with an empty store. *)
Theorem source_differs_from_destination :
  forall (es : list env) (s : session),
    sound s ->
    sound (run es s)
    /\ Forall distinct_ends (tickets (run es s)).
Proof.
  intros es. induction es as [|e es IH]; intros s Hs; simpl.
  - split; [assumption|apply Hs].
  - apply IH, turn_keeps_sound, Hs.
Qed.

Lemma initial_session_sound : sound initial_session.
Proof. split; [constructor|exact I]. Qed.

Lemma source_differs_from_destination_witness :
  sound (run (map hear ["book a ticket"; "Jane Doe"; "29"; "female";
                        "Central"; "North"; "tomorrow"; "confirm"])
             initial_session)
  /\ Forall distinct_ends
       (tickets (run (map hear ["book a ticket"; "Jane Doe"; "29"; "female";
                                "Central"; "North"; "tomorrow"; "confirm"])
                     initial_session)).
Proof.
  apply (source_differs_from_destination
           (map hear ["book a ticket"; "Jane Doe"; "29"; "female";
                      "Central"; "North"; "tomorrow"; "confirm"])
           initial_session).
  split; [constructor|exact I].
Defined.

(* ================================================================== *)
(** * Further properties of the controller *)

(** ** Modification: what the commit writes *)

Lemma field_keywords_absent c :
  PyStr.contains_any ["name"; "age"; "gender"; "source"; "destination"] c = false ->
  PyStr.contains "name" c = false /\ PyStr.contains "age" c = false
  /\ PyStr.contains "gender" c = false /\ PyStr.contains "source" c = false
  /\ PyStr.contains "destination" c = false.
Proof.
  intros H. repeat split;
    (eapply contains_any_in; [|exact H]; simpl; tauto).
Qed.

(** Whatever the buffer holds when the user confirms in [select_field], the
    commit leaves every ticket of the store as it was: the buffer is
    overwritten with the stored ticket before it is committed.  The turn
    still reports success, and the operation ends. *)
Theorem modify_commit_never_changes_the_store :
  forall (e : env) (s : session) (c : string) (t : ticket),
    current_operation s = Some op_modify ->
    modify_step_of s = Some modify_select_field ->
    heard_command e = Some c ->
    get_selected (selected_ticket_id s) (tickets s) = Some t ->
    PyStr.contains_any ["name"; "age"; "gender"; "source"; "destination"]
                       (PyStr.lower c) = false ->
    PyStr.contains_any ["confirm"; "update"; "save"] (PyStr.lower c) = true ->
    outcome e s = Ok tt
    /\ tickets (turn e s) = tickets s
    /\ notices e s
       = (pending s ++ ["Ticket updated successfully. Returning to main menu."])%list
    /\ current_operation (turn e s) = None
    /\ modify_step_of (turn e s) = Some modify_select_ticket
    /\ selected_ticket_id (turn e s) = None
    /\ ticket_details (turn e s) = no_details
    /\ show_success (turn e s) = true.
Proof.
  intros e s c t Hop Hst Hh Hsel Hf Hc.
  destruct (field_keywords_absent _ Hf) as (F1 & F2 & F3 & F4 & F5).
  start_turn e s r E Hop. unfold process_modification in E.
  repeat (progress (run_in E; rewrite ?Hst, ?Hh, ?Hsel in E)).
  cbv zeta in E. rewrite F1, F2, F3, F4, F5, any3, Hc in E.
  repeat (progress (run_in E; rewrite ?Hst, ?Hh, ?Hsel in E)).
  destruct (match selected_ticket_id s with
            | Some tid => _
            | None => _
            end) as [o l] eqn:Hm in E.
  destruct (commit_of_selected _ _ _ _ _ Hsel Hm) as [-> ->].
  run_in E. subst r; fields; autorewrite with settled. repeat split.
Qed.

Lemma modify_commit_never_changes_the_store_witness :
  outcome (hear "save") after_new_name = Ok tt
  /\ tickets (turn (hear "save") after_new_name) = tickets after_new_name
  /\ notices (hear "save") after_new_name
     = (pending after_new_name
        ++ ["Ticket updated successfully. Returning to main menu."])%list
  /\ current_operation (turn (hear "save") after_new_name) = None
  /\ modify_step_of (turn (hear "save") after_new_name)
     = Some modify_select_ticket
  /\ selected_ticket_id (turn (hear "save") after_new_name) = None
  /\ ticket_details (turn (hear "save") after_new_name) = no_details
  /\ show_success (turn (hear "save") after_new_name) = true.
Proof.
  apply (modify_commit_never_changes_the_store
           (hear "save") after_new_name "save" demo_ticket); reflexivity.
Defined.

(** A selection that is no longer in the store makes [select_field] raise
    before it says anything: [dict(None)] is a [TypeError].  The dialog
    state is left as it was. *)
Theorem select_field_raises_on_stale_selection :
  forall (e : env) (s : session) (c : string),
    current_operation s = Some op_modify ->
    modify_step_of s = Some modify_select_field ->
    heard_command e = Some c ->
    get_selected (selected_ticket_id s) (tickets s) = None ->
    outcome e s = Raise TypeError
    /\ notices e s = pending s
    /\ same_dialog_state s (turn e s).
Proof.
  intros e s c Hop Hst Hh Hsel.
  unfold same_dialog_state.
  start_turn e s r E Hop. unfold process_modification in E.
  repeat (progress (run_in E; rewrite ?Hst, ?Hh, ?Hsel in E)).
  subst r; fields; autorewrite with settled. repeat split.
Qed.

Lemma select_field_raises_on_stale_selection_witness :
  outcome (hear "name")
          (set_tickets [] (run (map hear ["edit"; "AB12CD34"]) one_ticket))
  = Raise TypeError
  /\ notices (hear "name")
             (set_tickets [] (run (map hear ["edit"; "AB12CD34"]) one_ticket))
     = pending (set_tickets [] (run (map hear ["edit"; "AB12CD34"]) one_ticket))
  /\ same_dialog_state
       (set_tickets [] (run (map hear ["edit"; "AB12CD34"]) one_ticket))
       (turn (hear "name")
             (set_tickets [] (run (map hear ["edit"; "AB12CD34"]) one_ticket))).
Proof.
  apply (select_field_raises_on_stale_selection
           (hear "name")
           (set_tickets [] (run (map hear ["edit"; "AB12CD34"]) one_ticket))
           "name"); reflexivity.
Defined.

(* ------------------------------------------------------------------ *)
(** ** The reachable dialog states *)

Lemma own_id_is_found t ts :
  In t ts -> ticket_operations.get_ticket_by_id (id t) ts <> None.
Proof.
  intros Hin Hnone.
  pose proof (find_none _ _ Hnone t Hin) as H. simpl in H.
  rewrite String.eqb_refl in H. discriminate.
Qed.

Lemma single_match_is_stored q ts t :
  ticket_operations.get_tickets_by_name q ts = [t] ->
  ticket_operations.get_ticket_by_id (id t) ts <> None.
Proof.
  intros H. apply own_id_is_found.
  assert (Hin : In t (ticket_operations.get_tickets_by_name q ts))
    by (rewrite H; left; reflexivity).
  apply filter_In in Hin. apply Hin.
Qed.

Ltac consistent_leaf :=
  repeat match goal with
         | H : Some _ = Some _ |- _ => injection H as H
         end;
  subst; fields; autorewrite with settled;
  cbn [booking_buffer_ready get_selected];
  repeat match goal with
         | H : ?x = _ |- context [?x] => rewrite H
         end;
  cbn [booking_buffer_ready get_selected] in *; fields;
  try solve [ exact I | discriminate | assumption | tauto
            | intuition (discriminate || congruence)
            | eapply single_match_is_stored; eassumption ].

Lemma booking_keeps_consistent e s :
  current_operation s = Some op_book -> consistent s -> consistent (turn e s).
Proof.
  intros Hop Hc. unfold consistent in *. rewrite Hop in Hc.
  start_turn e s r E Hop. unfold process_booking in E.
  walk_in E.
  all: consistent_leaf.
Qed.

Lemma modification_keeps_consistent e s :
  current_operation s = Some op_modify -> consistent s -> consistent (turn e s).
Proof.
  intros Hop Hc. unfold consistent in *. rewrite Hop in Hc.
  start_turn e s r E Hop. unfold process_modification in E.
  walk_in E.
  all: consistent_leaf.
Qed.

Lemma cancellation_keeps_consistent e s :
  current_operation s = Some op_cancel -> consistent s -> consistent (turn e s).
Proof.
  intros Hop Hc. unfold consistent in *. rewrite Hop in Hc.
  start_turn e s r E Hop. unfold process_cancellation in E.
  walk_in E.
  all: consistent_leaf.
Qed.

Lemma viewing_keeps_consistent e s :
  current_operation s = Some op_view -> consistent s -> consistent (turn e s).
Proof.
  intros Hop Hc. unfold consistent in *. rewrite Hop in Hc.
  start_turn e s r E Hop. unfold process_view in E.
  walk_in E.
  all: consistent_leaf.
Qed.

Lemma main_menu_keeps_consistent e s :
  current_operation s = None -> consistent s -> consistent (turn e s).
Proof.
  intros Hop Hc. unfold consistent in *. rewrite Hop in Hc.
  start_turn e s r E Hop. unfold process_main_menu in E.
  walk_in E.
  all: consistent_leaf.
Qed.

Lemma turn_keeps_consistent e s : consistent s -> consistent (turn e s).
Proof.
  destruct (current_operation s) as [[]|] eqn:Hop.
  - apply booking_keeps_consistent, Hop.
  - apply modification_keeps_consistent, Hop.
  - apply cancellation_keeps_consistent, Hop.
  - apply viewing_keeps_consistent, Hop.
  - apply main_menu_keeps_consistent, Hop.
Qed.

Lemma run_keeps_consistent es : forall s, consistent s -> consistent (run es s).
Proof.
  induction es as [|e es IH]; intros s Hs; simpl; [assumption|].
  apply IH, turn_keeps_consistent, Hs.
Qed.

Lemma consistent_step_present s : consistent s -> step_present s.
Proof.
  unfold consistent, step_present.
  destruct (current_operation s) as [[]|]; try tauto.
  - destruct (modify_step_of s); [discriminate|tauto].
  - destruct (view_step_of s); [discriminate|tauto].
Qed.

(** Whatever is said, the dialog never leaves the state space of the
    specification: in every state reached from the initial session the
    step belongs to the current operation, a booking has collected the
    fields of the steps it passed, and a modification past its first step
    has its selected ticket in the store. *)
Theorem reachable_states_are_consistent :
  forall (es : list env),
    consistent (run es initial_session)
    /\ step_present (run es initial_session).
Proof.
  intros es.
  assert (H : consistent (run es initial_session))
    by (apply run_keeps_consistent; exact I).
  split; [exact H|apply consistent_step_present, H].
Qed.

(* ------------------------------------------------------------------ *)
(** ** Dates: what [strftime] writes, [strptime] reads *)

Lemma years_checked : forallb year_check (seq 1000 (90 * 100)) = true.
Proof. vm_compute. reflexivity. Qed.

Lemma pad2_checked : forallb (pad_check 2) (seq 0 100) = true.
Proof. vm_compute. reflexivity. Qed.

Lemma pad_facts w n :
  pad_check w n = true ->
  forallb PyStr.is_digit (PyStr.chars (Calendar.pad w n)) = true
  /\ String.length (Calendar.pad w n) = w
  /\ PyStr.int_of_digits (Calendar.pad w n) = Z.of_nat n.
Proof.
  unfold pad_check. cbv zeta. intros H.
  apply andb_true_iff in H. destruct H as [H H3].
  apply andb_true_iff in H. destruct H as [H1 H2].
  repeat split; [assumption|apply Nat.eqb_eq, H2|apply Z.eqb_eq, H3].
Qed.

Lemma year_facts n :
  (1000 <= Z.of_nat n <= 9999)%Z ->
  forallb PyStr.is_digit (PyStr.chars (PyStr.str_of_nat n)) = true
  /\ String.length (PyStr.str_of_nat n) = 4%nat
  /\ PyStr.int_of_digits (PyStr.str_of_nat n) = Z.of_nat n.
Proof.
  intros H.
  assert (Hc : year_check n = true).
  { apply (proj1 (forallb_forall _ _) years_checked). apply in_seq. lia. }
  unfold year_check in Hc. cbv zeta in Hc.
  apply andb_true_iff in Hc. destruct Hc as [Hc H3].
  apply andb_true_iff in Hc. destruct Hc as [H1 H2].
  repeat split; [assumption|apply Nat.eqb_eq, H2|apply Z.eqb_eq, H3].
Qed.

Lemma pad2_facts n : (n <= 99)%nat -> pad_check 2 n = true.
Proof.
  intros H. apply (proj1 (forallb_forall _ _) pad2_checked).
  apply in_seq. lia.
Qed.

Lemma span_digits_then (a b : string) :
  forallb PyStr.is_digit (PyStr.chars a) = true ->
  match b with
  | EmptyString => True
  | String c _ => PyStr.is_digit c = false
  end ->
  PyStr.span PyStr.is_digit (a ++ b) = (a, b).
Proof.
  induction a as [|c a IH]; simpl; intros Ha Hb.
  - destruct b as [|c b]; simpl; [reflexivity|]. rewrite Hb. reflexivity.
  - apply andb_true_iff in Ha. destruct Ha as [Hc Ha].
    rewrite Hc, (IH Ha Hb). reflexivity.
Qed.

Lemma days_in_month_bound y m : (Calendar.days_in_month y m <= 31)%nat.
Proof.
  unfold Calendar.days_in_month.
  do 13 (destruct m as [|m]; [try destruct (Calendar.is_leap y); lia|]). lia.
Qed.

Lemma valid_bounds d :
  Calendar.valid d = true ->
  (Z.of_nat (Calendar.year d) <= 9999)%Z
  /\ (1 <= Calendar.year d /\ 1 <= Calendar.month d <= 12
      /\ 1 <= Calendar.day d <= Calendar.days_in_month (Calendar.year d) (Calendar.month d))%nat.
Proof.
  unfold Calendar.valid. intros H.
  repeat (apply andb_true_iff in H; destruct H as [H ?]).
  repeat match goal with
         | H : (_ <=? _)%nat = true |- _ => apply Nat.leb_le in H
         | H : (_ <=? _)%Z = true |- _ => apply Z.leb_le in H
         end.
  lia.
Qed.

(** Round trip: the ISO text of an existing date of a year with four
    digits is read back as that date. *)
Lemma strptime_reads_iso d :
  Calendar.valid d = true ->
  (1000 <= Z.of_nat (Calendar.year d))%Z ->
  Calendar.strptime_iso (Calendar.iso d) = Some d.
Proof.
  intros Hv Hk. destruct (valid_bounds d Hv) as (Hy & Hy1 & Hm & Hd).
  pose proof (days_in_month_bound (Calendar.year d) (Calendar.month d)) as Hb.
  destruct (year_facts (Calendar.year d) ltac:(lia)) as (Y1 & Y2 & Y3).
  destruct (pad_facts 2 _ (pad2_facts (Calendar.month d) ltac:(lia))) as (M1 & M2 & M3).
  destruct (pad_facts 2 _ (pad2_facts (Calendar.day d) ltac:(lia))) as (D1 & D2 & D3).
  unfold Calendar.strptime_iso, Calendar.iso, Calendar.year_str.
  rewrite (span_digits_then _ _ Y1) by reflexivity.
  change ("-" ++ Calendar.pad 2 (Calendar.month d) ++ "-" ++ Calendar.pad 2 (Calendar.day d))
    with (String "-" (Calendar.pad 2 (Calendar.month d)
                      ++ "-" ++ Calendar.pad 2 (Calendar.day d))).
  cbv iota beta.
  rewrite (span_digits_then _ _ M1) by reflexivity.
  change ("-" ++ Calendar.pad 2 (Calendar.day d))
    with (String "-" (Calendar.pad 2 (Calendar.day d))).
  cbv iota beta.
  replace (Calendar.pad 2 (Calendar.day d))
    with (Calendar.pad 2 (Calendar.day d) ++ EmptyString) at 1
    by (clear; induction (Calendar.pad 2 (Calendar.day d)); simpl; congruence).
  rewrite (span_digits_then _ _ D1) by exact I.
  rewrite Y2, M2, D2, Y3, M3, D3, !Nat2Z.id.
  destruct d as [y m dd]. simpl in *. rewrite Hv. reflexivity.
Qed.

Lemma valid_intro y m d :
  (Z.of_nat y <= 9999)%Z ->
  (1 <= y /\ 1 <= m <= 12 /\ 1 <= d <= Calendar.days_in_month y m)%nat ->
  Calendar.valid (Calendar.Date y m d) = true.
Proof.
  intros Hy (H1 & [H2 H3] & [H4 H5]). unfold Calendar.valid.
  cbn [Calendar.year Calendar.month Calendar.day].
  repeat (apply andb_true_iff; split);
    first [apply Nat.leb_le; assumption | apply Z.leb_le; assumption].
Qed.

Lemma days_in_month_pos y m :
  (1 <= m <= 12)%nat -> (28 <= Calendar.days_in_month y m)%nat.
Proof.
  intros [H1 H2]. unfold Calendar.days_in_month.
  do 13 (destruct m as [|m]; [try destruct (Calendar.is_leap y); lia|]). lia.
Qed.

(** The day after an existing date exists, unless the date is in the last
    year, and is in the same year or the next. *)
Lemma next_day_valid d :
  Calendar.valid d = true ->
  (Z.of_nat (Calendar.year d) < 9999)%Z ->
  exists d', Calendar.next_day d = Some d'
             /\ Calendar.valid d' = true
             /\ (Calendar.year d <= Calendar.year d')%nat.
Proof.
  intros Hv Hy. destruct (valid_bounds d Hv) as (_ & Hy1 & Hm & Hd).
  destruct d as [y m dd]. unfold Calendar.next_day. simpl in *.
  destruct (Nat.ltb_spec dd (Calendar.days_in_month y m)).
  - eexists. split; [reflexivity|]. split; [apply valid_intro; lia|simpl; lia].
  - destruct (Nat.ltb_spec m 12).
    + pose proof (days_in_month_pos y (S m) ltac:(lia)).
      eexists. split; [reflexivity|].
      split; [apply valid_intro; lia|simpl; lia].
    + destruct (Z.ltb_spec (Z.of_nat y) 9999); [|lia].
      eexists. split; [reflexivity|].
      split; [apply valid_intro; simpl; lia|simpl; lia].
Qed.

(** Every travel date the date step accepts is the ISO text of an existing
    date, which [strptime] reads back. *)
Lemma read_date_is_iso (e : env) (date_input td : string) :
  clock_ok e ->
  read_date (today e) date_input = date_ok td ->
  exists d, td = Calendar.iso d /\ Calendar.valid d = true
            /\ Calendar.strptime_iso td = Some d.
Proof.
  intros [Hv Hy] H. unfold read_date in H.
  destruct (PyStr.contains "tomorrow" date_input).
  { destruct (next_day_valid _ Hv ltac:(lia)) as (d' & Hn & Hv' & Hy').
    rewrite Hn in H. injection H as <-. exists d'.
    repeat split; [assumption|]. apply strptime_reads_iso; [assumption|lia]. }
  destruct (PyStr.contains "today" date_input).
  { injection H as <-. exists (today e).
    repeat split; [assumption|]. apply strptime_reads_iso; [assumption|lia]. }
  destruct (find_month date_input) as [mo|]; [|discriminate].
  destruct (find_day date_input) as [[|dd]|]; try discriminate.
  destruct (Calendar.valid (Calendar.Date _ _ _)) eqn:Hd; [|discriminate].
  injection H as <-. eexists.
  repeat split; [exact Hd|]. apply strptime_reads_iso; [assumption|].
  cbn [Calendar.year]. lia.
Qed.

Lemma read_date_is_readable (e : env) (date_input td : string) :
  clock_ok e ->
  read_date (today e) date_input = date_ok td ->
  Calendar.strptime_iso td <> None.
Proof.
  intros Hk H. destruct (read_date_is_iso e _ _ Hk H) as (d & _ & _ & Hd).
  rewrite Hd. discriminate.
Qed.

(** With such a clock the day after today never overflows. *)
Lemma read_date_no_overflow (e : env) (date_input : string) :
  clock_ok e -> read_date (today e) date_input <> date_overflow.
Proof.
  intros [Hv Hy]. unfold read_date.
  destruct (PyStr.contains "tomorrow" date_input).
  { destruct (next_day_valid _ Hv ltac:(lia)) as (d' & -> & _). discriminate. }
  destruct (PyStr.contains "today" date_input); [discriminate|].
  destruct (find_month date_input) as [mo|]; [|discriminate].
  destruct (find_day date_input) as [[|dd]|]; try discriminate.
  destruct (Calendar.valid (Calendar.Date _ _ _)); discriminate.
Qed.

(* ------------------------------------------------------------------ *)
(** ** No turn raises *)

Ltac no_raise_leaf e :=
  repeat match goal with
         | H : Some _ = Some _ |- _ => injection H as H
         end;
  subst; fields; autorewrite with settled in *;
  cbn [booking_buffer_ready get_selected] in *;
  repeat match goal with
         | H : ?x = _, Hc : context [?x] |- _ => rewrite H in Hc
         end;
  cbn [booking_buffer_ready get_selected] in *;
  try solve [ reflexivity | tauto | intuition congruence
            | exfalso; eapply (read_date_is_readable e); eassumption
            | exfalso; eapply (read_date_no_overflow e); eassumption ].

Lemma consistent_turn_ends_normally e s :
  consistent s -> clock_ok e -> outcome e s = Ok tt.
Proof.
  intros Hc Hk. unfold consistent in Hc.
  destruct (current_operation s) as [[]|] eqn:Hop.
  - start_turn e s r E Hop. unfold process_booking in E. walk_in E.
    all: no_raise_leaf e.
  - start_turn e s r E Hop. unfold process_modification in E. walk_in E.
    all: no_raise_leaf e.
  - start_turn e s r E Hop. unfold process_cancellation in E. walk_in E.
    all: no_raise_leaf e.
  - start_turn e s r E Hop. unfold process_view in E. walk_in E.
    all: no_raise_leaf e.
  - start_turn e s r E Hop. unfold process_main_menu in E. walk_in E.
    all: no_raise_leaf e.
Qed.

(** From the initial session no turn of any dialog ends with an exception,
    as long as the clock of the turn shows an existing date of a year from
    1000 to 9998: the missing-key and missing-ticket failures of the
    controller sit behind states the dialog never reaches, every travel
    date it writes then has a year of four digits, which it can read back,
    and the day after today exists. *)
Theorem no_turn_raises :
  forall (es : list env) (e : env),
    clock_ok e ->
    outcome e (run es initial_session) = Ok tt.
Proof.
  intros es e Hk. apply consistent_turn_ends_normally; [|assumption].
  apply run_keeps_consistent. exact I.
Qed.

Lemma no_turn_raises_witness :
  outcome (hear "confirm")
          (run (map hear ["book a ticket"; "Jane Doe"; "29"; "female";
                          "Central"; "North"; "tomorrow"])
               initial_session)
  = Ok tt.
Proof.
  apply (no_turn_raises
           (map hear ["book a ticket"; "Jane Doe"; "29"; "female";
                      "Central"; "North"; "tomorrow"])
           (hear "confirm")).
  split; [reflexivity|simpl; lia].
Defined.

(* ------------------------------------------------------------------ *)
(** ** Ages and stations of the stored tickets *)

Lemma read_age_in_range u a : read_age u = age_ok a -> (1 <= a <= 120)%Z.
Proof.
  unfold read_age. destruct (PyStr.search_number u) as [ds|]; [|discriminate].
  destruct (PyStr.int_of_str ds) as [n|]; [|discriminate].
  destruct ((1 <=? _) && (_ <=? 120))%Z eqn:H; [|discriminate].
  intros [= <-]. apply andb_true_iff in H. destruct H as [H1 H2].
  split; apply Z.leb_le; assumption.
Qed.

Lemma match_station_refines input sts :
  match_station input sts = spec_resolve input sts.
Proof.
  unfold match_station, spec_resolve. rewrite best_station_loop.
  destruct (Nat.eqb_spec (spec_top_score input sts) 0) as [H0|H0].
  - rewrite H0. reflexivity.
  - destruct (Nat.leb_spec (spec_top_score input sts) 0) as [H|H]; [lia|].
    destruct (find _ _) as [st|] eqn:Hf; [|reflexivity].
    apply find_some in Hf. destruct Hf as [_ Hs].
    apply Nat.eqb_eq in Hs. destruct st; [|reflexivity].
    rewrite score_of_empty_station in Hs. lia.
Qed.

Lemma match_station_in_catalog input sts st :
  match_station input sts = Some st -> In st sts.
Proof.
  rewrite match_station_refines. unfold spec_resolve.
  destruct (spec_top_score input sts =? 0)%nat; [discriminate|].
  intros H. apply find_some in H. destruct H as [H _].
  apply filter_In in H. apply H.
Qed.

Lemma selected_is_valid cat sel ts t :
  Forall (valid_ticket cat) ts -> get_selected sel ts = Some t ->
  valid_ticket cat t.
Proof.
  intros Hts H. destruct sel as [tid|]; [|discriminate]. simpl in H.
  apply get_ticket_by_id_in in H. destruct H as [Hin _].
  apply (proj1 (Forall_forall _ _) Hts _ Hin).
Qed.

Ltac valid_leaf cat :=
  repeat match goal with
         | H : Some _ = Some _ |- _ => injection H as H
         end;
  subst; fields; autorewrite with settled in *;
  unfold valid_buffer in *; fields;
  repeat match goal with
         | H : ?x = _, Hc : context [?x] |- _ => rewrite H in Hc
         end;
  repeat match goal with
         | H : d_age _ = _ |- context [d_age _] => rewrite H
         | H : d_source _ = _ |- context [d_source _] => rewrite H
         | H : d_destination _ = _ |- context [d_destination _] => rewrite H
         end;
  repeat match goal with
         | H : _ /\ _ |- _ => destruct H
         end;
  try match goal with
      | Hs : get_selected _ _ = Some _, Hm : _ = (_, ?l) |- _ =>
          destruct (commit_of_selected _ _ _ _ _ Hs Hm) as [_ ->]
      end;
  repeat match goal with
         | H : tickets _ = _ |- _ => rewrite H
         | H : get_selected _ _ = Some ?t, Hts : Forall (valid_ticket ?c) _ |- _ =>
             let Hv := fresh "Hv" in
             pose proof (selected_is_valid c _ _ _ Hts H) as Hv;
             destruct Hv as (? & ? & ?); clear H
         end;
  repeat split;
  try solve [ assumption | exact I | lia
            | eapply read_age_in_range; eassumption
            | eapply match_station_in_catalog; eassumption ].

Lemma turn_keeps_valid_store cat e s :
  stations e = cat -> valid_store cat s -> valid_store cat (turn e s).
Proof.
  intros Hcat [Hts Hbuf]. unfold valid_store.
  destruct (current_operation s) as [[]|] eqn:Hop.
  - start_turn e s r E Hop. unfold process_booking in E. walk_in E.
    all: rewrite ?Hcat in *; valid_leaf cat.
    apply Forall_app. split; [assumption|].
    constructor; [|constructor]. repeat split; assumption.
  - start_turn e s r E Hop. unfold process_modification in E. walk_in E.
    all: rewrite ?Hcat in *; valid_leaf cat.
  - start_turn e s r E Hop. unfold process_cancellation in E. walk_in E.
    all: rewrite ?Hcat in *; valid_leaf cat.
    all: match goal with
         | Hp : match ?sel with Some _ => _ | None => _ end = _ |- _ =>
             destruct sel as [tid|]; [|first [discriminate|congruence]]
         end;
      match goal with
      | Hts : Forall _ (tickets _),
        Hp : ticket_operations.cancel_ticket ?tid _ = _ |- _ =>
          pose proof (cancel_ticket_keeps _ tid _ Hts) as Hk;
          rewrite Hp in Hk; exact Hk
      end.
  - start_turn e s r E Hop. unfold process_view in E. walk_in E.
    all: rewrite ?Hcat in *; valid_leaf cat.
  - start_turn e s r E Hop. unfold process_main_menu in E. walk_in E.
    all: rewrite ?Hcat in *; valid_leaf cat.
Qed.

(** With one station catalog throughout, every ticket in the store has an
    age from 1 to 120 and a source and a destination out of the catalog,
    after every turn of every dialog. *)
Theorem stored_tickets_are_valid :
  forall (cat : list string) (es : list env) (s : session),
    Forall (fun e => stations e = cat) es ->
    valid_store cat s ->
    Forall (valid_ticket cat) (tickets (run es s)).
Proof.
  intros cat es. induction es as [|e es IH]; intros s Hes Hs; simpl.
  - apply Hs.
  - inversion Hes as [|? ? He Hes']; subst.
    apply IH; [assumption|]. apply turn_keeps_valid_store; [reflexivity|assumption].
Qed.

Lemma stored_tickets_are_valid_witness :
  Forall (valid_ticket demo_catalog)
         (tickets (run (map hear ["book a ticket"; "Jane Doe"; "29"; "female";
                                  "Central"; "North"; "tomorrow"; "confirm"])
                       initial_session)).
Proof.
  apply (stored_tickets_are_valid demo_catalog
           (map hear ["book a ticket"; "Jane Doe"; "29"; "female";
                      "Central"; "North"; "tomorrow"; "confirm"])
           initial_session).
  - repeat constructor.
  - split; [constructor|repeat split].
Defined.

(* ------------------------------------------------------------------ *)
(** ** Booking: the commit *)

Lemma any2 k1 k2 c :
  PyStr.contains k1 c || PyStr.contains k2 c = PyStr.contains_any [k1; k2] c.
Proof. bools. rewrite orb_false_r. reflexivity. Qed.

Lemma find_after_append {A} (f : A -> bool) (l : list A) (x : A) :
  find f l = None -> find f (l ++ [x]) = if f x then Some x else None.
Proof.
  induction l as [|a l IH]; simpl; intros H; [reflexivity|].
  destruct (f a); [discriminate|]. apply IH, H.
Qed.

(** Confirming a complete booking appends one ticket that carries exactly
    the buffered fields, the generated id and the booking time, hands it to
    the next render, empties the buffer and returns to the main menu; if
    the generated id is new to the store, looking the id up finds that
    ticket. *)
Theorem booking_confirm_stores_the_buffer :
  forall (e : env) (s : session) (c nm : string) (ag : Z) (g : gender)
         (src dst : string),
    current_operation s = Some op_book ->
    booking_step s = Some book_confirm ->
    heard_command e = Some c ->
    PyStr.contains_any ["confirm"; "yes"] (PyStr.lower c) = true ->
    d_name (ticket_details s) = Some nm ->
    d_age (ticket_details s) = Some ag ->
    d_gender (ticket_details s) = Some g ->
    d_source (ticket_details s) = Some src ->
    d_destination (ticket_details s) = Some dst ->
    outcome e s = Ok tt
    /\ tickets (turn e s)
       = (tickets s ++ [Ticket (new_id e) nm ag g src dst
                               (d_travel_date (ticket_details s)) (stamp e)])%list
    /\ current_ticket (turn e s)
       = Some (Ticket (new_id e) nm ag g src dst
                      (d_travel_date (ticket_details s)) (stamp e))
    /\ current_operation (turn e s) = None
    /\ booking_step (turn e s) = None
    /\ ticket_details (turn e s) = no_details
    /\ (ticket_operations.get_ticket_by_id (new_id e) (tickets s) = None ->
        ticket_operations.get_ticket_by_id (new_id e) (tickets (turn e s))
        = Some (Ticket (new_id e) nm ag g src dst
                       (d_travel_date (ticket_details s)) (stamp e))).
Proof.
  intros e s c nm ag g src dst Hop Hst Hh Hc Hn Ha Hg Hs Hd.
  start_turn e s r E Hop. unfold process_booking in E.
  repeat (progress (run_in E; rewrite ?Hst, ?Hh in E)).
  cbv zeta in E. rewrite any2, Hc in E.
  repeat (progress (run_in E; rewrite ?Hn, ?Ha, ?Hg, ?Hs, ?Hd in E)).
  subst r; fields; autorewrite with settled. repeat split.
  intros Hnew. unfold ticket_operations.get_ticket_by_id in *.
  rewrite (find_after_append _ _ _ Hnew). simpl.
  rewrite String.eqb_refl. reflexivity.
Qed.

Lemma booking_confirm_stores_the_buffer_witness :
  outcome (hear "yes") before_confirm = Ok tt
  /\ tickets (turn (hear "yes") before_confirm)
     = (tickets before_confirm
        ++ [Ticket (new_id (hear "yes")) "Jane Doe" 29 Female "Central" "North"
                   (d_travel_date (ticket_details before_confirm))
                   (stamp (hear "yes"))])%list
  /\ current_ticket (turn (hear "yes") before_confirm)
     = Some (Ticket (new_id (hear "yes")) "Jane Doe" 29 Female "Central" "North"
                    (d_travel_date (ticket_details before_confirm))
                    (stamp (hear "yes")))
  /\ current_operation (turn (hear "yes") before_confirm) = None
  /\ booking_step (turn (hear "yes") before_confirm) = None
  /\ ticket_details (turn (hear "yes") before_confirm) = no_details
  /\ (ticket_operations.get_ticket_by_id (new_id (hear "yes"))
                                         (tickets before_confirm) = None ->
      ticket_operations.get_ticket_by_id
        (new_id (hear "yes")) (tickets (turn (hear "yes") before_confirm))
      = Some (Ticket (new_id (hear "yes")) "Jane Doe" 29 Female "Central"
                     "North" (d_travel_date (ticket_details before_confirm))
                     (stamp (hear "yes")))).
Proof.
  apply (booking_confirm_stores_the_buffer
           (hear "yes") before_confirm "yes" "Jane Doe" 29 Female
           "Central" "North"); reflexivity.
Defined.

(** Confirming a booking whose buffer lacks one of the five fields raises
    [KeyError] for the first missing one, before anything is said or
    stored. *)
Theorem booking_confirm_raises_on_missing_key :
  forall (e : env) (s : session) (c key : string),
    current_operation s = Some op_book ->
    booking_step s = Some book_confirm ->
    heard_command e = Some c ->
    PyStr.contains_any ["confirm"; "yes"] (PyStr.lower c) = true ->
    first_missing_key (ticket_details s) = Some key ->
    outcome e s = Raise (KeyError key)
    /\ notices e s = pending s
    /\ same_dialog_state s (turn e s).
Proof.
  intros e s c key Hop Hst Hh Hc Hk. unfold same_dialog_state.
  unfold first_missing_key in Hk.
  start_turn e s r E Hop. unfold process_booking in E.
  repeat (progress (run_in E; rewrite ?Hst, ?Hh in E)).
  cbv zeta in E. rewrite any2, Hc in E.
  run_in E.
  destruct (d_name (ticket_details s));
    [run_in E; destruct (d_age (ticket_details s));
     [run_in E; destruct (d_gender (ticket_details s));
      [run_in E; destruct (d_source (ticket_details s));
       [run_in E; destruct (d_destination (ticket_details s));
        [discriminate|]|]|]|]|];
    injection Hk as <-; run_in E; subst r; fields; autorewrite with settled;
    repeat split.
Qed.

Lemma booking_confirm_raises_on_missing_key_witness :
  outcome (hear "confirm") confirm_without_age = Raise (KeyError "age")
  /\ notices (hear "confirm") confirm_without_age = pending confirm_without_age
  /\ same_dialog_state confirm_without_age
                       (turn (hear "confirm") confirm_without_age).
Proof.
  apply (booking_confirm_raises_on_missing_key
           (hear "confirm") confirm_without_age "confirm" "age"); reflexivity.
Defined.

(* ------------------------------------------------------------------ *)
(** ** Cancellation: the confirmation *)

Lemma cancel_ticket_found tid ts t :
  ticket_operations.get_ticket_by_id tid ts = Some t ->
  fst (ticket_operations.cancel_ticket tid ts) = true
  /\ S (length (snd (ticket_operations.cancel_ticket tid ts))) = length ts.
Proof.
  unfold ticket_operations.get_ticket_by_id.
  induction ts as [|a ts IH]; simpl; intros H; [discriminate|].
  destruct (String.eqb (id a) tid).
  - split; reflexivity.
  - destruct (IH H) as [H1 H2].
    destruct (ticket_operations.cancel_ticket tid ts) as [b ts'].
    simpl in *. split; congruence.
Qed.

Lemma cancel_ticket_missing tid ts :
  ticket_operations.get_ticket_by_id tid ts = None ->
  ticket_operations.cancel_ticket tid ts = (false, ts).
Proof.
  unfold ticket_operations.get_ticket_by_id.
  induction ts as [|a ts IH]; simpl; intros H; [reflexivity|].
  destruct (String.eqb (id a) tid); [discriminate|].
  rewrite (IH H). reflexivity.
Qed.

(** At the confirmation of a cancellation, an utterance with confirm, yes
    or delete in it deletes the selected ticket, whatever else it says (so
    also when the user says not to delete it): the store loses exactly that
    ticket and the operation ends with the success notice.  When the
    selected id is no longer in the store, the store is unchanged and the
    operation ends with the error notice. *)
Theorem cancel_confirm_deletes_the_selected_ticket :
  forall (e : env) (s : session) (c tid : string),
    current_operation s = Some op_cancel ->
    cancel_step_of s = Some cancel_confirm ->
    heard_command e = Some c ->
    selected_ticket_id s = Some tid ->
    PyStr.contains_any ["confirm"; "yes"; "delete"] (PyStr.lower c) = true ->
    outcome e s = Ok tt
    /\ tickets (turn e s) = snd (ticket_operations.cancel_ticket tid (tickets s))
    /\ current_operation (turn e s) = None
    /\ cancel_step_of (turn e s) = Some cancel_select_ticket
    /\ selected_ticket_id (turn e s) = None
    /\ (ticket_operations.get_ticket_by_id tid (tickets s) <> None ->
        S (length (tickets (turn e s))) = length (tickets s)
        /\ notices e s
           = (pending s
              ++ ["Ticket cancelled successfully. Returning to main menu."])%list)
    /\ (ticket_operations.get_ticket_by_id tid (tickets s) = None ->
        tickets (turn e s) = tickets s
        /\ notices e s
           = (pending s ++ ["Error cancelling ticket. Please try again."])%list).
Proof.
  intros e s c tid Hop Hst Hh Hsel Hc.
  start_turn e s r E Hop. unfold process_cancellation in E.
  repeat (progress (run_in E; rewrite ?Hst, ?Hh, ?Hsel in E)).
  cbv zeta in E. rewrite any3, Hc in E.
  repeat (progress (run_in E; rewrite ?Hsel in E)).
  destruct (ticket_operations.get_ticket_by_id tid (tickets s)) as [t|] eqn:Hg.
  - destruct (cancel_ticket_found _ _ _ Hg) as [Hf Hl].
    destruct (ticket_operations.cancel_ticket tid (tickets s)) as [b ts'].
    simpl in Hf, Hl. subst b. run_in E.
    subst r; fields; autorewrite with settled.
    repeat split; try assumption; try reflexivity; congruence.
  - rewrite (cancel_ticket_missing _ _ Hg) in *. run_in E.
    subst r; fields; autorewrite with settled.
    repeat split; try reflexivity; congruence.
Qed.

Lemma cancel_confirm_deletes_the_selected_ticket_witness :
  outcome (hear "no, do not delete it") before_cancel = Ok tt
  /\ tickets (turn (hear "no, do not delete it") before_cancel)
     = snd (ticket_operations.cancel_ticket "AB12CD34" (tickets before_cancel))
  /\ current_operation (turn (hear "no, do not delete it") before_cancel) = None
  /\ cancel_step_of (turn (hear "no, do not delete it") before_cancel)
     = Some cancel_select_ticket
  /\ selected_ticket_id (turn (hear "no, do not delete it") before_cancel) = None
  /\ (ticket_operations.get_ticket_by_id "AB12CD34" (tickets before_cancel) <> None ->
      S (length (tickets (turn (hear "no, do not delete it") before_cancel)))
      = length (tickets before_cancel)
      /\ notices (hear "no, do not delete it") before_cancel
         = (pending before_cancel
            ++ ["Ticket cancelled successfully. Returning to main menu."])%list)
  /\ (ticket_operations.get_ticket_by_id "AB12CD34" (tickets before_cancel) = None ->
      tickets (turn (hear "no, do not delete it") before_cancel)
      = tickets before_cancel
      /\ notices (hear "no, do not delete it") before_cancel
         = (pending before_cancel
            ++ ["Error cancelling ticket. Please try again."])%list).
Proof.
  apply (cancel_confirm_deletes_the_selected_ticket
           (hear "no, do not delete it") before_cancel "no, do not delete it"
           "AB12CD34"); reflexivity.
Defined.

(* ------------------------------------------------------------------ *)
(** ** Viewing: the two lookups by id *)

(** A lookup from [ask_id] that finds the ticket announces it and ends the
    operation; it records neither the last viewed id nor an id to
    download. *)
Theorem ask_id_lookup_returns_to_the_menu :
  forall (e : env) (s : session) (c tid : string) (t : ticket),
    current_operation s = Some op_view ->
    view_step_of s = Some (Some view_ask_id) ->
    heard_command e = Some c ->
    PyStr.search_ticket_id (PyStr.upper c) = Some tid ->
    ticket_operations.get_ticket_by_id tid (tickets s) = Some t ->
    outcome e s = Ok tt
    /\ notices e s
       = (pending s
          ++ [found_ticket_info t;
              "You can download your ticket as a PDF file using the download link on the screen."])%list
    /\ current_operation (turn e s) = None
    /\ view_step_of (turn e s) = Some None
    /\ last_viewed_ticket_id (turn e s) = last_viewed_ticket_id s
    /\ ticket_id_to_download (turn e s) = ticket_id_to_download s
    /\ tickets (turn e s) = tickets s.
Proof.
  intros e s c tid t Hop Hst Hh Hid Hg.
  start_turn e s r E Hop. unfold process_view in E.
  repeat (progress (run_in E; rewrite ?Hst, ?Hh, ?Hid, ?Hg in E)).
  subst r; fields; autorewrite with settled; rewrite <- ?app_assoc.
  repeat split.
Qed.

Lemma ask_id_lookup_returns_to_the_menu_witness :
  outcome (hear "ab12cd34") asked_for_id = Ok tt
  /\ notices (hear "ab12cd34") asked_for_id
     = (pending asked_for_id
        ++ [found_ticket_info demo_ticket;
            "You can download your ticket as a PDF file using the download link on the screen."])%list
  /\ current_operation (turn (hear "ab12cd34") asked_for_id) = None
  /\ view_step_of (turn (hear "ab12cd34") asked_for_id) = Some None
  /\ last_viewed_ticket_id (turn (hear "ab12cd34") asked_for_id)
     = last_viewed_ticket_id asked_for_id
  /\ ticket_id_to_download (turn (hear "ab12cd34") asked_for_id)
     = ticket_id_to_download asked_for_id
  /\ tickets (turn (hear "ab12cd34") asked_for_id) = tickets asked_for_id.
Proof.
  apply (ask_id_lookup_returns_to_the_menu
           (hear "ab12cd34") asked_for_id "ab12cd34" "AB12CD34" demo_ticket);
    reflexivity.
Defined.

(** A lookup from [display_options] (any utterance without the word
    download that holds an id token) that finds the ticket announces it,
    records its id as last viewed and as the id to download, and moves to
    [view_options]. *)
Theorem display_options_lookup_records_the_ticket :
  forall (e : env) (s : session) (c tid : string) (t : ticket),
    current_operation s = Some op_view ->
    view_step_of s = Some (Some view_display_options) ->
    heard_command e = Some c ->
    PyStr.contains "download" (PyStr.lower c) = false ->
    PyStr.search_ticket_id (PyStr.upper (PyStr.lower c)) = Some tid ->
    ticket_operations.get_ticket_by_id tid (tickets s) = Some t ->
    outcome e s = Ok tt
    /\ notices e s
       = (pending s
          ++ [found_ticket_info t;
              "You can download your ticket as a PDF file using the download link on the screen. Say 'download ticket' to get your ticket."])%list
    /\ current_operation (turn e s) = Some op_view
    /\ view_step_of (turn e s) = Some (Some view_options)
    /\ last_viewed_ticket_id (turn e s) = Some (id t)
    /\ ticket_id_to_download (turn e s) = Some (id t)
    /\ id t = tid
    /\ tickets (turn e s) = tickets s.
Proof.
  intros e s c tid t Hop Hst Hh Hd Hid Hg.
  start_turn e s r E Hop. unfold process_view in E.
  repeat (progress (run_in E; rewrite ?Hst, ?Hh in E)).
  cbv zeta in E. rewrite Hd, Hid in E.
  destruct (PyStr.contains "view" (PyStr.lower c)
            && PyStr.contains "ticket" (PyStr.lower c)
            || PyStr.contains "ticket id" (PyStr.lower c));
    repeat (progress (run_in E; rewrite ?Hg in E));
    subst r; fields; autorewrite with settled; rewrite <- ?app_assoc;
    repeat split; apply (get_ticket_by_id_in _ _ _ Hg).
Qed.

Lemma display_options_lookup_records_the_ticket_witness :
  outcome (hear "ab12cd34") asked_for_view = Ok tt
  /\ notices (hear "ab12cd34") asked_for_view
     = (pending asked_for_view
        ++ [found_ticket_info demo_ticket;
            "You can download your ticket as a PDF file using the download link on the screen. Say 'download ticket' to get your ticket."])%list
  /\ current_operation (turn (hear "ab12cd34") asked_for_view) = Some op_view
  /\ view_step_of (turn (hear "ab12cd34") asked_for_view)
     = Some (Some view_options)
  /\ last_viewed_ticket_id (turn (hear "ab12cd34") asked_for_view)
     = Some (id demo_ticket)
  /\ ticket_id_to_download (turn (hear "ab12cd34") asked_for_view)
     = Some (id demo_ticket)
  /\ id demo_ticket = "AB12CD34"
  /\ tickets (turn (hear "ab12cd34") asked_for_view) = tickets asked_for_view.
Proof.
  apply (display_options_lookup_records_the_ticket
           (hear "ab12cd34") asked_for_view "ab12cd34" "AB12CD34" demo_ticket);
    reflexivity.
Defined.

(* ------------------------------------------------------------------ *)
(** ** The speech engine never shows in the dialog *)

Lemma hush_heard_command e : heard_command (hush e) = heard_command e.
Proof. reflexivity. Qed.

Ltac hush_in E :=
  rewrite ?hush_heard_command in E;
  cbn [hush stations today stamp new_id] in E.

(** Run the same program under two environments side by side. *)
Ltac walk2_in E1 E2 :=
  repeat (run_in E1; run_in E2; hush_in E2; try branch_in E1).

Lemma hush_changes_nothing e s :
  turn (hush e) s = turn e s
  /\ notices (hush e) s = notices e s
  /\ outcome (hush e) s = outcome e s
  /\ listened (hush e) s = listened e s.
Proof.
  unfold turn, notices, outcome, listened.
  remember (main e (start s)) as r1 eqn:E1.
  remember (main (hush e) (start s)) as r2 eqn:E2.
  rewrite main_runs in E1, E2. unfold dispatch in E1, E2.
  destruct (current_operation s) as [[]|] eqn:Hop.
  - unfold process_booking in E1, E2. walk2_in E1 E2.
    all: subst r1 r2; fields; repeat split.
  - unfold process_modification in E1, E2. walk2_in E1 E2.
    all: subst r1 r2; fields; repeat split.
  - unfold process_cancellation in E1, E2. walk2_in E1 E2.
    all: subst r1 r2; fields; repeat split.
  - unfold process_view in E1, E2. walk2_in E1 E2.
    all: subst r1 r2; fields; repeat split.
  - unfold process_main_menu in E1, E2. walk2_in E1 E2.
    all: subst r1 r2; fields; repeat split.
Qed.

(** A whole turn is blind to the speech engine: two turns that differ only
    in what the engine does (works, fails on some texts, fails always) end
    in the same session state, with the same notices on the screen and the
    same outcome. *)
Theorem turn_is_blind_to_the_speech_engine :
  forall (e e' : env) (s : session),
    heard e' = heard e ->
    stations e' = stations e ->
    today e' = today e ->
    stamp e' = stamp e ->
    new_id e' = new_id e ->
    turn e' s = turn e s
    /\ notices e' s = notices e s
    /\ outcome e' s = outcome e s.
Proof.
  intros e e' s H1 H2 H3 H4 H5.
  assert (Hh : hush e' = hush e).
  { unfold hush. rewrite H1, H2, H3, H4, H5. reflexivity. }
  destruct (hush_changes_nothing e s) as (A1 & A2 & A3 & _).
  destruct (hush_changes_nothing e' s) as (B1 & B2 & B3 & _).
  rewrite Hh in B1, B2, B3.
  repeat split; congruence.
Qed.

Lemma turn_is_blind_to_the_speech_engine_witness :
  turn (hear_mute "yes") before_confirm = turn (hear "yes") before_confirm
  /\ notices (hear_mute "yes") before_confirm
     = notices (hear "yes") before_confirm
  /\ outcome (hear_mute "yes") before_confirm
     = outcome (hear "yes") before_confirm.
Proof.
  apply (turn_is_blind_to_the_speech_engine
           (hear "yes") (hear_mute "yes") before_confirm); reflexivity.
Defined.

(* ------------------------------------------------------------------ *)
(** ** Picking the ticket in Modify and Cancel *)

(** A name that matches several tickets selects none of them: the step is
    held, nothing is selected, and the turn lists the candidates by id. *)
Theorem ambiguous_name_selects_nothing :
  forall (e : env) (s : session) (c : string) (t1 t2 : ticket)
         (more : list ticket),
    at_select_ticket s ->
    heard_command e = Some c ->
    PyStr.search_ticket_id (PyStr.upper c) = None ->
    ticket_operations.get_tickets_by_name c (tickets s) = t1 :: t2 :: more ->
    outcome e s = Ok tt
    /\ same_dialog_state s (turn e s)
    /\ notices e s
       = (pending s
          ++ ("Found " ++ PyStr.str_of_nat (length (t1 :: t2 :: more))
              ++ " tickets for '" ++ c
              ++ "'. Please choose one by saying the ticket ID:")%string
          :: map match_ticket_info (t1 :: t2 :: more))%list.
Proof.
  intros e s c t1 t2 more Hs Hh Hid Hn. unfold same_dialog_state.
  destruct Hs as [[Hop Hst]|[Hop Hst]];
    start_turn e s r E Hop;
    [unfold process_modification in E|unfold process_cancellation in E];
    repeat (progress (run_in E; rewrite ?Hst, ?Hh, ?Hid, ?Hn in E));
    subst r; fields; autorewrite with settled; rewrite <- ?app_assoc;
    repeat split; assumption.
Qed.

Lemma ambiguous_name_selects_nothing_witness :
  outcome (hear "jonath") two_jonathans = Ok tt
  /\ same_dialog_state two_jonathans (turn (hear "jonath") two_jonathans)
  /\ notices (hear "jonath") two_jonathans
     = (pending two_jonathans
        ++ ("Found " ++ PyStr.str_of_nat (length (tickets two_jonathans))
            ++ " tickets for '" ++ "jonath"
            ++ "'. Please choose one by saying the ticket ID:")%string
        :: map match_ticket_info (tickets two_jonathans))%list.
Proof.
  apply (ambiguous_name_selects_nothing
           (hear "jonath") two_jonathans "jonath"
           (Ticket "AB12CD34" "Jonathan Doe" 30 Male "Central" "North" None
                   demo_stamp)
           (Ticket "EF56GH78" "Jonathan Roe" 41 Male "North" "Central" None
                   demo_stamp) []);
    try reflexivity.
  left. split; reflexivity.
Defined.

(** An id token in the utterance is looked up and the name search is not
    tried: when the id is in the store, that ticket is selected and the
    dialog moves on; when it is not, nothing is selected and the step is
    held, also when the utterance is the name of a passenger (any word of
    eight letters or digits counts as an id). *)
Theorem id_token_comes_before_the_name :
  forall (e : env) (s : session) (c tid : string),
    at_select_ticket s ->
    heard_command e = Some c ->
    PyStr.search_ticket_id (PyStr.upper c) = Some tid ->
    outcome e s = Ok tt
    /\ tickets (turn e s) = tickets s
    /\ (ticket_operations.get_ticket_by_id tid (tickets s) <> None ->
        selected_ticket_id (turn e s) = Some tid
        /\ past_select_ticket s (turn e s))
    /\ (ticket_operations.get_ticket_by_id tid (tickets s) = None ->
        same_dialog_state s (turn e s)
        /\ notices e s
           = (pending s
              ++ [("No ticket found with ID " ++ tid
                   ++ ". Please try again.")%string])%list).
Proof.
  intros e s c tid Hs Hh Hid. unfold same_dialog_state, past_select_ticket.
  destruct Hs as [[Hop Hst]|[Hop Hst]]; rewrite Hop;
    start_turn e s r E Hop;
    [unfold process_modification in E|unfold process_cancellation in E];
    repeat (progress (run_in E; rewrite ?Hst, ?Hh, ?Hid in E));
    destruct (ticket_operations.get_ticket_by_id tid (tickets s));
    run_in E; subst r; fields; autorewrite with settled;
    repeat split; try assumption; try reflexivity; congruence.
Qed.

Lemma id_token_comes_before_the_name_witness :
  outcome (hear "Jonathan") two_jonathans = Ok tt
  /\ tickets (turn (hear "Jonathan") two_jonathans) = tickets two_jonathans
  /\ (ticket_operations.get_ticket_by_id "JONATHAN" (tickets two_jonathans) <> None ->
      selected_ticket_id (turn (hear "Jonathan") two_jonathans) = Some "JONATHAN"
      /\ past_select_ticket two_jonathans (turn (hear "Jonathan") two_jonathans))
  /\ (ticket_operations.get_ticket_by_id "JONATHAN" (tickets two_jonathans) = None ->
      same_dialog_state two_jonathans (turn (hear "Jonathan") two_jonathans)
      /\ notices (hear "Jonathan") two_jonathans
         = (pending two_jonathans
            ++ [("No ticket found with ID " ++ "JONATHAN"
                 ++ ". Please try again.")%string])%list).
Proof.
  apply (id_token_comes_before_the_name
           (hear "Jonathan") two_jonathans "Jonathan" "JONATHAN");
    try reflexivity.
  left. split; reflexivity.
Defined.

(* ------------------------------------------------------------------ *)
(** ** The gender steps *)

Lemma starts_with_split p s :
  PyStr.starts_with p s = true -> exists r, s = p ++ r.
Proof.
  revert s. induction p as [|a p IH]; intros s H.
  - exists s. reflexivity.
  - destruct s as [|b s]; [discriminate|]. simpl in H.
    apply andb_true_iff in H. destruct H as [Hab Hp].
    apply Ascii.eqb_eq in Hab. subst b.
    destruct (IH s Hp) as [r ->]. exists r. reflexivity.
Qed.

Lemma female_holds_male s :
  PyStr.contains "female" s = true -> PyStr.contains "male" s = true.
Proof.
  induction s as [|c s IH]; [discriminate|].
  intros H. cbn [PyStr.contains] in H. apply orb_true_iff in H.
  destruct H as [H|H].
  - apply starts_with_split in H. destruct H as [r Hr]. rewrite Hr.
    simpl. destruct r; reflexivity.
  - cbn [PyStr.contains]. rewrite (IH H). apply orb_true_r.
Qed.

(** The gender steps of Book and Modify never reject: whatever is heard, a
    gender is stored and the dialog moves on.  It is Female exactly when
    the lowercased utterance contains female, Male when it contains male
    but not female, and Other exactly when it does not contain male. *)
Theorem gender_steps_never_reject :
  forall (e : env) (s : session) (c : string),
    at_gender_step s ->
    heard_command e = Some c ->
    outcome e s = Ok tt
    /\ d_gender (ticket_details (turn e s)) = Some (read_gender (PyStr.lower c))
    /\ past_gender_step s (turn e s)
    /\ tickets (turn e s) = tickets s
    /\ (read_gender (PyStr.lower c) = Female
        <-> PyStr.contains "female" (PyStr.lower c) = true)
    /\ (read_gender (PyStr.lower c) = Other
        <-> PyStr.contains "male" (PyStr.lower c) = false).
Proof.
  intros e s c Hs Hh.
  assert (Hturn : outcome e s = Ok tt
                  /\ d_gender (ticket_details (turn e s))
                     = Some (read_gender (PyStr.lower c))
                  /\ past_gender_step s (turn e s)
                  /\ tickets (turn e s) = tickets s).
  { unfold past_gender_step.
    destruct Hs as [[Hop Hst]|[Hop Hst]]; rewrite Hop;
      start_turn e s r E Hop;
      [unfold process_booking in E|unfold process_modification in E];
      repeat (progress (run_in E; rewrite ?Hst, ?Hh in E));
      cbv zeta in E; run_in E;
      subst r; fields; autorewrite with settled; repeat split; assumption. }
  destruct Hturn as (H1 & H2 & H3 & H4).
  split; [exact H1|]. split; [exact H2|]. split; [exact H3|].
  split; [exact H4|]. unfold read_gender.
  pose proof (female_holds_male (PyStr.lower c)) as Hfm.
  destruct (PyStr.contains "female" (PyStr.lower c));
    destruct (PyStr.contains "male" (PyStr.lower c)); simpl;
    try (specialize (Hfm eq_refl); discriminate);
    split; split; intros; congruence.
Qed.

Lemma gender_steps_never_reject_witness :
  outcome (hear "I am a woman")
          (run (map hear ["book"; "Jane Doe"; "29"]) one_ticket) = Ok tt
  /\ d_gender (ticket_details
                 (turn (hear "I am a woman")
                       (run (map hear ["book"; "Jane Doe"; "29"]) one_ticket)))
     = Some (read_gender (PyStr.lower "I am a woman"))
  /\ past_gender_step (run (map hear ["book"; "Jane Doe"; "29"]) one_ticket)
                      (turn (hear "I am a woman")
                            (run (map hear ["book"; "Jane Doe"; "29"]) one_ticket))
  /\ tickets (turn (hear "I am a woman")
                   (run (map hear ["book"; "Jane Doe"; "29"]) one_ticket))
     = tickets (run (map hear ["book"; "Jane Doe"; "29"]) one_ticket)
  /\ (read_gender (PyStr.lower "I am a woman") = Female
      <-> PyStr.contains "female" (PyStr.lower "I am a woman") = true)
  /\ (read_gender (PyStr.lower "I am a woman") = Other
      <-> PyStr.contains "male" (PyStr.lower "I am a woman") = false).
Proof.
  apply (gender_steps_never_reject
           (hear "I am a woman")
           (run (map hear ["book"; "Jane Doe"; "29"]) one_ticket)
           "I am a woman"); [|reflexivity].
  left. split; reflexivity.
Defined.

(* ------------------------------------------------------------------ *)
(** ** What the resolver returns *)

Lemma list_max_attained (l : list nat) :
  (0 < list_max l)%nat -> In (list_max l) l.
Proof.
  induction l as [|a l IH]; simpl; intros H; [lia|].
  destruct (Nat.max_spec a (list_max l)) as [[Hlt ->]|[Hle ->]].
  - right. apply IH. lia.
  - left. reflexivity.
Qed.

Lemma top_score_bounds input sts st :
  In st sts -> station_candidate input st = true ->
  (station_score input st <= spec_top_score input sts)%nat.
Proof.
  intros Hin Hc. unfold spec_top_score.
  assert (H : Forall (fun k => (k <= list_max (map (station_score input)
                                                  (spec_candidates input sts)))%nat)
                     (map (station_score input) (spec_candidates input sts)))
    by (apply list_max_le; lia).
  apply (proj1 (Forall_forall _ _) H). apply in_map.
  apply filter_In. split; assumption.
Qed.

(** A station the resolver returns is an entry of the catalog, a candidate
    with a positive score, and no candidate of the catalog scores more.
    The resolver returns nothing exactly when every candidate of the
    catalog scores zero. *)
Theorem match_station_finds_a_best_candidate :
  forall (input : string) (sts : list string),
    (forall st, match_station input sts = Some st ->
                In st sts
                /\ station_candidate input st = true
                /\ (0 < station_score input st)%nat
                /\ forall st', In st' sts ->
                               station_candidate input st' = true ->
                               (station_score input st'
                                <= station_score input st)%nat)
    /\ (match_station input sts = None
        <-> forall st, In st sts -> station_candidate input st = true ->
                       station_score input st = 0%nat).
Proof.
  intros input sts. rewrite match_station_refines. unfold spec_resolve.
  destruct (Nat.eqb_spec (spec_top_score input sts) 0) as [H0|H0].
  - split; [intros st H; discriminate|].
    split; [|reflexivity]. intros _ st Hin Hc.
    pose proof (top_score_bounds input sts st Hin Hc). lia.
  - split.
    + intros st H. apply find_some in H. destruct H as [Hin Hs].
      apply Nat.eqb_eq in Hs. apply filter_In in Hin. destruct Hin as [Hin Hc].
      repeat split; try assumption; [lia|].
      intros st' Hin' Hc'. rewrite Hs. apply top_score_bounds; assumption.
    + split.
      * intros Hnone. exfalso.
        assert (Hmax : In (spec_top_score input sts)
                          (map (station_score input) (spec_candidates input sts)))
          by (apply list_max_attained; unfold spec_top_score in H0; lia).
        apply in_map_iff in Hmax. destruct Hmax as (st & Hs & Hin).
        pose proof (find_none _ _ Hnone st Hin) as Hf. simpl in Hf.
        rewrite Hs, Nat.eqb_refl in Hf. discriminate.
      * intros Hall. exfalso. apply H0.
        assert (Hle : (spec_top_score input sts <= 0)%nat); [|lia].
        unfold spec_top_score. apply list_max_le.
        apply Forall_forall. intros k Hk. apply in_map_iff in Hk.
        destruct Hk as (st & <- & Hin). apply filter_In in Hin.
        rewrite (Hall st (proj1 Hin) (proj2 Hin)). lia.
Qed.

Lemma match_station_finds_a_best_candidate_witness :
  (forall st, match_station "centr" ["Central"; "Eastside"] = Some st ->
              In st ["Central"; "Eastside"]
              /\ station_candidate "centr" st = true
              /\ (0 < station_score "centr" st)%nat
              /\ forall st', In st' ["Central"; "Eastside"] ->
                             station_candidate "centr" st' = true ->
                             (station_score "centr" st'
                              <= station_score "centr" st)%nat)
  /\ (match_station "centr" ["Central"; "Eastside"] = None
      <-> forall st, In st ["Central"; "Eastside"] ->
                     station_candidate "centr" st = true ->
                     station_score "centr" st = 0%nat).
Proof.
  exact (match_station_finds_a_best_candidate "centr" ["Central"; "Eastside"]).
Defined.

(* ------------------------------------------------------------------ *)
(** ** Downloading from [view_options] *)

(** The ticket a download command means: an id token in the utterance
    before the last viewed ticket.  When that ticket is in the store, the
    turn says nothing and hands over to the [download_ticket] step, whose
    turn does not listen: it announces the ticket, forgets the id to
    download and ends the operation. *)
Theorem download_announces_the_ticket_on_the_next_turn :
  forall (e e' : env) (s : session) (c tid : string) (t : ticket),
    current_operation s = Some op_view ->
    view_step_of s = Some (Some view_options) ->
    heard_command e = Some c ->
    PyStr.contains "download" (PyStr.lower c) = true ->
    match PyStr.search_ticket_id (PyStr.upper (PyStr.lower c)) with
    | Some token => Some token
    | None => last_viewed_ticket_id s
    end = Some tid ->
    ticket_operations.get_ticket_by_id tid (tickets s) = Some t ->
    notices e s = pending s
    /\ view_step_of (turn e s) = Some (Some view_download_ticket)
    /\ ticket_id_to_download (turn e s) = Some tid
    /\ listened e' (turn e s) = false
    /\ outcome e' (turn e s) = Ok tt
    /\ notices e' (turn e s)
       = [("Your ticket for " ++ name t ++ " traveling from " ++ source t
           ++ " to " ++ destination t
           ++ " is ready for download. Click the Download Ticket PDF button on your screen. It's a large blue button near the middle of the screen.")%string]
    /\ current_operation (turn e' (turn e s)) = None
    /\ view_step_of (turn e' (turn e s)) = Some None
    /\ ticket_id_to_download (turn e' (turn e s)) = None
    /\ tickets (turn e' (turn e s)) = tickets s.
Proof.
  intros e e' s c tid t Hop Hst Hh Hd Htarget Hg.
  assert (H1 : notices e s = pending s
               /\ turn e s
                  = set_view_step (Some (Some view_download_ticket))
                      (set_ticket_id_to_download (Some tid) (settled s))).
  { start_turn e s r E Hop. unfold process_view in E.
    repeat (progress (run_in E; rewrite ?Hst, ?Hh in E)).
    cbv zeta in E. rewrite Hd in E.
    destruct (PyStr.search_ticket_id (PyStr.upper (PyStr.lower c))) as [token|];
      [injection Htarget as ->|rewrite Htarget in E];
      repeat (progress (run_in E; rewrite ?Hg in E));
      subst r; fields; split; reflexivity. }
  destruct H1 as [H1 H2]. rewrite H2.
  assert (Hop' : current_operation
                   (set_view_step (Some (Some view_download_ticket))
                      (set_ticket_id_to_download (Some tid) (settled s)))
                 = Some op_view)
    by (fields; autorewrite with settled; assumption).
  split; [assumption|]. split; [reflexivity|]. split; [reflexivity|].
  start_turn e' (set_view_step (Some (Some view_download_ticket))
                   (set_ticket_id_to_download (Some tid) (settled s))) r E Hop'.
  unfold process_view in E.
  repeat (progress (run_in E; fields in E; rewrite ?Hg in E)).
  subst r. fields. unfold pending, settled.
  destruct (show_success s) eqn:Hss; destruct (current_ticket s) eqn:Hct;
    fields; rewrite ?Hss, ?Hct; fields; rewrite ?Hss; repeat split.
Qed.

Lemma download_announces_the_ticket_on_the_next_turn_witness :
  notices (hear "downloading it") after_lookup = pending after_lookup
  /\ view_step_of (turn (hear "downloading it") after_lookup)
     = Some (Some view_download_ticket)
  /\ ticket_id_to_download (turn (hear "downloading it") after_lookup)
     = Some "AB12CD34"
  /\ listened silence (turn (hear "downloading it") after_lookup) = false
  /\ outcome silence (turn (hear "downloading it") after_lookup) = Ok tt
  /\ notices silence (turn (hear "downloading it") after_lookup)
     = [("Your ticket for " ++ name demo_ticket ++ " traveling from "
         ++ source demo_ticket ++ " to " ++ destination demo_ticket
         ++ " is ready for download. Click the Download Ticket PDF button on your screen. It's a large blue button near the middle of the screen.")%string]
  /\ current_operation (turn silence (turn (hear "downloading it") after_lookup)) = None
  /\ view_step_of (turn silence (turn (hear "downloading it") after_lookup)) = Some None
  /\ ticket_id_to_download (turn silence (turn (hear "downloading it") after_lookup)) = None
  /\ tickets (turn silence (turn (hear "downloading it") after_lookup))
     = tickets after_lookup.
Proof.
  apply (download_announces_the_ticket_on_the_next_turn
           (hear "downloading it") silence after_lookup "downloading it" "AB12CD34"
           demo_ticket); reflexivity.
Defined.

Lemma re_search_word_at cls lo hi prev_word c s' run rest :
  PyStr.span cls (String c s') = (run, rest) ->
  negb prev_word && cls c && PyStr.within lo hi (String.length run)
  && negb (PyStr.next_is_word rest) = true ->
  PyStr.re_search_word cls lo hi prev_word (String c s') = Some run.
Proof.
  intros Hs Hc. cbn [PyStr.re_search_word]. rewrite Hs, Hc. reflexivity.
Qed.

(** The word download is itself eight letters long, so where it stands as
    a word of its own the id pattern takes it for a ticket id. *)
Lemma download_word_is_an_id_token (rest : string) :
  match rest with
  | EmptyString => True
  | String ch _ => PyStr.is_word ch = false
  end ->
  PyStr.search_ticket_id (PyStr.upper ("download" ++ rest)) = Some "DOWNLOAD".
Proof.
  destruct rest as [|ch r]; intros H; [reflexivity|].
  pose proof H as Hw. unfold PyStr.is_word in H.
  apply orb_false_elim in H. destruct H as [H H4].
  apply orb_false_elim in H. destruct H as [H H3].
  apply orb_false_elim in H. destruct H as [H1 H2].
  unfold PyStr.search_ticket_id.
  change (PyStr.upper ("download" ++ String ch r))
    with ("DOWNLOAD" ++ String (PyStr.upper_char ch) (PyStr.upper r)).
  unfold PyStr.upper_char. rewrite H3.
  apply re_search_word_at with (rest := String ch (PyStr.upper r)).
  - cbn [PyStr.span append].
    change (PyStr.is_id_char "D") with true.
    change (PyStr.is_id_char "O") with true.
    change (PyStr.is_id_char "W") with true.
    change (PyStr.is_id_char "N") with true.
    change (PyStr.is_id_char "L") with true.
    change (PyStr.is_id_char "A") with true.
    cbv iota. unfold PyStr.is_id_char. rewrite H1, H2. reflexivity.
  - cbn [PyStr.next_is_word]. rewrite Hw. reflexivity.
Qed.

(** In [view_options] the command download, said as the prompt asks for it
    (the word download first, alone or followed by other words, in any
    letter case), does not download the last viewed ticket: the word is
    read as the ticket id DOWNLOAD, no such ticket is found, and the step
    falls back to [display_options]. *)
Theorem spoken_download_is_read_as_a_ticket_id :
  forall (e : env) (s : session) (c rest : string),
    current_operation s = Some op_view ->
    view_step_of s = Some (Some view_options) ->
    heard_command e = Some c ->
    PyStr.lower c = "download" ++ rest ->
    match rest with
    | EmptyString => True
    | String ch _ => PyStr.is_word ch = false
    end ->
    ticket_operations.get_ticket_by_id "DOWNLOAD" (tickets s) = None ->
    outcome e s = Ok tt
    /\ notices e s
       = (pending s
          ++ ["Sorry, I couldn't find ticket with ID DOWNLOAD. Please try again."])%list
    /\ current_operation (turn e s) = Some op_view
    /\ view_step_of (turn e s) = Some (Some view_display_options)
    /\ ticket_id_to_download (turn e s) = None
    /\ last_viewed_ticket_id (turn e s) = last_viewed_ticket_id s
    /\ tickets (turn e s) = tickets s.
Proof.
  intros e s c rest Hop Hst Hh Hlow Hrest Hg.
  assert (Hd : PyStr.contains "download" (PyStr.lower c) = true)
    by (rewrite Hlow; reflexivity).
  assert (Hid : PyStr.search_ticket_id (PyStr.upper (PyStr.lower c))
                = Some "DOWNLOAD")
    by (rewrite Hlow; apply download_word_is_an_id_token, Hrest).
  start_turn e s r E Hop. unfold process_view in E.
  repeat (progress (run_in E; rewrite ?Hst, ?Hh in E)).
  cbv zeta in E. rewrite Hd, Hid in E.
  repeat (progress (run_in E; fields in E; rewrite ?Hg in E)).
  subst r; fields; autorewrite with settled. repeat split; assumption.
Qed.

Lemma spoken_download_is_read_as_a_ticket_id_witness :
  outcome (hear "Download ticket") after_lookup = Ok tt
  /\ notices (hear "Download ticket") after_lookup
     = (pending after_lookup
        ++ ["Sorry, I couldn't find ticket with ID DOWNLOAD. Please try again."])%list
  /\ current_operation (turn (hear "Download ticket") after_lookup) = Some op_view
  /\ view_step_of (turn (hear "Download ticket") after_lookup)
     = Some (Some view_display_options)
  /\ ticket_id_to_download (turn (hear "Download ticket") after_lookup) = None
  /\ last_viewed_ticket_id (turn (hear "Download ticket") after_lookup)
     = last_viewed_ticket_id after_lookup
  /\ tickets (turn (hear "Download ticket") after_lookup) = tickets after_lookup.
Proof.
  apply (spoken_download_is_read_as_a_ticket_id
           (hear "Download ticket") after_lookup "Download ticket" " ticket");
    reflexivity.
Defined.

(* ------------------------------------------------------------------ *)
(** ** Where the store can change *)

Ltac frame_leaf :=
  repeat match goal with
         | H : Some _ = Some _ |- _ => injection H as H
         end;
  try match goal with
      | Hs : get_selected _ _ = Some _, Hm : _ = (_, ?l) |- _ =>
          destruct (commit_of_selected _ _ _ _ _ Hs Hm) as [_ ->]
      end;
  subst; fields; autorewrite with settled;
  try solve [ reflexivity | congruence
            | match goal with H : tickets _ = _ |- _ => rewrite H; reflexivity end ].

(** Only two turns can change the store: the confirmation of a booking and
    the confirmation of a cancellation.  Every other turn (the main menu,
    every other step of Book and Cancel, all of Modify, its commit
    included, and all of View) leaves the list of tickets as it was. *)
Theorem store_changes_only_at_two_confirmations :
  forall (e : env) (s : session),
    (current_operation s = Some op_book -> booking_step s <> Some book_confirm) ->
    (current_operation s = Some op_cancel ->
     cancel_step_of s <> Some cancel_confirm) ->
    tickets (turn e s) = tickets s.
Proof.
  intros e s Hb Hc.
  destruct (current_operation s) as [[]|] eqn:Hop.
  - specialize (Hb eq_refl). clear Hc.
    start_turn e s r E Hop. unfold process_booking in E. walk_in E.
    all: frame_leaf.
  - clear Hb Hc.
    start_turn e s r E Hop. unfold process_modification in E. walk_in E.
    all: frame_leaf.
  - specialize (Hc eq_refl). clear Hb.
    start_turn e s r E Hop. unfold process_cancellation in E. walk_in E.
    all: frame_leaf.
  - clear Hb Hc.
    start_turn e s r E Hop. unfold process_view in E. walk_in E.
    all: frame_leaf.
  - clear Hb Hc.
    start_turn e s r E Hop. unfold process_main_menu in E. walk_in E.
    all: frame_leaf.
Qed.

Lemma store_changes_only_at_two_confirmations_witness :
  tickets (turn (hear "save") after_new_name) = tickets after_new_name.
Proof.
  apply (store_changes_only_at_two_confirmations (hear "save") after_new_name);
    discriminate.
Defined.

(* ------------------------------------------------------------------ *)
(** ** The station steps of Modify *)

(** The two station steps of Modify are not symmetric.  [update_source]
    stores any station it resolves, also the one that is the buffered
    destination; [update_destination] refuses the station that is the
    buffered source and holds the step. *)
Theorem modify_checks_the_destination_only :
  forall (e : env) (s : session) (c st : string),
    current_operation s = Some op_modify ->
    heard_command e = Some c ->
    match_station c (stations e) = Some st ->
    (modify_step_of s = Some modify_update_source ->
     outcome e s = Ok tt
     /\ d_source (ticket_details (turn e s)) = Some st
     /\ d_destination (ticket_details (turn e s))
        = d_destination (ticket_details s)
     /\ modify_step_of (turn e s) = Some modify_select_field
     /\ tickets (turn e s) = tickets s)
    /\ (modify_step_of s = Some modify_update_destination ->
        d_source (ticket_details s) = Some st ->
        outcome e s = Ok tt
        /\ same_dialog_state s (turn e s)
        /\ notices e s = (pending s ++ [same_station_notice])%list).
Proof.
  intros e s c st Hop Hh Hm. unfold same_dialog_state.
  split; [intros Hst|intros Hst Hsrc];
    start_turn e s r E Hop; unfold process_modification in E;
    repeat (progress (run_in E; fields in E;
                      rewrite ?Hst, ?Hh, ?Hm, ?Hsrc, ?String.eqb_refl in E));
    subst r; fields; autorewrite with settled; repeat split; assumption.
Qed.

Lemma modify_checks_the_destination_only_witness :
  (modify_step_of (run (map hear ["edit"; "AB12CD34"; "source"]) one_ticket)
   = Some modify_update_source ->
   outcome (hear "north")
           (run (map hear ["edit"; "AB12CD34"; "source"]) one_ticket) = Ok tt
   /\ d_source (ticket_details
                  (turn (hear "north")
                        (run (map hear ["edit"; "AB12CD34"; "source"]) one_ticket)))
      = Some "North"
   /\ d_destination (ticket_details
                       (turn (hear "north")
                             (run (map hear ["edit"; "AB12CD34"; "source"])
                                  one_ticket)))
      = d_destination (ticket_details
                         (run (map hear ["edit"; "AB12CD34"; "source"]) one_ticket))
   /\ modify_step_of (turn (hear "north")
                           (run (map hear ["edit"; "AB12CD34"; "source"]) one_ticket))
      = Some modify_select_field
   /\ tickets (turn (hear "north")
                    (run (map hear ["edit"; "AB12CD34"; "source"]) one_ticket))
      = tickets (run (map hear ["edit"; "AB12CD34"; "source"]) one_ticket))
  /\ (modify_step_of (run (map hear ["edit"; "AB12CD34"; "source"]) one_ticket)
      = Some modify_update_destination ->
      d_source (ticket_details
                  (run (map hear ["edit"; "AB12CD34"; "source"]) one_ticket))
      = Some "North" ->
      outcome (hear "north")
              (run (map hear ["edit"; "AB12CD34"; "source"]) one_ticket) = Ok tt
      /\ same_dialog_state
           (run (map hear ["edit"; "AB12CD34"; "source"]) one_ticket)
           (turn (hear "north")
                 (run (map hear ["edit"; "AB12CD34"; "source"]) one_ticket))
      /\ notices (hear "north")
                 (run (map hear ["edit"; "AB12CD34"; "source"]) one_ticket)
         = (pending (run (map hear ["edit"; "AB12CD34"; "source"]) one_ticket)
            ++ [same_station_notice])%list).
Proof.
  apply (modify_checks_the_destination_only
           (hear "north")
           (run (map hear ["edit"; "AB12CD34"; "source"]) one_ticket)
           "north" "North"); reflexivity.
Defined.

(* ------------------------------------------------------------------ *)
(** ** The travel-date step *)


